(** * MinecraftStatus: a shallow embedding of [mstbot.py]

    The bot keeps, for every Discord guild that ran [$setup], a polling task
    ([status_task]) that queries a Minecraft server, stores the roster and a
    running total of player-seconds in a MySQL database, and mirrors the
    result into the names of up to three voice channels.

    The embedding follows the source function by function.  The platform
    (Discord), the database and the remote server are modelled as far as the
    code observes them:

    - the database is three tables, with statements taking effect in program
      order (transactions, locking and SQL quoting are not modelled);
    - Discord is a list of guilds with their channels; every call that the
      source guards with [except discord.errors.Forbidden] may be refused,
      which the model reads off a permission flag of the channel or guild;
    - a guild object read by [get_guild] is a snapshot of its channel list,
      so a loop over channels found earlier can meet a channel that is gone
      ([NotFound]);
    - the outcome of the server query and the reading of the clock are
      inputs of one loop iteration; the clock counts seconds, and the
      console line that echoes the query is left out;
    - the columns that [$setup] does not write get the defaults of the
      schema, which is not part of [mstbot.py];
    - Python floats are idealised as exact rationals ([Q]);
    - a [str] is kept as its UTF-8 encoding, one [ascii] per byte;
    - the interpreter is CPython 3.11: [int()] follows its parser and the
      digits and white space of Unicode 14.0, and
      [asyncio.exceptions.TimeoutError] is the built-in [TimeoutError], the
      class that a socket timeout raises. *)

From Stdlib Require Import ZArith QArith Qround String Ascii List Lia DecimalString.
From stdpp Require Import gmap strings list fin_maps.

Open Scope string_scope.
Open Scope list_scope.
Open Scope Z_scope.

(** ** Python primitives used by the bot *)

Module Py.

(** [str(n)] for an [int]. *)
Definition str (n : Z) : string := NilZero.string_of_int (Z.to_int n).

(** The line feed. *)
Definition nl : string := String (ascii_of_nat 10) "".

(** [sep.join(parts)]. *)
Fixpoint join (sep : string) (parts : list string) : string :=
  match parts with
  | [] => ""
  | [p] => p
  | p :: rest => p +:+ sep +:+ join sep rest
  end.

(** [needle in hay] on strings. *)
Fixpoint contains (needle hay : string) : bool :=
  String.prefix needle hay ||
  match hay with
  | "" => false
  | String _ hay' => contains needle hay'
  end.

(** [s.split(sep)] for a one-character separator. *)
Fixpoint split (sep : ascii) (s : string) : list string :=
  match s with
  | "" => [""]
  | String c s' =>
      if Ascii.eqb c sep then "" :: split sep s'
      else match split sep s' with
           | h :: t => String c h :: t
           | [] => [String c ""]
           end
  end.

(** [s.lower()] on ASCII letters. *)
Fixpoint lower (s : string) : string :=
  match s with
  | "" => ""
  | String c s' =>
      let n := N_of_ascii c in
      String (if ((65 <=? n) && (n <=? 90))%N then ascii_of_N (n + 32) else c)
             (lower s')
  end.

Definition byte (c : ascii) : Z := Z.of_N (N_of_ascii c).

(** A continuation byte of UTF-8 and the six bits it carries. *)
Definition cont (c : ascii) : option Z :=
  let n := byte c in
  if (128 <=? n) && (n <? 192) then Some (n - 128) else None.

(** The code points of a string.  A [str] is kept as its UTF-8 encoding;
    a byte that belongs to no well-formed sequence stands for itself. *)
Fixpoint code_points (s : string) : list Z :=
  match s with
  | "" => []
  | String c0 s1 =>
      let n0 := byte c0 in
      let one (_ : unit) := n0 :: code_points s1 in
      if n0 <? 192 then one tt
      else
        match s1 with
        | "" => one tt
        | String c1 s2 =>
            match cont c1 with
            | None => one tt
            | Some n1 =>
                if n0 <? 224 then
                  let cp := (n0 - 192) * 64 + n1 in
                  if 128 <=? cp then cp :: code_points s2 else one tt
                else
                  match s2 with
                  | "" => one tt
                  | String c2 s3 =>
                      match cont c2 with
                      | None => one tt
                      | Some n2 =>
                          if n0 <? 240 then
                            let cp := ((n0 - 224) * 64 + n1) * 64 + n2 in
                            if (2048 <=? cp) && negb ((55296 <=? cp) && (cp <? 57344))
                            then cp :: code_points s3 else one tt
                          else
                            match s3 with
                            | "" => one tt
                            | String c3 s4 =>
                                match cont c3 with
                                | None => one tt
                                | Some n3 =>
                                    let cp := (((n0 - 240) * 64 + n1) * 64 + n2) * 64 + n3 in
                                    if (65536 <=? cp) && (cp <? 1114112)
                                    then cp :: code_points s4 else one tt
                                end
                            end
                      end
                  end
            end
        end
  end.

(** [str.isspace] beyond ASCII. *)
Definition unicode_space (cp : Z) : bool :=
  existsb (Z.eqb cp) [133; 160; 5760; 8232; 8233; 8239; 8287; 12288]
  || ((8192 <=? cp) && (cp <=? 8202)).

(** The code points of the digits zero of Unicode 14.0; the digits one to
    nine of a script follow its zero. *)
Definition decimal_zeros : list Z :=
  [
    48; 1632; 1776; 1984; 2406; 2534; 2662; 2790; 2918; 3046; 3174; 3302;
    3430; 3558; 3664; 3792; 3872; 4160; 4240; 6112; 6160; 6470; 6608; 6784;
    6800; 6992; 7088; 7232; 7248; 42528; 43216; 43264; 43472; 43504; 43600;
    44016; 65296; 66720; 68912; 69734; 69872; 69942; 70096; 70384; 70736;
    70864; 71248; 71360; 71472; 71904; 72016; 72784; 73040; 73120; 92768;
    92864; 93008; 120782; 120792; 120802; 120812; 120822; 123200; 123632;
    125264; 130032 ].

(** The value of a decimal digit of any script. *)
Definition decimal (cp : Z) : option Z :=
  (λ zero, cp - zero) <$> find (λ zero, (zero <=? cp) && (cp <? zero + 10)) decimal_zeros.

(** What [int()] makes of a character before it parses: white space and
    decimal digits beyond ASCII become a blank and an ASCII digit, any other
    character from 127 on a question mark; the characters below 127 stay. *)
Definition to_ascii (cp : Z) : ascii :=
  ascii_of_N (Z.to_N
    (if cp <? 127 then cp
     else if unicode_space cp then 32
     else match decimal cp with
          | Some d => 48 + d
          | None => 63
          end)).

Fixpoint of_list (l : list ascii) : string :=
  match l with
  | [] => ""
  | c :: l' => String c (of_list l')
  end.

Definition is_digit (c : ascii) : bool :=
  let n := N_of_ascii c in ((48 <=? n) && (n <=? 57))%N.

Definition digit_val (c : ascii) : Z := Z.of_N (N_of_ascii c) - 48.

(** The characters that the parser skips around a literal: tab, line feed,
    vertical tab, form feed, carriage return and blank. *)
Definition is_space (c : ascii) : bool :=
  let n := N_of_ascii c in
  (((9 <=? n) && (n <=? 13)) || (n =? 32))%N.

Fixpoint lstrip (s : string) : string :=
  match s with
  | String c s' => if is_space c then lstrip s' else s
  | "" => ""
  end.

Fixpoint rev_onto (s acc : string) : string :=
  match s with
  | "" => acc
  | String c s' => rev_onto s' (String c acc)
  end.

Definition strip (s : string) : string :=
  rev_onto (lstrip (rev_onto (lstrip s) "")) "".

(** Decimal digits with single underscores between them, as [int()]
    accepts; [prev] tells whether the previous character was a digit. *)
Fixpoint digits (acc : Z) (prev : bool) (s : string) : option Z :=
  match s with
  | "" => if prev then Some acc else None
  | String c s' =>
      if is_digit c then digits (10 * acc + digit_val c) true s'
      else if Ascii.eqb c "_" && prev then digits acc false s'
      else None
  end.

Fixpoint count_digits (s : string) : Z :=
  match s with
  | "" => 0
  | String c s' => (if is_digit c then 1 else 0) + count_digits s'
  end.

(** [int(s)] for a [str], in base ten, as CPython 3.11 computes it; [None]
    stands for [ValueError].  A literal of more than 4300 digits is
    refused. *)
Definition int (s : string) : option Z :=
  let literal := strip (of_list (map to_ascii (code_points s))) in
  if 4300 <? count_digits literal then None
  else
    match literal with
    | String "-" d => Z.opp <$> digits 0 false d
    | String "+" d => digits 0 false d
    | d => digits 0 false d
    end.

(** [int(x)] for a number: truncation towards zero. *)
Definition trunc (x : Q) : Z :=
  if Qle_bool 0 x then Qfloor x else Qceiling x.

(** [round(x)] with one argument: to the nearest integer, ties to the
    even one. *)
Definition round (x : Q) : Z :=
  let n := Qfloor x in
  match Qcompare (x - inject_Z n) (1 # 2) with
  | Lt => n
  | Gt => n + 1
  | Eq => if Z.even n then n else n + 1
  end.

(** ["%02d" % n]. *)
Definition pad2 (n : Z) : string :=
  if (0 <=? n) && (n <? 10) then "0" +:+ str n else str n.

(** [s[:-1]]: all but the last character. *)
Fixpoint drop_last (s : string) : string :=
  match s with
  | "" => ""
  | String c s' =>
      match s' with
      | "" => ""
      | String _ _ => String c (drop_last s')
      end
  end.

Fixpoint zeros (k : nat) : string :=
  match k with
  | O => ""
  | S k' => String "0" (zeros k')
  end.

(** ["%0<width>d" % n] for [n] that is not negative. *)
Definition zfill (width : nat) (n : Z) : string :=
  zeros (width - String.length (str n)) +:+ str n.

(** Year, month and day of the proleptic Gregorian calendar for a number of
    days since 1970-01-01. *)
Definition civil_from_days (days : Z) : Z * Z * Z :=
  let z := days + 719468 in
  let era := z / 146097 in
  let doe := z mod 146097 in
  let yoe := (doe - doe / 1460 + doe / 36524 - doe / 146096) / 365 in
  let doy := doe - (365 * yoe + yoe / 4 - yoe / 100) in
  let mp := (5 * doy + 2) / 153 in
  let d := doy - (153 * mp + 2) / 5 + 1 in
  let m := if mp <? 10 then mp + 3 else mp - 9 in
  let y := yoe + era * 400 + (if m <=? 2 then 1 else 0) in
  (y, m, d).

(** [str(dt)] for a [datetime] given in microseconds since the epoch:
    [YYYY-MM-DD HH:MM:SS], followed by the microseconds when there are
    any. *)
Definition str_datetime (dt : Z) : string :=
  let secs := dt / 1000000 in
  let micro := dt mod 1000000 in
  let '(y, m, d) := civil_from_days (secs / 86400) in
  let sod := secs mod 86400 in
  zfill 4 y +:+ "-" +:+ pad2 m +:+ "-" +:+ pad2 d +:+ " "
  +:+ pad2 (sod / 3600) +:+ ":" +:+ pad2 (sod mod 3600 / 60) +:+ ":" +:+ pad2 (sod mod 60)
  +:+ (if micro =? 0 then "" else "." +:+ zfill 6 micro).

End Py.

(** ** Regular expressions

    The three patterns of [validate_ip_port] are kept as syntax trees and
    matched with Brzozowski derivatives. *)

Module Re.

Inductive re : Type :=
| Void
| Eps
| Range (lo hi : ascii)
| Cat (r s : re)
| Alt (r s : re)
| Star (r : re).

Definition lit (c : ascii) : re := Range c c.
Definition plus (r : re) : re := Cat r (Star r).
Definition opt (r : re) : re := Alt r Eps.

Fixpoint rep (n : nat) (r : re) : re :=
  match n with
  | O => Eps
  | S n' => Cat r (rep n' r)
  end.

(** [r{lo,hi}] *)
Definition rep_between (lo hi : nat) (r : re) : re :=
  Cat (rep lo r) (rep (hi - lo) (opt r)).

(** A literal word. *)
Fixpoint word (s : string) : re :=
  match s with
  | "" => Eps
  | String c s' => Cat (lit c) (word s')
  end.

Definition in_range (c lo hi : ascii) : bool :=
  ((N_of_ascii lo <=? N_of_ascii c) && (N_of_ascii c <=? N_of_ascii hi))%N.

Fixpoint nullable (r : re) : bool :=
  match r with
  | Void => false
  | Eps => true
  | Range _ _ => false
  | Cat r1 r2 => nullable r1 && nullable r2
  | Alt r1 r2 => nullable r1 || nullable r2
  | Star _ => true
  end.

Fixpoint deriv (c : ascii) (r : re) : re :=
  match r with
  | Void => Void
  | Eps => Void
  | Range lo hi => if in_range c lo hi then Eps else Void
  | Cat r1 r2 =>
      if nullable r1 then Alt (Cat (deriv c r1) r2) (deriv c r2)
      else Cat (deriv c r1) r2
  | Alt r1 r2 => Alt (deriv c r1) (deriv c r2)
  | Star r1 => Cat (deriv c r1) (Star r1)
  end.

(** The whole of [s] is a word of [r]. *)
Fixpoint fullmatch (r : re) (s : string) : bool :=
  match s with
  | "" => nullable r
  | String c s' => fullmatch (deriv c r) s'
  end.

(** Some prefix of [s] is a word of [r]: [re.search] for a pattern all of
    whose alternatives start with [^]. *)
Fixpoint startmatch (r : re) (s : string) : bool :=
  nullable r ||
  match s with
  | "" => false
  | String c s' => startmatch (deriv c r) s'
  end.

End Re.

(** ** Discord as the bot sees it *)

(** [discord.ChannelType] *)
Inductive ChannelType : Type := text | voice | category.

Definition ChannelType_eqb (a b : ChannelType) : bool :=
  match a, b with
  | text, text | voice, voice | category, category => true
  | _, _ => false
  end.

(** A channel object.  The three flags say whether Discord lets the bot
    rename, delete or post to the channel; a refused call raises
    [discord.errors.Forbidden]. *)
Record Channel : Type := mkChannel {
  ch_id : Z;
  ch_name : string;
  ch_type : ChannelType;
  ch_guild_name : string;
  ch_may_edit : bool;
  ch_may_delete : bool;
  ch_may_send : bool
}.

Record Guild : Type := mkGuild {
  g_id : Z;
  g_name : string;
  g_channels : list Channel;
  g_may_create : bool
}.

(** The invocation context of a command. *)
Record Context : Type := mkContext {
  ctx_guild : Guild;
  ctx_may_send : bool
}.

(** ** The database *)

(** A row of table [servers].  [last_query] is a [DATETIME], kept here in
    microseconds since the epoch. *)
Record ServerRow : Type := mkServerRow {
  row_ip : string;
  row_port : Z;
  row_announce_joins : bool;
  row_announce_joins_id : option Z;
  row_hours : bool;
  row_last_query : option Z
}.

(** ** The process: guilds, the registry [servers] and the three tables *)

Record World : Type := mkWorld {
  bot_guilds : list Guild;
  servers : list Z;
  tbl_servers : gmap Z ServerRow;
  tbl_names : list (Z * string);
  tbl_times : gmap Z Q
}.

Definition with_guilds (gs : list Guild) (w : World) : World :=
  mkWorld gs (servers w) (tbl_servers w) (tbl_names w) (tbl_times w).
Definition with_servers (l : list Z) (w : World) : World :=
  mkWorld (bot_guilds w) l (tbl_servers w) (tbl_names w) (tbl_times w).
Definition with_tbl_servers (t : gmap Z ServerRow) (w : World) : World :=
  mkWorld (bot_guilds w) (servers w) t (tbl_names w) (tbl_times w).
Definition with_tbl_names (t : list (Z * string)) (w : World) : World :=
  mkWorld (bot_guilds w) (servers w) (tbl_servers w) t (tbl_times w).
Definition with_tbl_times (t : gmap Z Q) (w : World) : World :=
  mkWorld (bot_guilds w) (servers w) (tbl_servers w) (tbl_names w) t.

(** What an observer of the process sees. *)
Inductive Event : Type :=
| EvPrint (line : string)
| EvCtxSend (guild : Z) (msg : string)
| EvCtxSendForbidden (guild : Z) (msg : string)
| EvSend (chan : Z) (msg : string)
| EvSendForbidden (chan : Z) (msg : string)
| EvEdit (chan : Z) (name : string)
| EvEditForbidden (chan : Z) (name : string)
| EvDelete (chan : Z)
| EvDeleteForbidden (chan : Z)
| EvCreate (guild : Z) (name : string)
| EvCreateForbidden (guild : Z) (name : string)
| EvCleanup (sid : Z)
| EvCreateTask (sid : Z).

(** The exceptions that occur in the modelled code, under the names of their
    classes; [TimeoutError] is [asyncio.exceptions.TimeoutError], the class
    that the [except] clauses of the source name. *)
Inductive Exc : Type :=
| TimeoutError
| ConnectionRefusedError
| gaierror
| Forbidden
| NotFound
| TypeError
| UnboundLocalError.

Inductive Res (A : Type) : Type :=
| Val (a : A)
| Raised (e : Exc).
Arguments Val {A} a.
Arguments Raised {A} e.

(** ** A state, output and exception monad for the effectful code *)

Definition M (A : Type) : Type := World → Res A * World * list Event.

Definition ret {A} (a : A) : M A := λ w, (Val a, w, []).

Definition bind {A B} (m : M A) (k : A → M B) : M B := λ w,
  match m w with
  | (Val a, w1, t1) =>
      match k a w1 with
      | (r, w2, t2) => (r, w2, t1 ++ t2)
      end
  | (Raised e, w1, t1) => (Raised e, w1, t1)
  end.

Notation "x <- m ;; k" := (bind m (λ x, k))
  (at level 20, m at level 99, k at level 200, only parsing).
Notation "' p <- m ;; k" := (bind m (λ x, match x with p => k end))
  (at level 20, p pattern, m at level 99, k at level 200, only parsing).
Notation "m ;;; k" := (bind m (λ _, k))
  (at level 100, k at level 200, only parsing, right associativity).

Definition raise {A} (e : Exc) : M A := λ w, (Raised e, w, []).
Definition get : M World := λ w, (Val w, w, []).
Definition modify (f : World → World) : M unit := λ w, (Val tt, f w, []).
Definition emit (ev : Event) : M unit := λ w, (Val tt, w, [ev]).

(** [try: m  except ...: handler]; [handler e = None] when no clause
    catches [e]. *)
Definition try_except {A} (m : M A) (handler : Exc → option (M A)) : M A := λ w,
  match m w with
  | (Raised e, w1, t1) =>
      match handler e with
      | Some h =>
          match h w1 with
          | (r, w2, t2) => (r, w2, t1 ++ t2)
          end
      | None => (Raised e, w1, t1)
      end
  | out => out
  end.

(** [for x in xs: body x] *)
Fixpoint for_each {A} (xs : list A) (body : A → M unit) : M unit :=
  match xs with
  | [] => ret tt
  | x :: rest => body x ;;; for_each rest body
  end.

(** [print(a, b, ...)] *)
Definition print (args : list string) : M unit := emit (EvPrint (Py.join " " args)).

(** Reading a local variable that may not have been assigned yet. *)
Definition local {A} (v : option A) : M A :=
  match v with
  | Some a => ret a
  | None => raise UnboundLocalError
  end.

(** ** Platform calls *)

Definition update_guild (gid : Z) (f : Guild → Guild) (w : World) : World :=
  with_guilds (map (λ g, if g_id g =? gid then f g else g) (bot_guilds w)) w.

Definition set_channels (cs : list Channel) (g : Guild) : Guild :=
  mkGuild (g_id g) (g_name g) cs (g_may_create g).

Definition rename (n : string) (c : Channel) : Channel :=
  mkChannel (ch_id c) n (ch_type c) (ch_guild_name c)
            (ch_may_edit c) (ch_may_delete c) (ch_may_send c).

Definition channel_exists (cid : Z) (w : World) : bool :=
  existsb (λ g, existsb (λ c, ch_id c =? cid) (g_channels g)) (bot_guilds w).

(** Snowflake ids grow: a new channel gets an id above all present ones. *)
Definition fresh_id (w : World) : Z :=
  1 + fold_right Z.max 0
        (flat_map (λ g, map ch_id (g_channels g)) (bot_guilds w)).

(** The process after the channel [cid] got the name [n]. *)
Definition renamed (cid : Z) (n : string) (w : World) : World :=
  with_guilds
    (map (λ g, set_channels
       (map (λ c', if ch_id c' =? cid then rename n c' else c') (g_channels g)) g)
       (bot_guilds w)) w.

(** The process after the channel [cid] is gone. *)
Definition without_channel (cid : Z) (w : World) : World :=
  with_guilds
    (map (λ g, set_channels
       (List.filter (λ c', negb (ch_id c' =? cid)) (g_channels g)) g)
       (bot_guilds w)) w.

(** The process after a voice channel named [n] was added to guild [g]; the
    overwrites of the source let the bot manage it. *)
Definition with_new_channel (g : Guild) (n : string) (w : World) : World :=
  update_guild (g_id g)
    (λ g', set_channels
       (g_channels g' ++ [mkChannel (fresh_id w) n voice (g_name g) true true false]) g')
    w.

(** [await channel.edit(name=n)] *)
Definition channel_edit (c : Channel) (n : string) : M unit :=
  w <- get ;;
  if negb (channel_exists (ch_id c) w) then raise NotFound
  else if negb (ch_may_edit c) then
    emit (EvEditForbidden (ch_id c) n) ;;; raise Forbidden
  else
    modify (renamed (ch_id c) n) ;;;
    emit (EvEdit (ch_id c) n).

(** [await channel.delete()] *)
Definition channel_delete (c : Channel) : M unit :=
  w <- get ;;
  if negb (channel_exists (ch_id c) w) then raise NotFound
  else if negb (ch_may_delete c) then
    emit (EvDeleteForbidden (ch_id c)) ;;; raise Forbidden
  else
    modify (without_channel (ch_id c)) ;;;
    emit (EvDelete (ch_id c)).

(** [await guild.create_voice_channel(n, overwrites=overwrites)] *)
Definition create_voice_channel (g : Guild) (n : string) : M unit :=
  if negb (g_may_create g) then
    emit (EvCreateForbidden (g_id g) n) ;;; raise Forbidden
  else
    modify (with_new_channel g n) ;;;
    emit (EvCreate (g_id g) n).

(** [await chan.send(msg)] *)
Definition chan_send (c : Channel) (msg : string) : M unit :=
  if ch_may_send c then emit (EvSend (ch_id c) msg)
  else emit (EvSendForbidden (ch_id c) msg) ;;; raise Forbidden.

(** [await ctx.send(msg)] *)
Definition ctx_send (ctx : Context) (msg : string) : M unit :=
  if ctx_may_send ctx then emit (EvCtxSend (g_id (ctx_guild ctx)) msg)
  else emit (EvCtxSendForbidden (g_id (ctx_guild ctx)) msg) ;;; raise Forbidden.

(** ** Helpers of [mstbot.py] *)

(** [get_server_by_id]: the first guild of [bot.guilds] with that id, or
    [None]. *)
Definition get_server_by_id (w : World) (sid : Z) : option Guild :=
  find (λ server, g_id server =? sid) (bot_guilds w).

(** [find_channels(serv=..., chanid=..., channame=..., channamesearch=...,
    chantype=...)].  Every caller passes [serv]; the [sid] parameter of the
    source is never used and left out. *)
Definition find_channels (serv : Guild) (chanid : option Z)
    (channame : option string) (channamesearch : string)
    (chantype : option ChannelType) : list Channel :=
  List.filter (λ c,
    negb (match chanid with
          | Some i => negb (ch_id c =? i)
          | None => false
          end)
    && negb (match channame with
             | Some n => String.eqb (Py.lower channamesearch) "equal"
                         && negb (String.eqb (ch_name c) n)
             | None => false
             end)
    && negb (match channame with
             | Some n => String.eqb (Py.lower channamesearch) "in"
                         && negb (Py.contains n (ch_name c))
             | None => false
             end)
    && negb (match chantype with
             | Some t => negb (ChannelType_eqb (ch_type c) t)
             | None => false
             end))
    (g_channels serv).

(** The outcome of one round trip to the Minecraft server: an answer, or the
    exception that the call raises.  [QueryTimeout] stands for
    [asyncio.exceptions.TimeoutError], [QueryRefused] for
    [ConnectionRefusedError] and [QueryUnresolved] for [socket.gaierror];
    a call that raises anything else is not among the outcomes. *)
Inductive QueryResult : Type :=
| QueryOk (online capacity : Z) (names : list string) (motd : string)
| QueryTimeout
| QueryRefused
| QueryUnresolved.

(** [getStatus]: [asyncio.wait_for(serv.async_query(), timeout=1.0)] and the
    four fields of the answer. *)
Definition getStatus (q : QueryResult) : M (Z * Z * list string * string) :=
  match q with
  | QueryOk p m n d => ret (p, m, n, d)
  | QueryTimeout => raise TimeoutError
  | QueryRefused => raise ConnectionRefusedError
  | QueryUnresolved => raise gaierror
  end.

(** [cursor.fetchone()] yields [None] when no row matches, and subscripting
    it raises [TypeError]. *)
Definition fetchone {A} (row : option A) : M A :=
  match row with
  | Some r => ret r
  | None => raise TypeError
  end.

Definition getMCIP (sid : Z) : M (string * Z) :=
  w <- get ;;
  row <- fetchone (tbl_servers w !! sid) ;;
  ret (row_ip row, row_port row).

Definition getMCNames (sid : Z) : M (list string) :=
  w <- get ;;
  ret (map snd (List.filter (λ r, fst r =? sid) (tbl_names w))).

Definition getMCQueryTime (sid : Z) : M (option Z) :=
  w <- get ;;
  row <- fetchone (tbl_servers w !! sid) ;;
  ret (row_last_query row).

Definition getPersonSeconds (sid : Z) : M Z :=
  w <- get ;;
  t <- fetchone (tbl_times w !! sid) ;;
  ret (Py.trunc t).

Definition getShowHours (sid : Z) : M bool :=
  w <- get ;;
  row <- fetchone (tbl_servers w !! sid) ;;
  ret (row_hours row).

Definition getMCJoinAnnounce (sid : Z) : M (bool * option Z) :=
  w <- get ;;
  row <- fetchone (tbl_servers w !! sid) ;;
  ret (row_announce_joins row, row_announce_joins_id row).

(** [DELETE FROM names WHERE id=sid], then one [INSERT] for all [names]. *)
Definition setMCNames (sid : Z) (names : list string) : M unit :=
  modify (λ w, with_tbl_names
    (List.filter (λ r, negb (fst r =? sid)) (tbl_names w)
       ++ map (λ name, (sid, name)) names) w).

(** [dt.strftime('%Y-%m-%d %H:%M:%S')] drops the microseconds. *)
Definition strftime_seconds (dt : Z) : Z := 1000000 * (dt / 1000000).

Definition set_last_query (t : option Z) (r : ServerRow) : ServerRow :=
  mkServerRow (row_ip r) (row_port r) (row_announce_joins r)
              (row_announce_joins_id r) (row_hours r) t.

Definition setMCQueryTime (sid : Z) (dt : Z) : M unit :=
  modify (λ w, with_tbl_servers
    (alter (set_last_query (Some (strftime_seconds dt))) sid (tbl_servers w)) w).

(** [UPDATE times SET time=time+seconds WHERE id=sid] *)
Definition incrementPersonSeconds (sid : Z) (seconds : Q) : M unit :=
  modify (λ w, with_tbl_times
    (alter (λ t, (t + seconds)%Q) sid (tbl_times w)) w).

(** [timedelta.total_seconds()] of a difference in microseconds. *)
Definition total_seconds (td : Z) : Q := Qmake td 1000000.

(** [safe_send(msg, ctx=..., chan=..., format=...)] *)
Definition safe_send (msg : string) (ctx : option Context)
    (chan : option Channel) (format : string) : M unit :=
  try_except
    (match ctx, chan with
     | Some c, _ => ctx_send c (format +:+ msg +:+ format)
     | None, Some ch => chan_send ch (format +:+ msg +:+ format)
     | None, None => ret tt
     end)
    (λ e, match e with
          | Forbidden =>
              Some (match ctx, chan with
                    | Some c, _ =>
                        print [g_name (ctx_guild c);
                               "Error: I don't have permission to send messages here."]
                    | None, Some ch =>
                        print [ch_guild_name ch;
                               "Error: I don't have permission to send messages here."]
                    | None, None => ret tt
                    end)
          | _ => None
          end).

(** [log(ctx, *msg)] *)
Definition log (ctx : Context) (msg : list string) : M unit :=
  print [g_name (ctx_guild ctx); "Log:"; Py.join " " msg] ;;;
  safe_send (Py.join " " msg) (Some ctx) None "".

(** ** Address validation *)

Definition alnum : Re.re := Re.Alt (Re.Range "a" "z") (Re.Range "0" "9").

(** [([a-z0-9]+(-[a-z0-9]+)*\.)+[a-z]{2,6}] *)
Definition domain_re : Re.re :=
  Re.Cat
    (Re.plus (Re.Cat (Re.Cat (Re.plus alnum)
                             (Re.Star (Re.Cat (Re.lit "-") (Re.plus alnum))))
                     (Re.lit ".")))
    (Re.rep_between 2 6 (Re.Range "a" "z")).

(** [[0-9]|[1-9][0-9]|1[0-9]{2}|2[0-4][0-9]|25[0-5]] *)
Definition octet_re : Re.re :=
  Re.Alt (Re.Range "0" "9")
 (Re.Alt (Re.Cat (Re.Range "1" "9") (Re.Range "0" "9"))
 (Re.Alt (Re.Cat (Re.lit "1") (Re.rep 2 (Re.Range "0" "9")))
 (Re.Alt (Re.Cat (Re.lit "2") (Re.Cat (Re.Range "0" "4") (Re.Range "0" "9")))
         (Re.Cat (Re.word "25") (Re.Range "0" "5"))))).

(** [(octet\.){3}octet] *)
Definition addr_re : Re.re :=
  Re.Cat (Re.rep 3 (Re.Cat octet_re (Re.lit "."))) octet_re.

(** [(^127\.)|(^10\.)|(^172\.1[6-9]\.)|(^172\.2[0-9]\.)|(^172\.3[0-1]\.)|(^192\.168\.)] *)
Definition private_re : Re.re :=
  Re.Alt (Re.word "127.")
 (Re.Alt (Re.word "10.")
 (Re.Alt (Re.Cat (Re.word "172.1") (Re.Cat (Re.Range "6" "9") (Re.lit ".")))
 (Re.Alt (Re.Cat (Re.word "172.2") (Re.Cat (Re.Range "0" "9") (Re.lit ".")))
 (Re.Alt (Re.Cat (Re.word "172.3") (Re.Cat (Re.Range "0" "1") (Re.lit ".")))
         (Re.word "192.168."))))).

(** [validate_ip_port(ctx, ip, port)]; the result [None] stands for the
    pair [(None, None)].

    [re.search("^R$", ip)] followed by the test [m.group(0) != ip] accepts
    [ip] exactly when all of it is a word of [R] ([$] may also match before a
    final newline, which is what the comparison with [group(0)] excludes),
    hence [Re.fullmatch]. *)
Definition validate_ip_port (ctx : Context) (ip : string) (port : Z)
    : M (option (string * Z)) :=
  let split := Py.split ":" ip in
  let ip := if (1 <? length split)%nat then nth 0 split "" else ip in
  match (if (1 <? length split)%nat then Py.int (nth 1 split "") else Some port) with
  | None =>
      log ctx [Py.str port; "is not a valid port number, please try again."] ;;;
      ret None
  | Some port =>
      if negb ((0 <=? port) && (port <? 65536)) then
        log ctx [Py.str port; "is not a valid port number, please try again."] ;;;
        ret None
      else if negb (Re.fullmatch domain_re ip) && negb (Re.fullmatch addr_re ip) then
        log ctx [ip; "is not a valid domain or IP address, please try again."] ;;;
        ret None
      else if Re.startmatch private_re ip then
        log ctx [ip; "is a private IP. I won't be able to query it."] ;;;
        ret None
      else ret (Some (ip, port))
  end.

(** ** Teardown *)

(** [servers.remove(sid)]: the first occurrence goes. *)
Fixpoint list_remove (sid : Z) (l : list Z) : list Z :=
  match l with
  | [] => []
  | x :: rest => if x =? sid then rest else x :: list_remove sid rest
  end.

(** [do_bot_cleanup(sid, ctx=...)].  [JavaServer(ip, port)] is a constructor
    call and never [None], so the branch under [if mc is None] is dead. *)
Definition do_bot_cleanup (sid : Z) (ctx : option Context) : M unit :=
  emit (EvCleanup sid) ;;;
  modify (λ w, if existsb (Z.eqb sid) (servers w)
               then with_servers (list_remove sid (servers w)) w else w) ;;;
  w <- get ;;
  deleted <-
    match get_server_by_id w sid with
    | Some currServ =>
        let iChannels := find_channels currServ None (Some "IP: ") "in" (Some voice) in
        let pChannels := find_channels currServ None (Some "Players: ") "in" (Some voice) in
        let hChannels := find_channels currServ None (Some "Player Hrs: ") "in" (Some voice) in
        let channels := iChannels ++ pChannels ++ hChannels in
        try_except
          (for_each channels channel_delete ;;; ret true)
          (λ e, match e with
                | Forbidden =>
                    Some (print [g_name currServ;
                                 "Error: I don't have permission to delete channels."] ;;;
                          ret false)
                | _ => None
                end)
    | None => ret false
    end ;;
  ' (ip, port) <- getMCIP sid ;;
  modify (λ w, with_tbl_servers (delete sid (tbl_servers w)) w) ;;;
  modify (λ w, with_tbl_names (List.filter (λ r, negb (fst r =? sid)) (tbl_names w)) w) ;;;
  modify (λ w, with_tbl_times (delete sid (tbl_times w)) w) ;;;
  match ctx with
  | None => print ["Cleaned up"; Py.str sid; "."]
  | Some c =>
      log c ["Cleaned up! Removed"; ip; "querier, deleted";
             g_name (ctx_guild c) +:+ "'s data from my server,";
             if deleted then "and removed my status channels."
             else "but failed to remove my status channels. "]
  end.

(** ** Commands *)

Definition set_announce (ann : bool) (cid : option Z) (r : ServerRow) : ServerRow :=
  mkServerRow (row_ip r) (row_port r) ann cid (row_hours r) (row_last_query r).

(** [setAnn(ctx, ann, cid)].  The opening test compares the list returned by
    [find_channels] with [None] and so never fires.  Every caller passes a
    channel id together with [ann = True]. *)
Definition setAnn (ctx : Context) (ann : bool) (cid : option Z) : M unit :=
  ' (ip, _) <- getMCIP (g_id (ctx_guild ctx)) ;;
  modify (λ w, with_tbl_servers
    (alter (set_announce ann (if ann then cid else None))
           (g_id (ctx_guild ctx)) (tbl_servers w)) w) ;;;
  log ctx [if ann
           then "Announcing when a player joins " +:+ ip +:+ " in <#"
                +:+ match cid with Some i => Py.str i | None => "None" end +:+ ">."
           else "Not announcing when a player joins " +:+ ip +:+ "."].

(** Modelled from the spec: the table definitions are not part of the
    sources.  A fresh [servers] row has announcements and the hours display
    off and no last-query time ("null means never queried"); a fresh [times]
    row starts the counter at zero. *)
Definition fresh_server_row (ip : string) (port : Z) : ServerRow :=
  mkServerRow ip port false None false None.
Definition fresh_time : Q := 0%Q.

Definition set_ip_port (ip : string) (port : Z) (r : ServerRow) : ServerRow :=
  mkServerRow ip port (row_announce_joins r) (row_announce_joins_id r)
              (row_hours r) (row_last_query r).

(** [Admin.setup].  [q] is the outcome of [mc.query()].  The call is
    synchronous: when its socket times out it raises [socket.timeout], which
    from Python 3.11 on is the class of the first [except] clause (before,
    it is none of the classes caught here, and none of the outcomes of
    [QueryResult]). *)
Definition setup (ctx : Context) (ip : string) (port : Z) (annChanID : option Z)
    (q : QueryResult) : M unit :=
  v <- validate_ip_port ctx ip port ;;
  match v with
  | None => ret tt
  | Some (val_ip, val_port) =>
      if String.eqb val_ip "" then ret tt else
      let gid := g_id (ctx_guild ctx) in
      queried <-
        try_except
          (' (_, _, names, _) <- getStatus q ;; ret (Some names))
          (λ e, match e with
                | TimeoutError =>
                    Some (log ctx ["Setup query error, query port enabled?"] ;;; ret None)
                | ConnectionRefusedError =>
                    Some (log ctx ["Setup query failed, server down?"] ;;; ret None)
                | _ => None
                end) ;;
      match queried with
      | None => ret tt
      | Some names =>
          modify (λ w, with_tbl_servers
            (match tbl_servers w !! gid with
             | Some r => <[gid := set_ip_port val_ip port r]> (tbl_servers w)
             | None => <[gid := fresh_server_row val_ip port]> (tbl_servers w)
             end) w) ;;;
          setMCNames gid names ;;;
          modify (λ w, with_tbl_times
            (match tbl_times w !! gid with
             | Some _ => tbl_times w
             | None => <[gid := fresh_time]> (tbl_times w)
             end) w) ;;;
          match annChanID with
          | None => setAnn ctx false None
          | Some cid => setAnn ctx true (Some cid)
          end ;;;
          w <- get ;;
          (if negb (existsb (Z.eqb gid) (servers w)) then
             emit (EvCreateTask gid) ;;;
             modify (λ w, with_servers (servers w ++ [gid]) w)
           else ret tt) ;;;
          log ctx ["Setup new server query with IP: " +:+ val_ip]
      end
  end.

(** [Admin.cleanup] *)
Definition cleanup (ctx : Context) : M unit :=
  do_bot_cleanup (g_id (ctx_guild ctx)) (Some ctx).

(** ["%d:%02d:%02d" % (hour, minutes, seconds)] after the reductions of
    [Other.status]. *)
Definition total_player_time (seconds : Z) : string :=
  let seconds := seconds mod (24 * 3600) in
  let hour := seconds / 3600 in
  let seconds := seconds mod 3600 in
  let minutes := seconds / 60 in
  let seconds := seconds mod 60 in
  Py.str hour +:+ ":" +:+ Py.pad2 minutes +:+ ":" +:+ Py.pad2 seconds.

(** [Other.status].  [q] is the outcome of the query. *)
Definition status (ctx : Context) (q : QueryResult) : M unit :=
  ' (ip, port) <- getMCIP (g_id (ctx_guild ctx)) ;;
  ' (players, max, _, motd) <- getStatus q ;;
  seconds <- getPersonSeconds (g_id (ctx_guild ctx)) ;;
  safe_send ("Status:" +:+ Py.nl +:+ "  " +:+ ip +:+ Py.nl +:+ "  " +:+ motd
             +:+ Py.nl +:+ Py.nl +:+ "  Players: " +:+ Py.str players +:+ "/"
             +:+ Py.str max +:+ Py.nl +:+ "  Total Player Time: "
             +:+ total_player_time seconds)
    (Some ctx) None "```".

(** [Other.players].  The message is built as the source builds it: a line
    per name is appended to the heading, then the last character goes. *)
Definition players (ctx : Context) (q : QueryResult) : M unit :=
  ' (ip, port) <- getMCIP (g_id (ctx_guild ctx)) ;;
  ' (_, _, names, _) <- getStatus q ;;
  let pStr := fold_left (λ pStr name, pStr +:+ ("  " +:+ name +:+ Py.nl)) names
                        ("Online Players:" +:+ Py.nl) in
  let pStr := Py.drop_last pStr in
  safe_send pStr (Some ctx) None "```".

(** [str(last)] for what [getMCQueryTime] returns. *)
Definition str_last (last : option Z) : string :=
  match last with
  | Some dt => Py.str_datetime dt
  | None => "None"
  end.

(** [Other.lastquery] *)
Definition lastquery (ctx : Context) : M unit :=
  ' (ip, port) <- getMCIP (g_id (ctx_guild ctx)) ;;
  last <- getMCQueryTime (g_id (ctx_guild ctx)) ;;
  safe_send ("I last queried " +:+ ip +:+ " at " +:+ str_last last +:+ " UTC")
    (Some ctx) None "".

Definition set_hours (hours : bool) (r : ServerRow) : ServerRow :=
  mkServerRow (row_ip r) (row_port r) (row_announce_joins r)
              (row_announce_joins_id r) hours (row_last_query r).

(** [setHours(ctx, hours)] *)
Definition setHours (ctx : Context) (hours : bool) : M unit :=
  ' (ip, _) <- getMCIP (g_id (ctx_guild ctx)) ;;
  modify (λ w, with_tbl_servers
    (alter (set_hours hours) (g_id (ctx_guild ctx)) (tbl_servers w)) w) ;;;
  log ctx [if hours
           then "Displaying total player hours for " +:+ ip +:+ "."
           else "Not displaying total player hours for " +:+ ip +:+ "."].

(** [Admin.announce], [Admin.noannounce], [Admin.showhours] and
    [Admin.nohours] *)
Definition announce (ctx : Context) (chanid : Z) : M unit := setAnn ctx true (Some chanid).
Definition noannounce (ctx : Context) : M unit := setAnn ctx false None.
Definition showhours (ctx : Context) : M unit := setHours ctx true.
Definition nohours (ctx : Context) : M unit := setHours ctx false.

(** ** The polling task *)

(** The local variables of [status_task] that outlive one iteration.  A
    variable that was never assigned is [None]; reading it raises
    [UnboundLocalError]. *)
Record Locals : Type := mkLocals {
  first_iter : bool;
  loc_players : option Z;
  loc_max : option Z;
  loc_names : option (list string);
  loc_lastTime : option Z;
  loc_lastSeconds : option Z;
  loc_currTime : option Z
}.

(** The locals when the task starts. *)
Definition task_start : Locals :=
  mkLocals true None None None None None None.

Definition query_failed (loc : Locals) : Locals :=
  mkLocals (first_iter loc) (Some (-1)) (loc_max loc) (loc_names loc)
           (loc_lastTime loc) (Some (-1)) (loc_currTime loc).

Definition end_of_iteration (loc : Locals) : Locals :=
  mkLocals false (loc_players loc) (loc_max loc) (loc_names loc)
           (loc_lastTime loc) (loc_lastSeconds loc) (loc_currTime loc).

(** How one iteration ends: [await asyncio.sleep(wait)] and another turn of
    the loop, or [return]. *)
Inductive Outcome : Type :=
| Sleep (wait : Z)
| Return.

(** The names announced: [list(set(names) - set(oldNames))].  Python leaves
    the order of the list open; here it is the order of [elements]. *)
Definition joined (names oldNames : list string) : list string :=
  elements ((list_to_set names : gset string) ∖ list_to_set oldNames).

(** The body of the [try] statement (lines 484-518).  The locals are
    returned as they stand at its end; the only exceptions the [except]
    clauses catch come from [getStatus], before any of them is assigned.
    The "Query:" console line is left out. *)
Definition query_block (sid : Z) (currServ : Guild) (q : QueryResult)
    (now : Z) (loc : Locals) : M Locals :=
  oldNames <- getMCNames sid ;;
  ' (players, max, names, _) <- getStatus q ;;
  lastTime <- getMCQueryTime sid ;;
  lastSeconds <- getPersonSeconds sid ;;
  let currTime := now in
  let lastTime := match lastTime with
                  | None => currTime
                  | Some t => t
                  end in
  setMCNames sid names ;;;
  setMCQueryTime sid currTime ;;;
  (if negb (first_iter loc) then
     incrementPersonSeconds sid
       (inject_Z (Z.of_nat (length names)) * total_seconds (currTime - lastTime))%Q
   else ret tt) ;;;
  ' (announceJoin, annChanId) <- getMCJoinAnnounce sid ;;
  match announceJoin, annChanId with
  | true, Some annChanId =>
      let jNames := joined names oldNames in
      for_each jNames (λ name,
        let aChannels := find_channels currServ (Some annChanId) None "equal" None in
        match aChannels with
        | chan :: _ =>
            safe_send (name +:+ " joined the game!") None (Some chan) "" ;;;
            print [g_name currServ; "Announced player(s) join."]
        | [] => ret tt
        end)
  | _, _ => ret tt
  end ;;;
  ret (mkLocals (first_iter loc) (Some players) (Some max) (Some names)
                (Some lastTime) (Some lastSeconds) (Some currTime)).

(** The [try] statement with its two [except] clauses. *)
Definition query_phase (sid : Z) (currServ : Guild) (q : QueryResult)
    (now : Z) (loc : Locals) : M Locals :=
  try_except (query_block sid currServ q now loc)
    (λ e, match e with
          | TimeoutError =>
              Some (print [g_name currServ; "Timeout, server lagging?"] ;;;
                    ret (query_failed loc))
          | ConnectionRefusedError | gaierror =>
              Some (print [g_name currServ; "Cannot connect to server, down?"] ;;;
                    ret (query_failed loc))
          | _ => None
          end).

(** The rename that the three display blocks share: [channel.edit] under
    [try], with [wait = 301] after it; on [Forbidden] the teardown and
    [return]. *)
Definition edit_or_cleanup (sid : Z) (currServ : Guild) (what : string)
    (c : Channel) (n : string) : M Outcome :=
  try_except
    (print [g_name currServ; what] ;;;
     channel_edit c n ;;;
     ret (Sleep 301))
    (λ e, match e with
          | Forbidden =>
              Some (print [g_name currServ;
                           "Error: I don't have permission to edit channels. Try deleting the channels I create. Then, run the `setup` command again."] ;;;
                    do_bot_cleanup sid None ;;;
                    ret Return)
          | _ => None
          end).

(** Lines 541-556. *)
Definition ip_block (sid : Z) (currServ : Guild) (ip : string)
    (iChannels : list Channel) (wait : Z) : M Outcome :=
  match iChannels with
  | c :: _ =>
      let lastIPName := ch_name c in
      let ipStr := "IP: " +:+ ip in
      if negb (String.eqb lastIPName ipStr)
      then edit_or_cleanup sid currServ "Update: Ip changed!" c ipStr
      else ret (Sleep wait)
  | [] =>
      create_voice_channel currServ ("IP: " +:+ ip) ;;;
      ret (Sleep wait)
  end.

(** Lines 558-578. *)
Definition players_block (sid : Z) (currServ : Guild) (loc : Locals)
    (pChannels : list Channel) (wait : Z) : M Outcome :=
  match pChannels with
  | c :: _ =>
      let lastPName := ch_name c in
      players <- local (loc_players loc) ;;
      pStr <- (if players =? -1 then ret lastPName
               else max <- local (loc_max loc) ;;
                    ret ("Players: " +:+ Py.str players +:+ "/" +:+ Py.str max)) ;;
      if negb (String.eqb lastPName pStr)
      then edit_or_cleanup sid currServ "Update: Players changed!" c pStr
      else ret (Sleep wait)
  | [] =>
      players <- local (loc_players loc) ;;
      max <- local (loc_max loc) ;;
      create_voice_channel currServ
        ("Players: " +:+ Py.str players +:+ "/" +:+ Py.str max) ;;;
      ret (Sleep wait)
  end.

(** Lines 580-597. *)
Definition hours_block (sid : Z) (currServ : Guild) (loc : Locals)
    (tChannels : list Channel) (wait : Z) : M Outcome :=
  showHours <- getShowHours sid ;;
  shown <- (if showHours && negb (first_iter loc)
            then lastSeconds <- local (loc_lastSeconds loc) ;;
                 ret (negb (lastSeconds =? -1))
            else ret false) ;;
  if shown : bool then
    lastSeconds <- local (loc_lastSeconds loc) ;;
    names <- local (loc_names loc) ;;
    currTime <- local (loc_currTime loc) ;;
    lastTime <- local (loc_lastTime loc) ;;
    let tStr := "Player Hrs: " +:+
      Py.str (Py.round ((inject_Z lastSeconds
                         + inject_Z (Z.of_nat (length names))
                           * total_seconds (currTime - lastTime)) / 3600)%Q) in
    match tChannels with
    | c :: _ =>
        let lastTName := ch_name c in
        if negb (String.eqb lastTName tStr)
        then edit_or_cleanup sid currServ "Update: Time changed!" c tStr
        else ret (Sleep wait)
    | [] =>
        create_voice_channel currServ tStr ;;;
        ret (Sleep wait)
    end
  else ret (Sleep wait).

(** A block runs only if the one before it did not [return]. *)
Definition and_then (m : M Outcome) (k : Z → M Outcome) : M Outcome :=
  o <- m ;;
  match o with
  | Sleep wait => k wait
  | Return => ret Return
  end.

(** Lines 530-597: the three display blocks, on the channel lists taken
    before any of them runs. *)
Definition display_phase (sid : Z) (currServ : Guild) (ip : string)
    (loc : Locals) : M Outcome :=
  let iChannels := find_channels currServ None (Some "IP: ") "in" (Some voice) in
  let pChannels := find_channels currServ None (Some "Players: ") "in" (Some voice) in
  let tChannels := find_channels currServ None (Some "Player Hrs: ") "in" (Some voice) in
  and_then (ip_block sid currServ ip iChannels 10) (λ wait,
  and_then (players_block sid currServ loc pChannels wait) (λ wait,
  hours_block sid currServ loc tChannels wait)).

(** Lines 482-597: what the loop does for a tenant with an address. *)
Definition reconcile (sid : Z) (currServ : Guild) (ip : string)
    (q : QueryResult) (now : Z) (loc : Locals) : M (Locals * Outcome) :=
  loc <- query_phase sid currServ q now loc ;;
  o <- display_phase sid currServ ip loc ;;
  ret (loc, o).

(** One turn of the [while True] loop of [status_task].  [q] and [now] are
    what the query and [datetime.now] yield in this turn.  On [Sleep] the
    locals are those of the next turn, with [first_iter] cleared. *)
Definition status_iter (sid : Z) (q : QueryResult) (now : Z) (loc : Locals)
    : M (Locals * Outcome) :=
  w <- get ;;
  match get_server_by_id w sid with
  | None =>
      print ["Kicked: Bot must've been kicked from"; Py.str sid; ". Cleaning up."] ;;;
      do_bot_cleanup sid None ;;;
      ret (loc, Return)
  | Some currServ =>
      if negb (existsb (Z.eqb sid) (servers w)) then
        print [g_name currServ; "is not querying. Ending task."] ;;;
        ret (loc, Return)
      else
        ' (ip, port) <- getMCIP sid ;;
        ' (loc, o) <- (if negb (String.eqb ip "")
                       then reconcile sid currServ ip q now loc
                       else ret (loc, Sleep 10)) ;;
        match o with
        | Sleep wait => ret (end_of_iteration loc, Sleep wait)
        | Return => ret (loc, Return)
        end
  end.

(** How a run of the task over finitely many turns ends. *)
Inductive TaskEnd : Type :=
| Returned
| Running (loc : Locals).

(** [status_task(sid)] over the turns whose query outcomes and clock
    readings are [inputs]; nothing else touches the process in between. *)
Fixpoint run_task (sid : Z) (inputs : list (QueryResult * Z)) (loc : Locals)
    : M TaskEnd :=
  match inputs with
  | [] => ret (Running loc)
  | (q, now) :: rest =>
      ' (loc, o) <- status_iter sid q now loc ;;
      match o with
      | Sleep _ => run_task sid rest loc
      | Return => ret Returned
      end
  end.

Definition status_task (sid : Z) (inputs : list (QueryResult * Z)) : M TaskEnd :=
  run_task sid inputs task_start.

(** ** Start-up *)

(** [announcement_status] of [on_ready]; [row[3]] is formatted with [str],
    so a missing channel id reads [None]. *)
Definition announcement_status (row : ServerRow) : string :=
  if negb (row_announce_joins row) then "Not announcing"
  else "Announcing in <#"
       +:+ match row_announce_joins_id row with
           | Some i => Py.str i
           | None => "None"
           end
       +:+ ">".

(** The body of the loop of [on_ready] for one row of [servers].
    [create_task] only schedules the task: no turn of it runs before
    [on_ready] is through. *)
Definition on_ready_row (r : Z * ServerRow) : M unit :=
  w <- get ;;
  match get_server_by_id w (fst r) with
  | None =>
      print ["Kicked: Bot was removed from " +:+ Py.str (fst r) +:+ ". Cleaning up."] ;;;
      do_bot_cleanup (fst r) None
  | Some g =>
      emit (EvCreateTask (fst r)) ;;;
      modify (λ w, with_servers (servers w ++ [fst r]) w) ;;;
      print ["Now querying " +:+ g_name g +:+ ". " +:+ announcement_status (snd r)
             +:+ " for " +:+ row_ip (snd r)]
  end.

(** [on_ready].  [user] is [str(bot.user)].  [fetchall] yields the rows of
    [servers] in an order the statement leaves open; here it is the order
    of [map_to_list]. *)
Definition on_ready (user : string) : M unit :=
  print ["Logged in as " +:+ user] ;;;
  w <- get ;;
  for_each (map_to_list (tbl_servers w)) on_ready_row.

(** ** Observations on a run *)

Definition result {A} (run : Res A * World * list Event) : Res A := fst (fst run).
Definition world_after {A} (run : Res A * World * list Event) : World := snd (fst run).
Definition events {A} (run : Res A * World * list Event) : list Event := snd run.

Definition is_cleanup (ev : Event) : bool :=
  match ev with
  | EvCleanup _ => true
  | _ => false
  end.

Definition is_edit_forbidden (ev : Event) : bool :=
  match ev with
  | EvEditForbidden _ _ => true
  | _ => false
  end.

Definition is_deletion (ev : Event) : bool :=
  match ev with
  | EvDelete _ | EvDeleteForbidden _ => true
  | _ => false
  end.


(** The number of calls of [do_bot_cleanup] in a trace. *)
Definition teardowns (tr : list Event) : nat := length (List.filter is_cleanup tr).

(** The calls of [channel.delete] in a trace, in order. *)
Definition deletions (tr : list Event) : list Event := List.filter is_deletion tr.


(** The name that an event writes to a display channel, if it writes one. *)
Definition written_name (ev : Event) : option string :=
  match ev with
  | EvEdit _ n | EvCreate _ n => Some n
  | _ => None
  end.

(** The registry and the three tables agree. *)
Definition same_store (w w' : World) : Prop :=
  servers w' = servers w ∧ tbl_servers w' = tbl_servers w
  ∧ tbl_names w' = tbl_names w ∧ tbl_times w' = tbl_times w.

(** The roster rows of a tenant. *)
Definition roster (w : World) (sid : Z) : list string :=
  map snd (List.filter (λ r, fst r =? sid) (tbl_names w)).

(** The query did not succeed. *)
Definition failed (q : QueryResult) : Prop :=
  match q with
  | QueryOk _ _ _ _ => False
  | _ => True
  end.

(** A computation relates the worlds before and after it by [R] and emits
    only events in [E], however it ends. *)
Definition respects (R : World → World → Prop) (E : Event → Prop) {A} (m : M A) : Prop :=
  ∀ w r w' tr, m w = (r, w', tr) → R w w' ∧ Forall E tr.

(** The guilds and the registry agree: only the tables may differ. *)
Definition same_guilds (w w' : World) : Prop :=
  bot_guilds w' = bot_guilds w ∧ servers w' = servers w.

(** Neither a teardown nor a refused rename. *)
Definition quiet (ev : Event) : Prop :=
  is_cleanup ev = false ∧ is_edit_forbidden ev = false.

(** No name is written to a channel. *)
Definition writes_nothing (ev : Event) : Prop := written_name ev = None.

(** Prints, posts and deletions: events that are neither a teardown, nor a
    refused rename, nor a write of a channel name. *)
Definition harmless (ev : Event) : Prop :=
  is_cleanup ev = false ∧ is_edit_forbidden ev = false ∧ written_name ev = None.

(** The registry agrees. *)
Definition same_registry (w w' : World) : Prop := servers w' = servers w.

(** How a teardown on behalf of the task ends the turn: the task returns,
    or an exception escapes from [do_bot_cleanup]: [NotFound] from deleting a
    channel a second time, [TypeError] from [getMCIP] when the tenant has no
    row. *)
Definition teardown_result (sid : Z) (w : World) (r : Res Outcome) : Prop :=
  r = Val Return ∨ r = Raised NotFound
  ∨ (r = Raised TypeError ∧ tbl_servers w !! sid = None).

(** What a display block may do: go about its business, or, after a refused
    rename, tear the tenant down once and end the turn. *)
Definition block_spec (sid : Z) (m : M Outcome) : Prop :=
  ∀ w r w' tr, m w = (r, w', tr) →
    (same_store w w' ∧ Forall quiet tr)
    ∨ (teardowns tr = 1%nat ∧ servers w' = list_remove sid (servers w)
       ∧ teardown_result sid w r).

(** The tenant keeps its row in [servers]. *)
Definition keeps_row (sid : Z) (w w' : World) : Prop :=
  is_Some (tbl_servers w !! sid) → is_Some (tbl_servers w' !! sid).

(** Any event. *)
Definition any_event (ev : Event) : Prop := True.

(** The trace of the announcement loop for the joined names [js]. *)
Definition announce_events (currServ : Guild) (row : ServerRow) (js : list string)
    : list Event :=
  match row_announce_joins row, row_announce_joins_id row with
  | true, Some annChanId =>
      match find_channels currServ (Some annChanId) None "equal" None with
      | chan :: _ =>
          flat_map (λ name,
            (if ch_may_send chan
             then [EvSend (ch_id chan) (name +:+ " joined the game!")]
             else [EvSendForbidden (ch_id chan) (name +:+ " joined the game!");
                   EvPrint (Py.join " " [ch_guild_name chan;
                     "Error: I don't have permission to send messages here."])])
            ++ [EvPrint (Py.join " " [g_name currServ; "Announced player(s) join."])]) js
      | [] => []
      end
  | _, _ => []
  end.




(** The seconds between the persisted last-query time and [now]; zero for a
    tenant that was never queried. *)
Definition elapsed (row : ServerRow) (now : Z) : Q :=
  match row_last_query row with
  | Some last => total_seconds (now - last)
  | None => total_seconds (now - now)
  end.

(** The tables after the writes of a successful query. *)
Definition after_query (sid : Z) (names : list string) (now : Z) (loc : Locals)
    (row : ServerRow) (w : World) : World :=
  let w1 := with_tbl_names
              (List.filter (λ r, negb (fst r =? sid)) (tbl_names w)
                 ++ map (λ name, (sid, name)) names) w in
  let w2 := with_tbl_servers
              (alter (set_last_query (Some (strftime_seconds now))) sid (tbl_servers w1)) w1 in
  if negb (first_iter loc)
  then with_tbl_times
         (alter (λ t, (t + inject_Z (Z.of_nat (length names)) * elapsed row now)%Q)
                sid (tbl_times w2)) w2
  else w2.

(** The locals after a successful query. *)
Definition after_query_locals (online cap : Z) (names : list string) (now : Z)
    (loc : Locals) (row : ServerRow) (t : Q) : Locals :=
  mkLocals (first_iter loc) (Some online) (Some cap) (Some names)
           (Some (match row_last_query row with Some last => last | None => now end))
           (Some (Py.trunc t)) (Some now).




(** How [status_task] turns the end of the display phase into the end of
    the turn. *)
Definition end_of_turn (loc : Locals) (ro : Res Outcome) : Res (Locals * Outcome) :=
  match ro with
  | Val (Sleep wait) => Val (end_of_iteration loc, Sleep wait)
  | Val Return => Val (loc, Return)
  | Raised e => Raised e
  end.

(** ** Sample data *)

Module Sample.

Definition vc (i : Z) (n : string) : Channel := mkChannel i n voice "Guild" true true false.
Definition locked (c : Channel) : Channel :=
  mkChannel (ch_id c) (ch_name c) (ch_type c) (ch_guild_name c) false false (ch_may_send c).
Definition general : Channel := mkChannel 3 "general" text "Guild" false false true.

Definition guild (cs : list Channel) : Guild := mkGuild 7 "Guild" cs true.

Definition row : ServerRow :=
  mkServerRow "mc.example.com" 25565 true (Some 3) true (Some 1000000000).

(** A tenant with three roster rows, whose last query was at second 1000. *)
Definition world (cs : list Channel) : World :=
  mkWorld [guild cs] [7] {[ 7 := row ]}
          [(7, "alice"); (7, "bob"); (7, "carol")] {[ 7 := 100%Q ]}.

Definition displays : list Channel :=
  [vc 1 "IP: mc.example.com"; vc 2 "Players: 3/20"; general].

Definition ctx : Context := mkContext (guild displays) true.

(** Locals as a turn that is not the first finds them. *)
Definition warm : Locals :=
  mkLocals false (Some 3) (Some 20) (Some ["alice"; "bob"; "carol"])
           (Some 400000000) (Some 100) (Some 1000000000).

(** [warm] after a failed query. *)
Definition warm_failed : Locals := query_failed warm.

End Sample.

(** ** Vocabulary of the statements about [setup] *)

(** The host and the port that [validate_ip_port] examines: what stands
    before and after the first colon of the argument, if there is one. *)
Definition host_part (arg : string) : string :=
  let split := Py.split ":" arg in
  if (1 <? length split)%nat then nth 0 split "" else arg.

Definition port_part (arg : string) (port : Z) : option Z :=
  let split := Py.split ":" arg in
  if (1 <? length split)%nat then Py.int (nth 1 split "") else Some port.




(** What [log(ctx, msg)] leaves in the trace. *)
Definition reply (ctx : Context) (msg : string) : list Event :=
  EvPrint (Py.join " " [g_name (ctx_guild ctx); "Log:"; msg]) ::
  if ctx_may_send ctx then [EvCtxSend (g_id (ctx_guild ctx)) msg]
  else [EvCtxSendForbidden (g_id (ctx_guild ctx)) msg;
        EvPrint (Py.join " " [g_name (ctx_guild ctx);
                              "Error: I don't have permission to send messages here."])].

(** ** Vocabulary of the statements about the commands and the start-up *)

(** An attempt to send a message, to the context of a command or to a
    channel, delivered or refused. *)
Definition is_post (ev : Event) : bool :=
  match ev with
  | EvCtxSend _ _ | EvCtxSendForbidden _ _ | EvSend _ _ | EvSendForbidden _ _ => true
  | _ => false
  end.

Definition posts (tr : list Event) : list Event := List.filter is_post tr.

(** The tables agree on every tenant but [sid]. *)
Definition same_rows_but (sid : Z) (w w' : World) : Prop :=
  ∀ other, other ≠ sid →
    tbl_servers w' !! other = tbl_servers w !! other
    ∧ tbl_times w' !! other = tbl_times w !! other
    ∧ roster w' other = roster w other.

(** The tenant has no row left in any table. *)
Definition forgotten (sid : Z) (w : World) : Prop :=
  tbl_servers w !! sid = None ∧ tbl_times w !! sid = None ∧ roster w sid = [].

(** What [validate_ip_port] lets pass. *)
Definition acceptable (arg : string) (port : Z) (p : Z) : Prop :=
  port_part arg port = Some p ∧ 0 ≤ p < 65536
  ∧ (Re.fullmatch domain_re (host_part arg) = true
     ∨ Re.fullmatch addr_re (host_part arg) = true)
  ∧ Re.startmatch private_re (host_part arg) = false.

(** The characters of host names and dotted addresses. *)
Definition host_char (c : ascii) : bool :=
  Re.in_range c "a" "z" || Re.in_range c "0" "9"
  || Ascii.eqb c "-" || Ascii.eqb c ".".

Fixpoint all_chars (P : ascii → bool) (s : string) : bool :=
  match s with
  | "" => true
  | String c s' => P c && all_chars P s'
  end.

(** The heading and the lines of the reply of [players]. *)
Definition players_message (names : list string) : string :=
  "Online Players:" +:+ String.concat "" (map (λ name, Py.nl +:+ "  " +:+ name) names).

(** One of the three display prefixes occurs in the name. *)
Definition display_name (n : string) : bool :=
  Py.contains "IP: " n || Py.contains "Players: " n || Py.contains "Player Hrs: " n.

Definition is_rename (ev : Event) : bool :=
  match ev with
  | EvEdit _ _ => true
  | _ => false
  end.

Definition is_task_created (ev : Event) : bool :=
  match ev with
  | EvCreateTask _ => true
  | _ => false
  end.

(** The number of tasks that a trace starts for [sid]. *)
Definition tasks_started (sid : Z) (tr : list Event) : nat :=
  length (List.filter (λ ev, match ev with
                             | EvCreateTask s => s =? sid
                             | _ => false
                             end) tr).

(** How often [sid] stands in the registry. *)
Definition registered (sid : Z) (w : World) : nat := count_occ Z.eq_dec (servers w) sid.

(** What a command changes outside table [servers]: nothing. *)
Definition only_servers_row (w w' : World) : Prop :=
  bot_guilds w' = bot_guilds w ∧ servers w' = servers w
  ∧ tbl_names w' = tbl_names w ∧ tbl_times w' = tbl_times w.

(** No word belongs to the expression. *)
Fixpoint dead (r : Re.re) : bool :=
  match r with
  | Re.Void => true
  | Re.Eps | Re.Range _ _ | Re.Star _ => false
  | Re.Cat r1 r2 => dead r1 || dead r2
  | Re.Alt r1 r2 => dead r1 && dead r2
  end.

(** Every character class of the expression lies within [P]. *)
Fixpoint within (P : ascii → bool) (r : Re.re) : Prop :=
  match r with
  | Re.Void | Re.Eps => True
  | Re.Range lo hi => ∀ c, Re.in_range c lo hi = true → P c = true
  | Re.Cat r1 r2 | Re.Alt r1 r2 => within P r1 ∧ within P r2
  | Re.Star r1 => within P r1
  end.

(** The candidates that are none of the channels [cs]. *)
Definition not_among (cs : list Channel) (c' : Channel) : bool :=
  forallb (λ c, negb (ch_id c' =? ch_id c)) cs.

(** The rows of a tenant in the three tables. *)
Definition tenant_rows (sid : Z) (w : World) : option ServerRow * option Q * list string :=
  (tbl_servers w !! sid, tbl_times w !! sid, roster w sid).

(** The bot is in the same guilds. *)
Definition same_guild_ids (w w' : World) : Prop :=
  map g_id (bot_guilds w') = map g_id (bot_guilds w).

(** The exception that [getStatus] raises for a failed query. *)
Definition query_error (q : QueryResult) : Exc :=
  match q with
  | QueryRefused => ConnectionRefusedError
  | QueryUnresolved => gaierror
  | _ => TimeoutError
  end.

Definition is_write (ev : Event) : bool :=
  match written_name ev with
  | Some _ => true
  | None => false
  end.

(** The renames and creations in a trace, in order. *)
Definition writes (tr : list Event) : list Event := List.filter is_write tr.

(** * Properties *)

(** ** [int()] on sample texts *)

(** Full-width digits and a no-break space are read as the interpreter reads
    them; the separators U+001C to U+001F are not skipped, and an underscore
    needs a digit on either side. *)
Example int_samples :
  Py.int "２５５６５" = Some 25565
  ∧ Py.int (String (ascii_of_nat 194) (String (ascii_of_nat 160) "25565")) = Some 25565
  ∧ Py.int (String (ascii_of_nat 28) "25565") = None
  ∧ Py.int " +2_5565 " = Some 25565
  ∧ Py.int "25__565" = None
  ∧ Py.int "-0" = Some 0
  ∧ Py.int "" = None
  ∧ Py.int "0x10" = None.
Proof. vm_compute. repeat split. Qed.

(** ** Reasoning about runs *)

Lemma bind_inv {A B} (m : M A) (k : A → M B) w r w' tr :
  bind m k w = (r, w', tr) →
  (∃ a w1 t1 t2, m w = (Val a, w1, t1) ∧ k a w1 = (r, w', t2) ∧ tr = t1 ++ t2)
  ∨ (∃ e, m w = (Raised e, w', tr) ∧ r = Raised e).
Proof.
  unfold bind. destruct (m w) as [[[a|e] w1] t1].
  - destruct (k a w1) as [[r2 w2] t2] eqn:Hk. intros [= <- <- <-].
    left. by exists a, w1, t1, t2.
  - intros [= <- <- <-]. right. by exists e.
Qed.

Lemma try_except_inv {A} (m : M A) (handler : Exc → option (M A)) w r w' tr :
  try_except m handler w = (r, w', tr) →
  (∃ a, m w = (Val a, w', tr) ∧ r = Val a)
  ∨ (∃ e, m w = (Raised e, w', tr) ∧ handler e = None ∧ r = Raised e)
  ∨ (∃ e h w1 t1 t2, m w = (Raised e, w1, t1) ∧ handler e = Some h
       ∧ h w1 = (r, w', t2) ∧ tr = t1 ++ t2).
Proof.
  unfold try_except. destruct (m w) as [[[a|e] w1] t1].
  - intros [= <- <- <-]. left. by exists a.
  - destruct (handler e) as [h|] eqn:Hh.
    + destruct (h w1) as [[r2 w2] t2] eqn:Hr. intros [= <- <- <-].
      right. right. by exists e, h, w1, t1, t2.
    + intros [= <- <- <-]. right. left. by exists e.
Qed.

(** Take one equation about a run apart. *)
Ltac run_inv :=
  match goal with
  | H : bind _ _ _ = _ |- _ =>
      apply bind_inv in H;
      destruct H as [(? & ? & ? & ? & ? & ? & ?) | (? & ? & ?)]; simplify_eq
  | H : try_except _ _ _ = _ |- _ =>
      apply try_except_inv in H;
      destruct H as [(? & ? & ?) | [(? & ? & ? & ?) | (? & ? & ? & ? & ? & ? & ? & ? & ?)]];
      simplify_eq
  | H : ret _ _ = _ |- _ => unfold ret in H; simplify_eq
  | H : raise _ _ = _ |- _ => unfold raise in H; simplify_eq
  | H : get _ = _ |- _ => unfold get in H; simplify_eq
  | H : modify _ _ = _ |- _ => unfold modify in H; simplify_eq
  | H : emit _ _ = _ |- _ => unfold emit in H; simplify_eq
  | H : print _ _ = _ |- _ => unfold print, emit in H; simplify_eq
  | H : local ?v _ = _ |- _ => destruct v eqn:?; simpl in H
  | H : fetchone ?v _ = _ |- _ => destruct v eqn:?; simpl in H
  | H : (if ?b then _ else _) _ = (_, _, _) |- _ => destruct b eqn:?
  | H : (match ?x with _ => _ end) _ = (_, _, _) |- _ => destruct x eqn:?
  | H : Some _ = Some _ |- _ => simplify_eq
  | H : Some _ = None |- _ => discriminate H
  | H : None = Some _ |- _ => discriminate H
  | H : Val _ = Val _ |- _ => simplify_eq
  | H : Val _ = Raised _ |- _ => discriminate H
  | H : Raised _ = Val _ |- _ => discriminate H
  end.

(** ** Setup rejects private and malformed addresses *)

Lemma append_empty_r (s : string) : s +:+ "" = s.
Proof.
  induction s as [|c s IH]; [done|].
  change (String c (s +:+ "") = String c s). by rewrite IH.
Qed.

Lemma log_run ctx msg w :
  log ctx msg w = (Val tt, w, reply ctx (Py.join " " msg)).
Proof.
  unfold log, reply, safe_send, ctx_send, print, bind, try_except, emit, raise.
  destruct (ctx_may_send ctx); simpl; by rewrite append_empty_r.
Qed.

Lemma log_then_ret {A} ctx msg (a : A) w :
  bind (log ctx msg) (λ _, ret a) w = (Val a, w, reply ctx (Py.join " " msg)).
Proof. unfold bind. rewrite log_run. simpl. by rewrite app_nil_r. Qed.





(** ** The status command *)

Lemma pad2_two_digits n : 0 ≤ n < 60 → String.length (Py.pad2 n) = 2%nat.
Proof.
  intros Hn. assert (n = Z.of_nat (Z.to_nat n)) as -> by lia.
  assert (Z.to_nat n < 60)%nat as Hlt by lia.
  revert Hlt. generalize (Z.to_nat n). clear. intros k Hk.
  do 60 (destruct k as [|k]; [reflexivity|]). lia.
Qed.

Lemma total_player_time_mod seconds :
  total_player_time seconds = total_player_time (seconds mod 86400).
Proof.
  unfold total_player_time. change (24 * 3600) with 86400.
  by rewrite Z.mod_mod.
Qed.

(** C9.  [status] answers with the accumulated player-seconds reduced
    modulo 24 hours and laid out as H:MM:SS: the hours stay below 24, the
    minutes and seconds take two digits, and totals a whole number of days
    apart are shown alike. *)
Theorem status_shows_time_modulo_a_day ctx w row (t : Q) players cap names motd :
  tbl_servers w !! g_id (ctx_guild ctx) = Some row →
  tbl_times w !! g_id (ctx_guild ctx) = Some t →
  ctx_may_send ctx = true →
  let shown := Py.trunc t mod 86400 in
  status ctx (QueryOk players cap names motd) w =
    (Val tt, w,
     [EvCtxSend (g_id (ctx_guild ctx))
        ("```" +:+
         ("Status:" +:+ Py.nl +:+ "  " +:+ row_ip row +:+ Py.nl +:+ "  " +:+ motd
          +:+ Py.nl +:+ Py.nl +:+ "  Players: " +:+ Py.str players +:+ "/"
          +:+ Py.str cap +:+ Py.nl +:+ "  Total Player Time: "
          +:+ (Py.str (shown / 3600) +:+ ":" +:+ Py.pad2 (shown mod 3600 / 60)
               +:+ ":" +:+ Py.pad2 (shown mod 60)))
         +:+ "```")])
  ∧ 0 ≤ shown / 3600 < 24
  ∧ String.length (Py.pad2 (shown mod 3600 / 60)) = 2%nat
  ∧ String.length (Py.pad2 (shown mod 60)) = 2%nat
  ∧ ∀ days, total_player_time (Py.trunc t + 86400 * days) = total_player_time (Py.trunc t).
Proof.
  intros Hrow Htime Hsend shown.
  assert (Hshown : 0 ≤ shown < 86400) by (apply Z.mod_pos_bound; lia).
  assert (Hsec : (shown mod 3600) mod 60 = shown mod 60).
  { apply Z.mod_mod_divide. by exists 60. }
  split; [|split; [|split; [|split]]].
  - unfold status, getMCIP, getPersonSeconds, getStatus, safe_send, ctx_send,
      bind, get, fetchone, ret, try_except, emit.
    rewrite Hrow, Htime, Hsend. simpl.
    unfold total_player_time. change (24 * 3600) with 86400. fold shown.
    by rewrite Hsec.
  - split; [apply Z.div_pos; lia | apply Z.div_lt_upper_bound; lia].
  - apply pad2_two_digits. split; [apply Z.div_pos; [apply Z.mod_pos_bound|]; lia|].
    apply Z.div_lt_upper_bound; [lia|]. pose proof (Z.mod_pos_bound shown 3600). lia.
  - apply pad2_two_digits. apply Z.mod_pos_bound. lia.
  - intros days. rewrite total_player_time_mod. symmetry. rewrite total_player_time_mod.
    f_equal. rewrite Z.mul_comm. by rewrite Z.mod_add.
Qed.

Lemma status_shows_time_modulo_a_day_witness :
  ∃ msg, events (status Sample.ctx (QueryOk 3 20 [] "hello")
                   (with_tbl_times {[ 7 := 90061%Q ]} (Sample.world Sample.displays)))
         = [EvCtxSend 7 msg]
  ∧ total_player_time (Py.trunc 90061 + 86400 * 1) = "1:01:01".
Proof.
  pose proof (status_shows_time_modulo_a_day Sample.ctx
    (with_tbl_times {[ 7 := 90061%Q ]} (Sample.world Sample.displays))
    Sample.row 90061%Q 3 20 [] "hello" eq_refl eq_refl eq_refl) as (Hrun & _ & _ & _ & Hwrap).
  eexists. split.
  - rewrite Hrun. reflexivity.
  - rewrite Hwrap. reflexivity.
Defined.


Lemma run_eta {A} (run : Res A * World * list Event) :
  run = (result run, world_after run, events run).
Proof. by destruct run as [[? ?] ?]. Qed.

(** ** Invariants of computations *)

Section Respects.
Variable R : World → World → Prop.
Variable E : Event → Prop.
Hypothesis R_refl : ∀ w, R w w.
Hypothesis R_trans : ∀ w1 w2 w3, R w1 w2 → R w2 w3 → R w1 w3.

Lemma respects_ret {A} (a : A) : respects R E (ret a).
Proof. intros w r w' tr [= <- <- <-]. auto. Qed.

Lemma respects_raise {A} e : respects R E (raise e : M A).
Proof. intros w r w' tr [= <- <- <-]. auto. Qed.

Lemma respects_get : respects R E get.
Proof. intros w r w' tr [= <- <- <-]. auto. Qed.

Lemma respects_emit ev : E ev → respects R E (emit ev).
Proof. intros Hev w r w' tr [= <- <- <-]. auto. Qed.

Lemma respects_print args : E (EvPrint (Py.join " " args)) → respects R E (print args).
Proof. apply respects_emit. Qed.

Lemma respects_modify f : (∀ w, R w (f w)) → respects R E (modify f).
Proof. intros Hf w r w' tr [= <- <- <-]. auto. Qed.

Lemma respects_local {A} (v : option A) : respects R E (local v).
Proof. destruct v; [apply respects_ret | apply respects_raise]. Qed.

Lemma respects_fetchone {A} (v : option A) : respects R E (fetchone v).
Proof. destruct v; [apply respects_ret | apply respects_raise]. Qed.

Lemma respects_bind {A B} (m : M A) (k : A → M B) :
  respects R E m → (∀ a, respects R E (k a)) → respects R E (bind m k).
Proof.
  intros Hm Hk w r w' tr Hrun.
  apply bind_inv in Hrun as [(a & w1 & t1 & t2 & H1 & H2 & ->) | (e & H1 & ->)].
  - apply Hm in H1 as [? ?]. apply Hk in H2 as [? ?].
    split; [eauto | by apply Forall_app].
  - by apply Hm in H1.
Qed.

Lemma respects_try_except {A} (m : M A) handler :
  respects R E m → (∀ e h, handler e = Some h → respects R E h) →
  respects R E (try_except m handler).
Proof.
  intros Hm Hh w r w' tr Hrun.
  apply try_except_inv in Hrun
    as [(a & H1 & ->) | [(e & H1 & _ & ->) | (e & h & w1 & t1 & t2 & H1 & He & H2 & ->)]].
  - by apply Hm in H1.
  - by apply Hm in H1.
  - apply Hm in H1 as [? ?]. apply (Hh _ _ He) in H2 as [? ?].
    split; [eauto | by apply Forall_app].
Qed.

Lemma respects_for_each {A} (xs : list A) body :
  (∀ x, respects R E (body x)) → respects R E (for_each xs body).
Proof.
  intros Hbody. induction xs as [|x xs IH]; simpl.
  - apply respects_ret.
  - apply respects_bind; auto.
Qed.
End Respects.

(** Decompose a goal [respects R E m] along the structure of [m]. *)
Ltac respects_step :=
  match goal with
  | |- respects _ _ (ret _) => apply respects_ret
  | |- respects _ _ (raise _) => apply respects_raise
  | |- respects _ _ get => apply respects_get
  | |- respects _ _ (local _) => apply respects_local
  | |- respects _ _ (fetchone _) => apply respects_fetchone
  | |- respects _ _ (bind _ _) => apply respects_bind
  | |- respects _ _ (try_except _ _) => apply respects_try_except
  | |- respects _ _ (for_each _ _) => apply respects_for_each
  | |- respects _ _ (emit _) => apply respects_emit
  | |- respects _ _ (print _) => apply respects_print
  | |- respects _ _ (modify _) => apply respects_modify
  | |- respects _ _ (if ?b then _ else _) => destruct b eqn:?
  | |- respects _ _ (match ?x with _ => _ end) => destruct x eqn:?
  | |- ∀ _, _ => intro
  | H : (match ?e with _ => _ end) = Some _ |- _ => destruct e; simplify_eq
  end.

Lemma same_store_refl w : same_store w w.
Proof. by repeat split. Qed.

Lemma same_store_trans w1 w2 w3 : same_store w1 w2 → same_store w2 w3 → same_store w1 w3.
Proof. intros (?&?&?&?) (?&?&?&?). repeat split; congruence. Qed.

Lemma same_guilds_refl w : same_guilds w w.
Proof. by split. Qed.

Lemma same_guilds_trans w1 w2 w3 : same_guilds w1 w2 → same_guilds w2 w3 → same_guilds w1 w3.
Proof. intros (?&?) (?&?). split; congruence. Qed.

Ltac respects_auto :=
  repeat first
    [ exact same_store_refl | exact same_guilds_refl
    | exact same_store_trans | exact same_guilds_trans
    | respects_step ];
  try done.

(** *** Platform calls leave the registry and the tables alone *)

Section StoreFrame.
Variable E : Event → Prop.
Hypothesis E_platform : ∀ ev, is_cleanup ev = false → E ev.

Local Ltac go :=
  repeat first
    [ exact same_store_refl | exact same_store_trans
    | respects_step
    | apply E_platform; reflexivity ];
  try done.

Lemma channel_edit_store c n : respects same_store E (channel_edit c n).
Proof. unfold channel_edit. go. Qed.

Lemma channel_delete_store c : respects same_store E (channel_delete c).
Proof. unfold channel_delete. go. Qed.

Lemma create_voice_channel_store g n : respects same_store E (create_voice_channel g n).
Proof. unfold create_voice_channel. go. Qed.

Lemma safe_send_store msg ctx chan format : respects same_store E (safe_send msg ctx chan format).
Proof. unfold safe_send, ctx_send, chan_send. go. Qed.
End StoreFrame.

(** *** The query phase touches neither the guilds nor the registry *)

Lemma query_phase_guilds sid currServ q now loc :
  respects same_guilds harmless (query_phase sid currServ q now loc).
Proof.
  unfold query_phase, query_block, getMCNames, getStatus, getMCQueryTime,
    getPersonSeconds, setMCNames, setMCQueryTime, incrementPersonSeconds,
    getMCJoinAnnounce, safe_send, chan_send.
  respects_auto.
Qed.

(** ** Teardown *)

Lemma list_remove_absent sid l :
  existsb (Z.eqb sid) l = false → list_remove sid l = l.
Proof.
  induction l as [|x l IH]; simpl; [done|].
  intros [Hx Hl]%orb_false_iff. rewrite Z.eqb_sym, Hx. by rewrite IH.
Qed.

Lemma list_remove_gone sid l : NoDup l → ¬ In sid (list_remove sid l).
Proof.
  induction 1 as [|x l Hx Hl IH]; simpl; [tauto|].
  destruct (x =? sid) eqn:Heq.
  - apply Z.eqb_eq in Heq as ->. by rewrite <- list_elem_of_In.
  - apply Z.eqb_neq in Heq. simpl. tauto.
Qed.

(** What follows the registry update in [do_bot_cleanup] leaves the registry
    alone and emits nothing but prints, posts and deletions. *)
Lemma do_bot_cleanup_inv sid ctx w r w' tr :
  do_bot_cleanup sid ctx w = (r, w', tr) →
  ∃ tr', tr = EvCleanup sid :: tr' ∧ Forall harmless tr'
         ∧ servers w' = list_remove sid (servers w).
Proof.
  unfold do_bot_cleanup. intros Hrun.
  apply bind_inv in Hrun as [(a & w1 & t1 & t2 & H1 & Hrun & ->) | (e & H1 & ->)];
    [|discriminate H1].
  injection H1 as <- <- <-.
  apply bind_inv in Hrun as [(a' & w1 & t1 & t3 & H1 & Hrun & ->) | (e & H1 & ->)];
    [|discriminate H1].
  injection H1 as <- <- <-. simpl.
  eexists. split; [reflexivity|].
  match type of Hrun with ?m _ = _ =>
    assert (Hm : respects same_registry harmless m) end.
  { unfold getMCIP, channel_delete, log, safe_send, ctx_send.
    repeat first [ (intros ?; reflexivity)
                 | (intros ? ? ? ? ?; unfold same_registry; congruence)
                 | respects_step ]; try done. }
  apply Hm in Hrun as [Hreg Hev]. split; [done|].
  rewrite Hreg. destruct (existsb (Z.eqb sid) (servers w)) eqn:Hin; simpl; [done|].
  by rewrite list_remove_absent.
Qed.

(** The deletion loop ends normally or on a refusal or a missing channel,
    and touches neither the registry nor the tables. *)
Lemma delete_loop_result (cs : list Channel) w r w' tr :
  for_each cs channel_delete w = (r, w', tr) →
  same_store w w' ∧ (r = Val tt ∨ r = Raised NotFound ∨ r = Raised Forbidden).
Proof.
  revert w tr. induction cs as [|c cs IH]; intros w tr Hrun; simpl in Hrun.
  - injection Hrun as <- <- <-. split; [apply same_store_refl | by left].
  - apply bind_inv in Hrun as [(a & w1 & t1 & t2 & H1 & H2 & ->) | (e & H1 & ->)].
    + apply IH in H2 as [Hs2 Hr]. split; [|done].
      apply (channel_delete_store any_event) in H1 as [Hs1 _]; [|done].
      by eapply same_store_trans.
    + split; [by apply (channel_delete_store any_event) in H1 as [Hs1 _]|].
      unfold channel_delete in H1. repeat (run_inv; cbv beta in * ); auto.
Qed.

(** How [do_bot_cleanup] ends. *)
Lemma do_bot_cleanup_result sid ctx w r w' tr :
  do_bot_cleanup sid ctx w = (r, w', tr) →
  r = Val tt ∨ r = Raised NotFound
  ∨ (r = Raised TypeError ∧ tbl_servers w !! sid = None).
Proof.
  unfold do_bot_cleanup. intros Hrun.
  apply bind_inv in Hrun as [(? & ? & ? & ? & [= <- <- <-] & Hrun & ->) | (? & [=] & _)].
  apply bind_inv in Hrun as [(? & ? & ? & ? & [= <- <- <-] & Hrun & ->) | (? & [=] & _)].
  set (w0 := if existsb (Z.eqb sid) (servers w)
             then with_servers (list_remove sid (servers w)) w else w) in *.
  assert (Hrow0 : tbl_servers w0 = tbl_servers w) by (subst w0; by destruct (existsb _ _)).
  clearbody w0. unfold getMCIP in Hrun.
  repeat (run_inv; cbv beta in * ).
  all: repeat match goal with
         | H : for_each _ channel_delete _ = _ |- _ =>
             apply delete_loop_result in H as [(_ & ? & _ & _) [? | [? | ?]]]
         | H : log _ _ _ = _ |- _ => rewrite log_run in H
         end.
  all: simplify_eq; repeat (run_inv; cbv beta in * ); auto.
  all: right; right; split; [done|].
  all: rewrite <- Hrow0.
  all: repeat match goal with
         | H : tbl_servers ?a = tbl_servers ?b |- tbl_servers ?b !! _ = _ => rewrite <- H
         end.
  all: done.
Qed.

Lemma teardown_result_not_sleep sid w r wait :
  teardown_result sid w r → r ≠ Val (Sleep wait).
Proof. intros [-> | [-> | [-> _]]]; discriminate. Qed.

Lemma teardown_result_store sid w w1 r :
  same_store w w1 → teardown_result sid w1 r → teardown_result sid w r.
Proof.
  intros (_ & Hs & _) [-> | [-> | [-> Hrow]]]; [by left | right; by left |].
  right. right. by rewrite <- Hs.
Qed.

Lemma teardowns_app t1 t2 : teardowns (t1 ++ t2) = (teardowns t1 + teardowns t2)%nat.
Proof. unfold teardowns. by rewrite List.filter_app, length_app. Qed.

Lemma teardowns_harmless tr : Forall harmless tr → teardowns tr = 0%nat.
Proof.
  unfold teardowns. induction 1 as [|ev tr [Hev _] _ IH]; simpl; [done|].
  by rewrite Hev.
Qed.

Lemma teardowns_quiet tr : Forall quiet tr → teardowns tr = 0%nat.
Proof.
  unfold teardowns. induction 1 as [|ev tr [Hev _] _ IH]; simpl; [done|].
  by rewrite Hev.
Qed.

Lemma harmless_quiet tr : Forall harmless tr → Forall quiet tr.
Proof. intros H. eapply Forall_impl; [exact H|]. intros ev (? & ? & ?). by split. Qed.

(** ** The display blocks *)

Lemma quiet_print line : quiet (EvPrint line).
Proof. by split. Qed.

Lemma teardown_trace sid (pre rest : list Event) :
  Forall harmless rest →
  teardowns pre = 0%nat →
  teardowns (pre ++ EvCleanup sid :: rest) = 1%nat.
Proof.
  intros Hrest Hpre. rewrite teardowns_app, Hpre.
  change (S (teardowns rest) = 1%nat). by rewrite teardowns_harmless.
Qed.

Lemma edit_or_cleanup_spec sid currServ what c n :
  block_spec sid (edit_or_cleanup sid currServ what c n).
Proof.
  intros w r w' tr Hrun. unfold edit_or_cleanup, channel_edit in Hrun.
  repeat run_inv; simpl.
  - left. split; [by repeat split | by repeat constructor].
  - left. split; [apply same_store_refl | by repeat constructor].
  - right. apply do_bot_cleanup_inv in H1 as (tr' & -> & Hev & Hreg).
    rewrite app_nil_r. split; [|split; [done | by left]].
    by apply (teardown_trace sid [_; _; _]).
  - right. pose proof (do_bot_cleanup_result _ _ _ _ _ _ H1) as Hres.
    apply do_bot_cleanup_inv in H1 as (tr' & -> & Hev & Hreg).
    split; [by apply (teardown_trace sid [_; _; _])|]. split; [done|].
    destruct Hres as [[=] | [[= ->] | [[= ->] Hrow]]]; [right; by left|].
    right. right. done.
Qed.

Lemma calm_block sid (m : M Outcome) :
  respects same_store quiet m → block_spec sid m.
Proof. intros Hm w r w' tr Hrun. left. by apply Hm in Hrun. Qed.

Lemma create_voice_channel_calm g n : respects same_store quiet (create_voice_channel g n).
Proof. unfold create_voice_channel. respects_auto. Qed.

Lemma block_spec_bind {A} sid (m : M A) (k : A → M Outcome) :
  respects same_store quiet m → (∀ a, block_spec sid (k a)) →
  block_spec sid (bind m k).
Proof.
  intros Hm Hk w r w' tr Hrun.
  apply bind_inv in Hrun as [(a & w1 & t1 & t2 & H1 & H2 & ->) | (e & H1 & ->)].
  - apply Hm in H1 as [Hs1 Hq1].
    apply Hk in H2 as [[Hs2 Hq2] | (Ht & Hreg & Hr)].
    + left. split; [by eapply same_store_trans | by apply Forall_app].
    + right. rewrite teardowns_app, teardowns_quiet, Ht by done.
      split; [done|]. split; [|by eapply teardown_result_store].
      destruct Hs1 as (<- & _). done.
  - left. by apply Hm in H1.
Qed.

Lemma and_then_spec sid (m : M Outcome) (k : Z → M Outcome) :
  block_spec sid m → (∀ wait, block_spec sid (k wait)) →
  block_spec sid (and_then m k).
Proof.
  intros Hm Hk w r w' tr Hrun. unfold and_then in Hrun.
  apply bind_inv in Hrun as [(o & w1 & t1 & t2 & H1 & H2 & ->) | (e & H1 & ->)].
  - apply Hm in H1 as [[Hs1 Hq1] | (Ht & Hreg & Hr)].
    + destruct o as [wait|].
      * apply Hk in H2 as [[Hs2 Hq2] | (Ht & Hreg & Hr)].
        -- left. split; [by eapply same_store_trans | by apply Forall_app].
        -- right. rewrite teardowns_app, teardowns_quiet, Ht by done.
           split; [done|]. split; [|by eapply teardown_result_store].
           destruct Hs1 as (<- & _). done.
      * injection H2 as <- <- <-. left. rewrite app_nil_r. done.
    + destruct o as [wait|]; [by destruct (teardown_result_not_sleep _ _ _ wait Hr)|].
      injection H2 as <- <- <-. right. rewrite app_nil_r. done.
  - apply Hm in H1 as [[Hs1 Hq1] | (Ht & Hreg & Hr)]; [by left | by right].
Qed.

Lemma ip_block_spec sid currServ ip iChannels wait :
  block_spec sid (ip_block sid currServ ip iChannels wait).
Proof.
  unfold ip_block. destruct iChannels as [|c ?].
  - apply calm_block. pose proof create_voice_channel_calm. respects_auto.
  - destruct (negb _); [apply edit_or_cleanup_spec|].
    apply calm_block. respects_auto.
Qed.

Lemma players_block_spec sid currServ loc pChannels wait :
  block_spec sid (players_block sid currServ loc pChannels wait).
Proof.
  unfold players_block. destruct pChannels as [|c ?].
  - apply calm_block. pose proof create_voice_channel_calm. respects_auto.
  - apply block_spec_bind; [respects_auto|]. intros players.
    apply block_spec_bind; [respects_auto|]. intros pStr.
    destruct (negb _); [apply edit_or_cleanup_spec|].
    apply calm_block. respects_auto.
Qed.

Lemma hours_block_spec sid currServ loc tChannels wait :
  block_spec sid (hours_block sid currServ loc tChannels wait).
Proof.
  unfold hours_block, getShowHours.
  apply block_spec_bind; [respects_auto|]. intros showHours.
  apply block_spec_bind; [respects_auto|]. intros [|].
  2: { apply calm_block. respects_auto. }
  do 4 (apply block_spec_bind; [respects_auto|]; intros ?).
  destruct tChannels as [|c ?].
  - apply calm_block. pose proof create_voice_channel_calm. respects_auto.
  - destruct (negb _); [apply edit_or_cleanup_spec|].
    apply calm_block. respects_auto.
Qed.

Lemma display_phase_spec sid currServ ip loc :
  block_spec sid (display_phase sid currServ ip loc).
Proof.
  unfold display_phase.
  apply and_then_spec; [apply ip_block_spec|]. intros wait.
  apply and_then_spec; [apply players_block_spec|]. intros wait'.
  apply hours_block_spec.
Qed.

(** ** A refused rename *)

Lemma harmless_not_forbidden tr :
  Forall harmless tr → Forall (λ ev, ¬ is_edit_forbidden ev = true) tr.
Proof. intros H. eapply Forall_impl; [exact H|]. intros ev (? & ? & ?). congruence. Qed.

Lemma quiet_not_forbidden tr :
  Forall quiet tr → Forall (λ ev, ¬ is_edit_forbidden ev = true) tr.
Proof. intros H. eapply Forall_impl; [exact H|]. intros ev (? & ?). congruence. Qed.

(** A trace without refused renames contradicts [Hex]. *)
Ltac no_refusal Hex :=
  exfalso; revert Hex; apply Forall_Exists_neg;
  repeat first
    [ apply Forall_nil_2
    | apply Forall_app_2
    | apply Forall_cons_2; [simpl; congruence|]
    | (apply harmless_not_forbidden; assumption)
    | (apply quiet_not_forbidden; assumption) ].

Lemma query_phase_keeps_row sid currServ q now loc :
  respects (keeps_row sid) any_event (query_phase sid currServ q now loc).
Proof.
  unfold query_phase, query_block, getMCNames, getStatus, getMCQueryTime,
    getPersonSeconds, setMCNames, setMCQueryTime, incrementPersonSeconds,
    getMCJoinAnnounce, safe_send, chan_send.
  repeat first
    [ exact (λ _ H, H)
    | exact (λ _ _ _ H12 H23 H, H23 (H12 H))
    | (intros ? [row Hrow]; unfold with_tbl_servers; simpl;
       rewrite lookup_alter_eq, Hrow; by eexists)
    | respects_step ]; done.
Qed.

(** A turn of the task in which Discord refuses a rename performs the
    teardown exactly once, takes one entry of the tenant out of the registry
    and does not go back to sleep: the task returns, or the teardown lets
    [NotFound] escape. *)
Lemma refused_rename_teardown sid q now loc w r w' tr :
  status_iter sid q now loc w = (r, w', tr) →
  Exists (λ ev, is_edit_forbidden ev = true) tr →
  teardowns tr = 1%nat ∧ servers w' = list_remove sid (servers w)
  ∧ ((∃ loc', r = Val (loc', Return)) ∨ r = Raised NotFound).
Proof.
  intros Hrun Hex. unfold status_iter, reconcile, getMCIP in Hrun.
  repeat (run_inv; cbv beta in * ).
  all: simpl in *.
  all: repeat match goal with
         | H : do_bot_cleanup _ _ _ = _ |- _ =>
             apply do_bot_cleanup_inv in H as (? & -> & ? & ?)
         | H : query_phase _ _ _ _ _ _ = _ |- _ =>
             pose proof (query_phase_keeps_row _ _ _ _ _ _ _ _ _ H) as [Hkeep _];
             apply query_phase_guilds in H as [[? ?] ?]
         end.
  all: try (no_refusal Hex; fail).
  all: match goal with
       | H : display_phase _ _ _ _ _ = _ |- _ =>
           apply display_phase_spec in H as [[? ?] | (Ht & Hreg & Hr)]
       end.
  all: try (no_refusal Hex; fail).
  all: rewrite ?app_nil_r, teardowns_app, teardowns_harmless, Ht by done.
  all: split; [done|].
  all: split; [rewrite Hreg; congruence|].
  all: destruct Hr as [Hr | [Hr | [Hr Hrow]]]; simplify_eq.
  all: try (left; by eexists).
  all: try (by right).
  all: destruct Hkeep as [? Hkeep]; [by eexists | congruence].
Qed.

(** The task does not return when the teardown meets a channel whose name
    holds two of the display prefixes: the channel is listed twice, deleted
    the first time, and the second deletion raises [NotFound] out of the
    task. *)
Example refused_rename_ends_in_not_found :
  let w := Sample.world [mkChannel 1 "IP: Players: 0/0" voice "Guild" false true false] in
  let run := status_iter 7 QueryTimeout 1600000000 Sample.warm w in
  Exists (λ ev, is_edit_forbidden ev = true) (events run)
  ∧ result run = Raised NotFound.
Proof.
  split; [|by vm_compute].
  vm_compute. apply Exists_cons_tl, Exists_cons_tl, Exists_cons_hd. reflexivity.
Qed.

(** C6.  The registry can hold a tenant more than once: [on_ready] appends
    every row it finds without the presence check that [setup] makes, and it
    runs again whenever the client has to open a new session.  After two
    runs of [on_ready] the tenant is registered twice; in a turn in which a
    rename is then refused, the teardown runs once and the task returns, but
    [servers.remove] takes out one entry only, and the tenant is still in
    the registry afterwards. *)
Theorem forbidden_rename_leaves_tenant_registered :
  let start := with_servers []
                 (Sample.world [Sample.locked (Sample.vc 1 "IP: old.example.com");
                                Sample.vc 2 "Players: 3/20"]) in
  let w := world_after (on_ready "bot#0001" (world_after (on_ready "bot#0001" start))) in
  let run := status_iter 7 QueryTimeout 1600000000 Sample.warm w in
  servers w = [7; 7]
  ∧ Exists (λ ev, is_edit_forbidden ev = true) (events run)
  ∧ teardowns (events run) = 1%nat
  ∧ result run = Val (Sample.warm_failed, Return)
  ∧ In 7 (servers (world_after run)).
Proof.
  intros start w run.
  split; [by vm_compute|].
  split; [vm_compute; apply Exists_cons_tl, Exists_cons_tl, Exists_cons_hd; reflexivity|].
  split; [by vm_compute|].
  split; [by vm_compute|].
  vm_compute. by left.
Qed.

(** ** Teardown of a tenant that is already gone *)

(** A teardown that ends well has read the tenant's row. *)
Lemma teardown_done_had_row sid ctx w w' tr :
  do_bot_cleanup sid ctx w = (Val tt, w', tr) →
  is_Some (tbl_servers w !! sid).
Proof.
  unfold do_bot_cleanup. intros Hrun.
  apply bind_inv in Hrun as [(? & ? & ? & ? & [= <- <- <-] & Hrun & ->) | (? & [=] & _)].
  apply bind_inv in Hrun as [(? & ? & ? & ? & [= <- <- <-] & Hrun & ->) | (? & [=] & _)].
  set (w0 := if existsb (Z.eqb sid) (servers w)
             then with_servers (list_remove sid (servers w)) w else w) in *.
  assert (Hrow0 : tbl_servers w0 = tbl_servers w) by (subst w0; by destruct (existsb _ _)).
  clearbody w0. unfold getMCIP in Hrun.
  repeat (run_inv; cbv beta in * ).
  all: repeat match goal with
         | H : for_each _ channel_delete _ = _ |- _ =>
             apply delete_loop_result in H as [(_ & ? & _ & _) [? | [? | ?]]]
         | H : log _ _ _ = _ |- _ => rewrite log_run in H
         end.
  all: simplify_eq; repeat (run_inv; cbv beta in * ).
  all: rewrite <- Hrow0.
  all: repeat match goal with
         | H : tbl_servers ?a = tbl_servers ?b |- is_Some (tbl_servers ?b !! _) =>
             rewrite <- H
         end.
  all: eauto.
Qed.

(** Without a row in [servers] no teardown ends well: what is left of it
    stops at [getMCIP], or earlier at a channel that is gone. *)
Lemma teardown_without_row sid ctx w :
  tbl_servers w !! sid = None →
  result (do_bot_cleanup sid ctx w) = Raised TypeError
  ∨ result (do_bot_cleanup sid ctx w) = Raised NotFound.
Proof.
  intros Hnone. pose proof (run_eta (do_bot_cleanup sid ctx w)) as Hrun.
  destruct (do_bot_cleanup_result _ _ _ _ _ _ Hrun) as [Hval | [Hnf | [Hte _]]];
    [|by right | by left].
  rewrite Hval in Hrun. apply teardown_done_had_row in Hrun as [row Hrow].
  congruence.
Qed.

(** C3.  The second of two [cleanup] commands in a row: the first one
    succeeds and removes the display channels and the rows of the tenant;
    the second finds no [servers] row, and [getMCIP] raises [TypeError] on
    subscripting the [None] that [fetchone] returned, where a second
    teardown should have been a successful no-op. *)
Theorem second_cleanup_raises :
  let first := cleanup Sample.ctx (Sample.world Sample.displays) in
  let second := cleanup Sample.ctx (world_after first) in
  result first = Val tt
  ∧ bot_guilds (world_after first) = [Sample.guild [Sample.general]]
  ∧ tbl_servers (world_after first) !! 7 = None
  ∧ tbl_times (world_after first) !! 7 = None
  ∧ roster (world_after first) 7 = []
  ∧ result second = Raised TypeError.
Proof. vm_compute. repeat split. Qed.

(** ** A failed query when no player-count channel exists *)

(** C10.  The first turn of a task whose query times out, in a guild that
    has the address channel but no player-count channel: [max] was never
    assigned, so building the channel name raises [UnboundLocalError]; no
    channel is created and the task dies. *)
Theorem failed_first_turn_cannot_name_channel :
  let w := Sample.world [Sample.vc 1 "IP: mc.example.com"] in
  let run := status_iter 7 QueryTimeout 1600000000 task_start w in
  find_channels (Sample.guild [Sample.vc 1 "IP: mc.example.com"])
                None (Some "Players: ") "in" (Some voice) = []
  ∧ result run = Raised UnboundLocalError
  ∧ events run = [EvPrint "Guild Timeout, server lagging?"]
  ∧ bot_guilds (world_after run) = bot_guilds w.
Proof. vm_compute. repeat split. Qed.

(** Once an earlier turn has assigned [max], the block does create a
    channel that carries the sentinel and the capacity of that turn. *)
Lemma players_block_failed_creates sid currServ loc cap wait w :
  loc_players loc = Some (-1) → loc_max loc = Some cap →
  g_may_create currServ = true →
  events (players_block sid currServ loc [] wait w)
  = [EvCreate (g_id currServ) ("Players: " +:+ "-1" +:+ "/" +:+ Py.str cap)]
  ∧ result (players_block sid currServ loc [] wait w) = Val (Sleep wait).
Proof.
  intros Hp Hm Hc.
  unfold players_block, create_voice_channel, bind, local, ret, get, modify, emit.
  rewrite Hp, Hm, Hc. simpl. done.
Qed.

Lemma players_block_unbound sid currServ loc wait w :
  loc_players loc = Some (-1) → loc_max loc = None →
  players_block sid currServ loc [] wait w = (Raised UnboundLocalError, w, []).
Proof.
  intros Hp Hm. unfold players_block, bind, local, ret, raise.
  by rewrite Hp, Hm.
Qed.

(** ** Counterexamples *)



(** C7 as stated fails: the deletion of the first display channel is
    refused; the other two are never tried and stay in the guild. *)
Lemma forbidden_delete_ends_the_loop :
  let cs := [Sample.locked (Sample.vc 1 "IP: mc.example.com");
             Sample.vc 2 "Players: 3/20"; Sample.vc 4 "Player Hrs: 5"] in
  let run := do_bot_cleanup 7 None (Sample.world cs) in
  result run = Val tt
  ∧ deletions (events run) = [EvDeleteForbidden 1]
  ∧ bot_guilds (world_after run) = [Sample.guild cs]
  ∧ tbl_servers (world_after run) !! 7 = None.
Proof. vm_compute. repeat split. Qed.

(** ** One turn, step by step *)

Lemma for_each_trace {A} (xs : list A) (body : A → M unit) (f : A → list Event) w :
  (∀ x w, body x w = (Val tt, w, f x)) →
  for_each xs body w = (Val tt, w, flat_map f xs).
Proof.
  intros Hbody. induction xs as [|x xs IH]; simpl; [done|].
  unfold bind. by rewrite Hbody, IH.
Qed.

Lemma safe_send_chan_run msg chan w :
  safe_send msg None (Some chan) "" w
  = (Val tt, w,
     if ch_may_send chan then [EvSend (ch_id chan) msg]
     else [EvSendForbidden (ch_id chan) msg;
           EvPrint (Py.join " " [ch_guild_name chan;
             "Error: I don't have permission to send messages here."])]).
Proof.
  unfold safe_send, chan_send, try_except, bind, emit, raise, print.
  destruct (ch_may_send chan); simpl; by rewrite append_empty_r.
Qed.

Lemma announce_loop_run currServ cid (js : list string) w :
  for_each js (λ name,
    match find_channels currServ (Some cid) None "equal" None with
    | chan :: _ =>
        bind (safe_send (name +:+ " joined the game!") None (Some chan) "")
             (λ _, print [g_name currServ; "Announced player(s) join."])
    | [] => ret tt
    end) w
  = (Val tt, w,
     match find_channels currServ (Some cid) None "equal" None with
     | chan :: _ =>
         flat_map (λ name,
           (if ch_may_send chan
            then [EvSend (ch_id chan) (name +:+ " joined the game!")]
            else [EvSendForbidden (ch_id chan) (name +:+ " joined the game!");
                  EvPrint (Py.join " " [ch_guild_name chan;
                    "Error: I don't have permission to send messages here."])])
           ++ [EvPrint (Py.join " " [g_name currServ; "Announced player(s) join."])]) js
     | [] => []
     end).
Proof.
  destruct (find_channels currServ (Some cid) None "equal" None) as [|chan ?].
  - rewrite (for_each_trace js _ (λ _, [])) by done.
    f_equal. by induction js.
  - apply for_each_trace. intros name w0. unfold bind.
    by rewrite safe_send_chan_run.
Qed.

(** A successful query, for a tenant whose rows exist. *)
Lemma query_phase_ok_inv sid currServ online cap names motd now loc w row t r w' tr :
  tbl_servers w !! sid = Some row →
  tbl_times w !! sid = Some t →
  query_phase sid currServ (QueryOk online cap names motd) now loc w = (r, w', tr) →
  r = Val (after_query_locals online cap names now loc row t)
  ∧ w' = after_query sid names now loc row w
  ∧ tr = announce_events currServ row (joined names (roster w sid)).
Proof.
  intros Hrow Htime Hrun.
  unfold query_phase, query_block, getMCNames, getStatus, getMCQueryTime,
    getPersonSeconds, setMCNames, setMCQueryTime, incrementPersonSeconds,
    getMCJoinAnnounce in Hrun.
  repeat (run_inv; cbv beta in * ); simpl in *.
  all: try match goal with
       | H : alter _ _ _ !! _ = _ |- _ =>
           rewrite lookup_alter_eq in H;
           match goal with H' : tbl_servers _ !! _ = Some _ |- _ => rewrite H' in H end;
           simpl in H; simplify_eq
       end.
  all: simpl in *.
  all: unfold after_query_locals, after_query, announce_events, elapsed, roster.
  all: try match goal with
       | H : for_each _ _ _ = _ |- _ => rewrite announce_loop_run in H; simplify_eq
       end.
  all: repeat match goal with H : _ = _ |- _ => rewrite H end; simpl.
  all: rewrite ?app_nil_r; by destruct (row_last_query _).
Qed.

Lemma query_phase_ok sid currServ online cap names motd now loc w row t :
  tbl_servers w !! sid = Some row →
  tbl_times w !! sid = Some t →
  query_phase sid currServ (QueryOk online cap names motd) now loc w
  = (Val (after_query_locals online cap names now loc row t),
     after_query sid names now loc row w,
     announce_events currServ row (joined names (roster w sid))).
Proof.
  intros Hrow Htime.
  destruct (query_phase_ok_inv sid currServ online cap names motd now loc w row t
              _ _ _ Hrow Htime (run_eta _)) as (Hr & Hw & Ht).
  rewrite (run_eta (query_phase _ _ _ _ _ _)). by rewrite Hr, Hw, Ht.
Qed.

(** A failed query changes nothing and leaves the sentinels behind. *)
Lemma query_phase_failed sid currServ q now loc w :
  failed q →
  ∃ line, query_phase sid currServ q now loc w
          = (Val (query_failed loc), w, [EvPrint line]).
Proof.
  destruct q; intros []; eexists; reflexivity.
Qed.

(** A turn for a tenant that is visible, registered and has an address is
    the query phase followed by the display phase. *)
Lemma status_iter_active sid q now loc w g row r w' tr :
  get_server_by_id w sid = Some g →
  existsb (Z.eqb sid) (servers w) = true →
  tbl_servers w !! sid = Some row →
  row_ip row ≠ "" →
  status_iter sid q now loc w = (r, w', tr) →
  (∃ e, query_phase sid g q now loc w = (Raised e, w', tr) ∧ r = Raised e)
  ∨ ∃ loc1 w1 t1 ro t2,
      query_phase sid g q now loc w = (Val loc1, w1, t1)
      ∧ display_phase sid g (row_ip row) loc1 w1 = (ro, w', t2)
      ∧ tr = t1 ++ t2 ∧ r = end_of_turn loc1 ro.
Proof.
  intros Hg Hreg Hrow Hip Hrun.
  unfold status_iter, reconcile, getMCIP in Hrun.
  repeat (run_inv; cbv beta in * ); simpl in *; simplify_eq.
  all: try (apply negb_false_iff, String.eqb_eq in Heqb0; done).
  all: try (rewrite Hreg in *; discriminate).
  all: rewrite ?app_nil_r.
  - right. by eexists _, _, _, (Val (Sleep _)), _.
  - right. by eexists _, _, _, (Val Return), _.
  - right. by eexists _, _, _, (Raised _), _.
  - left. by eexists.
Qed.


(** ** Accrual of player-seconds *)

Lemma registered_existsb sid l : In sid l → existsb (Z.eqb sid) l = true.
Proof. intros Hin. apply existsb_exists. exists sid. split; [done | apply Z.eqb_refl]. Qed.

(** A turn that ends in [Sleep] leaves the registry and the tables as the
    query phase left them. *)
Lemma display_phase_sleep sid currServ ip loc w wait w' tr :
  display_phase sid currServ ip loc w = (Val (Sleep wait), w', tr) →
  same_store w w'.
Proof.
  intros Hrun. apply display_phase_spec in Hrun as [[Hs _] | (_ & _ & Hr)]; [done|].
  by destruct (teardown_result_not_sleep _ _ _ wait Hr).
Qed.

Lemma end_of_turn_sleep loc1 ro loc' wait :
  end_of_turn loc1 ro = Val (loc', Sleep wait) →
  ro = Val (Sleep wait) ∧ loc' = end_of_iteration loc1.
Proof. destruct ro as [[?|]|?]; simpl; intros [=]; by subst. Qed.

(** A successful turn that ends in [Sleep], seen from its two ends. *)
Lemma successful_turn sid online cap names motd now loc w g row t loc' wait w' tr :
  get_server_by_id w sid = Some g →
  In sid (servers w) →
  tbl_servers w !! sid = Some row →
  row_ip row ≠ "" →
  tbl_times w !! sid = Some t →
  status_iter sid (QueryOk online cap names motd) now loc w
    = (Val (loc', Sleep wait), w', tr) →
  same_store (after_query sid names now loc row w) w'
  ∧ loc' = end_of_iteration (after_query_locals online cap names now loc row t)
  ∧ ∃ t2, tr = announce_events g row (joined names (roster w sid)) ++ t2
          ∧ display_phase sid g (row_ip row)
              (after_query_locals online cap names now loc row t)
              (after_query sid names now loc row w) = (Val (Sleep wait), w', t2).
Proof.
  intros Hg Hreg Hrow Hip Htime Hrun.
  apply (status_iter_active _ _ _ _ _ g row) in Hrun
    as [(e & _ & [=]) | (loc1 & w1 & t1 & ro & t2 & Hq & Hd & -> & Hr)];
    auto using registered_existsb.
  rewrite (query_phase_ok _ _ _ _ _ _ _ _ _ row t) in Hq by done.
  injection Hq as <- <- <-. symmetry in Hr.
  apply end_of_turn_sleep in Hr as [-> ->].
  split; [by eapply display_phase_sleep|]. split; [done|]. by exists t2.
Qed.



Lemma elapsed_never_queried row now :
  row_last_query row = None → (elapsed row now == 0)%Q.
Proof.
  intros Hnone. unfold elapsed, total_seconds. rewrite Hnone, Z.sub_diag. reflexivity.
Qed.



(** ** Join announcements *)








Lemma rows_of_others_filtered sid (l : list (Z * string)) :
  List.filter (λ r, fst r =? sid) (List.filter (λ r, negb (fst r =? sid)) l) = [].
Proof.
  induction l as [|[i n] l IH]; simpl; [done|].
  destruct (i =? sid) eqn:Hi; simpl; [done|]. by rewrite Hi.
Qed.








(** ** Teardown and refused deletions *)

Lemma channel_exists_without cid gone w :
  cid ≠ gone →
  channel_exists cid (without_channel gone w) = channel_exists cid w.
Proof.
  intros Hne. unfold channel_exists, without_channel. simpl.
  induction (bot_guilds w) as [|g gs IH]; simpl; [done|].
  rewrite IH. f_equal. clear IH.
  induction (g_channels g) as [|c cs IH]; simpl; [done|].
  destruct (ch_id c =? gone) eqn:Hc; simpl.
  - apply Z.eqb_eq in Hc. rewrite IH.
    assert ((ch_id c =? cid) = false) as -> by (apply Z.eqb_neq; congruence). done.
  - by rewrite IH.
Qed.

(** The deletion loop up to its first refusal. *)
Lemma delete_loop_refused (before : list Channel) c after w :
  (∀ x, In x (before ++ [c]) → channel_exists (ch_id x) w = true) →
  NoDup (map ch_id (before ++ [c])) →
  Forall (λ x, ch_may_delete x = true) before →
  ch_may_delete c = false →
  ∃ w1, for_each (before ++ c :: after) channel_delete w
        = (Raised Forbidden, w1,
           map (λ x, EvDelete (ch_id x)) before ++ [EvDeleteForbidden (ch_id c)])
        ∧ same_store w w1.
Proof.
  intros Hex Hnd Hdel Hc. revert w Hex.
  induction before as [|x xs IH]; intros w Hex; simpl.
  - exists w. split; [|apply same_store_refl].
    unfold bind at 1, channel_delete, bind at 1, get.
    rewrite (Hex c) by (left; done). simpl. rewrite Hc. reflexivity.
  - simpl in Hnd. apply NoDup_cons in Hnd as [Hx Hnd].
    apply Forall_cons in Hdel as [Hxd Hdel].
    destruct (IH Hnd Hdel (without_channel (ch_id x) w)) as (w1 & Hrun & Hs).
    { intros y Hy. rewrite channel_exists_without; [apply Hex; by right|].
      intros Heq. apply Hx. rewrite <- Heq. apply list_elem_of_In, in_map, Hy. }
    exists w1. split; [|by destruct Hs as (? & ? & ? & ?)].
    unfold bind at 1, channel_delete at 1, bind at 1, get.
    rewrite (Hex x) by (left; done). simpl. rewrite Hxd. simpl.
    by rewrite Hrun.
Qed.

Lemma deletions_app t1 t2 : deletions (t1 ++ t2) = deletions t1 ++ deletions t2.
Proof. apply List.filter_app. Qed.

Lemma deletions_deleted (cs : list Channel) :
  deletions (map (λ x, EvDelete (ch_id x)) cs) = map (λ x, EvDelete (ch_id x)) cs.
Proof. induction cs as [|x xs IH]; simpl; [done|]. by f_equal. Qed.

Lemma listed_channel_exists w sid g x chanid channame how chantype :
  get_server_by_id w sid = Some g →
  In x (find_channels g chanid channame how chantype) →
  channel_exists (ch_id x) w = true.
Proof.
  intros Hg Hx. unfold find_channels in Hx. apply List.filter_In in Hx as [Hx _].
  unfold get_server_by_id in Hg. apply find_some in Hg as [Hg _].
  unfold channel_exists. apply existsb_exists. exists g. split; [done|].
  apply existsb_exists. exists x. split; [done | apply Z.eqb_refl].
Qed.

Lemma deletions_reply ctx msg : deletions (reply ctx msg) = [].
Proof. unfold reply. by destruct (ctx_may_send ctx). Qed.

(** C7 (amended).  The teardown deletes the display channels in the order
    address, player count, hours.  The first refusal is noted on the console
    and ends the loop: the channels before it are deleted, no deletion is
    tried for the channels after it, and the rows of the tenant in the three
    tables are deleted all the same. *)
Theorem teardown_stops_at_refused_delete sid ctx w g row before c after r w' tr :
  get_server_by_id w sid = Some g →
  tbl_servers w !! sid = Some row →
  find_channels g None (Some "IP: ") "in" (Some voice)
    ++ find_channels g None (Some "Players: ") "in" (Some voice)
    ++ find_channels g None (Some "Player Hrs: ") "in" (Some voice)
  = before ++ c :: after →
  NoDup (map ch_id (before ++ [c])) →
  Forall (λ x, ch_may_delete x = true) before →
  ch_may_delete c = false →
  do_bot_cleanup sid ctx w = (r, w', tr) →
  r = Val tt
  ∧ deletions tr = map (λ x, EvDelete (ch_id x)) before ++ [EvDeleteForbidden (ch_id c)]
  ∧ In (EvPrint (Py.join " " [g_name g; "Error: I don't have permission to delete channels."])) tr
  ∧ tbl_servers w' !! sid = None
  ∧ tbl_times w' !! sid = None
  ∧ roster w' sid = [].
Proof.
  intros Hg Hrow Hlist Hnd Hdel Hc Hrun.
  unfold do_bot_cleanup in Hrun.
  apply bind_inv in Hrun as [(? & ? & ? & ? & [= <- <- <-] & Hrun & ->) | (? & [=] & _)].
  apply bind_inv in Hrun as [(? & ? & ? & ? & [= <- <- <-] & Hrun & ->) | (? & [=] & _)].
  set (w0 := if existsb (Z.eqb sid) (servers w)
             then with_servers (list_remove sid (servers w)) w else w) in *.
  assert (Hg0 : get_server_by_id w0 sid = Some g) by (subst w0; by destruct (existsb _ _)).
  assert (Hrow0 : tbl_servers w0 !! sid = Some row) by (subst w0; by destruct (existsb _ _)).
  clearbody w0.
  apply bind_inv in Hrun as [(? & ? & ? & ? & [= <- <- <-] & Hrun & ->) | (? & [=] & _)].
  cbv beta in Hrun. rewrite Hg0 in Hrun. cbv zeta in Hrun. rewrite Hlist in Hrun.
  assert (Hloop : ∃ w1, for_each (before ++ c :: after) channel_delete w0
            = (Raised Forbidden, w1,
               map (λ x, EvDelete (ch_id x)) before ++ [EvDeleteForbidden (ch_id c)])
            ∧ same_store w0 w1).
  { apply delete_loop_refused; auto.
    intros x Hx.
    assert (Hin : In x (before ++ c :: after)).
    { apply in_app_iff in Hx as [Hx | [<- | []]]; apply in_app_iff; [by left | right; by left]. }
    rewrite <- Hlist in Hin.
    apply in_app_iff in Hin as [Hin | Hin]; [|apply in_app_iff in Hin as [Hin | Hin]];
      by eapply listed_channel_exists. }
  repeat (run_inv; cbv beta in * ).
  all: destruct Hloop as (w1 & Hloop & (_ & Hs1 & Hs2 & Hs3)).
  all: match goal with
       | H : for_each _ _ _ = (Val _, _, _) |- _ => rewrite Hloop in H; discriminate H
       | H : for_each _ _ _ = (Raised ?e, _, _) |- _ =>
           is_var e; rewrite Hloop in H; simplify_eq
       end.
  all: repeat (run_inv; cbv beta in * ).
  all: unfold getMCIP in *; repeat (run_inv; cbv beta in * ).
  all: try congruence.
  all: repeat match goal with
         | H : log _ _ _ = _ |- _ => rewrite log_run in H; simplify_eq
         end.
  all: simpl.
  all: split; [done|].
  all: rewrite !deletions_app, deletions_deleted, ?deletions_reply; simpl.
  all: rewrite ?app_nil_r.
  all: split; [done|].
  all: split; [right; rewrite !in_app_iff; left; right; by left|].
  all: rewrite !lookup_delete_eq.
  all: split; [done|]; split; [done|].
  all: unfold roster; simpl.
  all: by rewrite rows_of_others_filtered.
Qed.

Lemma teardown_stops_at_refused_delete_witness :
  let cs := [Sample.vc 1 "IP: mc.example.com";
             Sample.locked (Sample.vc 2 "Players: 3/20");
             Sample.vc 4 "Player Hrs: 5"] in
  let run := do_bot_cleanup 7 None (Sample.world cs) in
  deletions (events run) = [EvDelete 1; EvDeleteForbidden 2]
  ∧ tbl_servers (world_after run) !! 7 = None.
Proof.
  intros cs run.
  destruct (teardown_stops_at_refused_delete 7 None (Sample.world cs) (Sample.guild cs)
              Sample.row [Sample.vc 1 "IP: mc.example.com"]
              (Sample.locked (Sample.vc 2 "Players: 3/20"))
              [Sample.vc 4 "Player Hrs: 5"]
              (result run) (world_after run) (events run))
    as (_ & Hdel & _ & Hrow & _).
  - reflexivity.
  - reflexivity.
  - reflexivity.
  - simpl. apply NoDup_cons. split; [|apply NoDup_singleton].
    intros Hin. apply list_elem_of_singleton in Hin. discriminate Hin.
  - repeat constructor.
  - reflexivity.
  - apply run_eta.
  - split; [exact Hdel | exact Hrow].
Defined.

(** ** A failed query and the displays *)

Lemma find_channels_in (g : Guild) n t :
  find_channels g None (Some n) "in" (Some t)
  = List.filter (λ c, Py.contains n (ch_name c) && ChannelType_eqb (ch_type c) t)
                (g_channels g).
Proof.
  unfold find_channels. apply List.filter_ext. intros c. simpl.
  destruct (Py.contains n (ch_name c)), (ChannelType_eqb (ch_type c) t); reflexivity.
Qed.

Lemma guild_has_id w sid g : get_server_by_id w sid = Some g → g_id g = sid.
Proof.
  unfold get_server_by_id. intros [_ Hid]%find_some. by apply Z.eqb_eq.
Qed.

(** Rewriting the channels of every guild does not change which guild an id
    finds. *)
Lemma get_server_by_id_map (f : Guild → list Channel) w sid :
  get_server_by_id
    (with_guilds (map (λ g, set_channels (f g) g) (bot_guilds w)) w) sid
  = (λ g, set_channels (f g) g) <$> get_server_by_id w sid.
Proof.
  unfold get_server_by_id. simpl.
  induction (bot_guilds w) as [|g gs IH]; simpl; [done|].
  destruct (g_id g =? sid); [done | exact IH].
Qed.

Lemma get_server_by_id_renamed cid n w sid :
  get_server_by_id (renamed cid n w) sid
  = (λ g, set_channels
            (map (λ c', if ch_id c' =? cid then rename n c' else c') (g_channels g)) g)
    <$> get_server_by_id w sid.
Proof. apply (get_server_by_id_map (λ g, map _ (g_channels g))). Qed.

Lemma get_server_by_id_new_channel g n w sid :
  get_server_by_id w sid = Some g →
  get_server_by_id (with_new_channel g n w) sid
  = Some (set_channels
            (g_channels g ++ [mkChannel (fresh_id w) n voice (g_name g) true true false]) g).
Proof.
  intros Hg. pose proof (guild_has_id _ _ _ Hg) as Hid. subst sid.
  unfold with_new_channel, update_guild, get_server_by_id in *. simpl.
  induction (bot_guilds w) as [|g0 gs IH]; simpl in *; [done|].
  destruct (g_id g0 =? g_id g) eqn:H0; simpl.
  - injection Hg as ->. by rewrite Z.eqb_refl.
  - rewrite H0. by apply IH.
Qed.

(** The three ways in which the address block lets the turn go on. *)
Lemma ip_block_sleep sid currServ ip iChannels wait0 w wait w' tr :
  ip_block sid currServ ip iChannels wait0 w = (Val (Sleep wait), w', tr) →
  (iChannels = [] ∧ w' = with_new_channel currServ ("IP: " +:+ ip) w
   ∧ tr = [EvCreate (g_id currServ) ("IP: " +:+ ip)])
  ∨ (∃ i rest, iChannels = i :: rest ∧ ch_name i = "IP: " +:+ ip ∧ w' = w ∧ tr = [])
  ∨ (∃ i rest line, iChannels = i :: rest ∧ w' = renamed (ch_id i) ("IP: " +:+ ip) w
       ∧ tr = [EvPrint line; EvEdit (ch_id i) ("IP: " +:+ ip)]).
Proof.
  intros Hrun. unfold ip_block in Hrun. destruct iChannels as [|i rest].
  - left. unfold create_voice_channel in Hrun.
    repeat (run_inv; cbv beta in * ). done.
  - right. destruct (negb (ch_name i =? "IP: " +:+ ip)%string) eqn:Hname.
    + right. unfold edit_or_cleanup, channel_edit in Hrun.
      repeat (run_inv; cbv beta in * ). by eexists _, _, _.
    + left. apply negb_false_iff, String.eqb_eq in Hname.
      repeat (run_inv; cbv beta in * ). by eexists _, _.
Qed.

(** After a failed query the player-count block leaves an existing display
    alone, and the hours block does nothing. *)
Lemma players_block_failed sid currServ loc p ps wait w :
  players_block sid currServ (query_failed loc) (p :: ps) wait w
  = (Val (Sleep wait), w, []).
Proof.
  unfold players_block, bind, local, ret. simpl. by rewrite String.eqb_refl.
Qed.

Lemma hours_block_failed sid currServ loc tChannels wait w r w' tr :
  hours_block sid currServ (query_failed loc) tChannels wait w = (r, w', tr) →
  w' = w ∧ tr = [] ∧ (r = Val (Sleep wait) ∨ ∃ e, r = Raised e).
Proof.
  intros Hrun. unfold hours_block, getShowHours in Hrun.
  repeat (run_inv; cbv beta in * ); simpl in *; simplify_eq; eauto.
Qed.

Lemma display_phase_failed sid currServ ip loc p ps w wait w' tr :
  find_channels currServ None (Some "Players: ") "in" (Some voice) = p :: ps →
  display_phase sid currServ ip (query_failed loc) w = (Val (Sleep wait), w', tr) →
  ∃ wait1, ip_block sid currServ ip
             (find_channels currServ None (Some "IP: ") "in" (Some voice)) 10 w
           = (Val (Sleep wait1), w', tr).
Proof.
  intros Hp Hrun. unfold display_phase, and_then in Hrun. rewrite Hp in Hrun.
  apply bind_inv in Hrun as [(o & w1 & t1 & t2 & H1 & H2 & ->) | (e & _ & [=])].
  destruct o as [wait1|]; [|discriminate H2].
  apply bind_inv in H2 as [(o & w2 & t3 & t4 & H2 & H3 & ->) | (e & _ & [=])].
  rewrite players_block_failed in H2. injection H2 as <- <- <-.
  apply hours_block_failed in H3 as (-> & -> & _).
  exists wait1. by rewrite !app_nil_r.
Qed.

Lemma prefix_append s t : String.prefix s (s +:+ t) = true.
Proof.
  induction s as [|a s IH]; [by destruct t|].
  change (String a s +:+ t) with (String a (s +:+ t)). simpl.
  by destruct (ascii_dec a a).
Qed.

Lemma contains_prefix n hay : String.prefix n hay = true → Py.contains n hay = true.
Proof. intros H. destruct hay; simpl in *; by rewrite H. Qed.

Lemma contains_ip_prefix ip : Py.contains "IP: " ("IP: " +:+ ip) = true.
Proof. apply contains_prefix, prefix_append. Qed.

(** After the rename of the first channel of a listing by name and type,
    the first channel of the listing carries the new name, provided the new
    name is listed too. *)
Lemma listing_renamed (N : string → bool) (T : ChannelType → bool)
    (cs : list Channel) i rest n :
  N n = true →
  List.filter (λ c, N (ch_name c) && T (ch_type c)) cs = i :: rest →
  ∃ i' rest',
    List.filter (λ c, N (ch_name c) && T (ch_type c))
      (map (λ c', if ch_id c' =? ch_id i then rename n c' else c') cs)
    = i' :: rest'
    ∧ ch_name i' = n.
Proof.
  intros Hn. induction cs as [|c cs IH]; simpl; [done|].
  destruct (N (ch_name c) && T (ch_type c)) eqn:Hc.
  - intros [= -> _]. rewrite Z.eqb_refl. simpl.
    apply andb_true_iff in Hc as [_ ->]. rewrite Hn. simpl.
    by eexists _, _.
  - intros Hrest. destruct (ch_id c =? ch_id i); simpl.
    + rewrite Hn. simpl.
      destruct (T (ch_type c)); [by eexists _, _ | by apply IH].
    + rewrite Hc. by apply IH.
Qed.

Lemma listed_in_guild g chanid channame how chantype x :
  In x (find_channels g chanid channame how chantype) → In x (g_channels g).
Proof. unfold find_channels. by intros [? _]%List.filter_In. Qed.

(** C2.  A turn whose query times out or cannot connect, and which runs to
    its end, neither renames nor deletes the player-count display: the
    channel is in the guild afterwards with the name it had, the sentinel -1
    stands in for the player count, and the first listed address channel
    reads "IP: " followed by the configured address. *)
Theorem failed_query_keeps_player_display
    sid q now loc w g row p ps loc' wait w' tr :
  failed q →
  get_server_by_id w sid = Some g →
  In sid (servers w) →
  tbl_servers w !! sid = Some row →
  row_ip row ≠ "" →
  find_channels g None (Some "Players: ") "in" (Some voice) = p :: ps →
  (∀ i rest, find_channels g None (Some "IP: ") "in" (Some voice) = i :: rest →
             ch_id i ≠ ch_id p) →
  status_iter sid q now loc w = (Val (loc', Sleep wait), w', tr) →
  (∀ ev, In ev tr → ev ≠ EvDelete (ch_id p) ∧ ∀ n, ev ≠ EvEdit (ch_id p) n)
  ∧ loc_players loc' = Some (-1)
  ∧ ∃ g', get_server_by_id w' sid = Some g'
      ∧ In p (g_channels g')
      ∧ ∃ i rest, find_channels g' None (Some "IP: ") "in" (Some voice) = i :: rest
                  ∧ ch_name i = "IP: " +:+ row_ip row.
Proof.
  intros Hq Hg Hreg Hrow Hip Hp Hdistinct Hrun.
  apply (status_iter_active _ _ _ _ _ g row) in Hrun
    as [(e & _ & [=]) | (loc1 & w1 & t1 & ro & t2 & Hqp & Hd & -> & Hr)];
    auto using registered_existsb.
  destruct (query_phase_failed sid g q now loc w Hq) as (line & Hfail).
  rewrite Hfail in Hqp. injection Hqp as <- <- <-.
  symmetry in Hr. apply end_of_turn_sleep in Hr as [-> ->].
  apply (display_phase_failed _ _ _ _ p ps) in Hd as (wait1 & Hd); [|done].
  assert (Hpin : In p (g_channels g)).
  { eapply listed_in_guild. rewrite Hp. by left. }
  split; [|split; [done|]].
  - intros ev Hev. apply ip_block_sleep in Hd
      as [(_ & _ & ->) | [(i & rest & _ & _ & _ & ->) | (i & rest & l & Hi & _ & ->)]].
    + destruct Hev as [<- | [<- | []]]; by split.
    + destruct Hev as [<- | []]; by split.
    + specialize (Hdistinct _ _ Hi).
      destruct Hev as [<- | [<- | [<- | []]]]; split; try done.
      intros n [= ? _]. done.
  - apply ip_block_sleep in Hd
      as [(Hi & -> & _) | [(i & rest & Hi & Hname & -> & _) | (i & rest & l & Hi & -> & _)]].
    + eexists. split; [by apply get_server_by_id_new_channel|]. simpl.
      split; [apply in_app_iff; by left|].
      rewrite find_channels_in in *. unfold set_channels. cbn [g_channels].
      rewrite List.filter_app, Hi. cbn [app List.filter ch_name ch_type].
      rewrite contains_ip_prefix. by eexists _, _.
    + exists g. split; [done|]. split; [done|]. by exists i, rest.
    + eexists. split; [by rewrite get_server_by_id_renamed, Hg|]. simpl. split.
      * apply in_map_iff. exists p. split; [|done].
        specialize (Hdistinct _ _ Hi).
        assert ((ch_id p =? ch_id i) = false) as -> by (apply Z.eqb_neq; congruence).
        done.
      * rewrite find_channels_in in *. unfold set_channels. cbn [g_channels].
        apply (listing_renamed (Py.contains "IP: ") (λ t, ChannelType_eqb t voice)
                 _ i rest); [apply contains_ip_prefix | done].
Qed.

Lemma failed_query_keeps_player_display_witness :
  let w := Sample.world [Sample.vc 1 "IP: old.example.com"; Sample.vc 2 "Players: 3/20"] in
  let run := status_iter 7 QueryTimeout 1600000000 Sample.warm w in
  ∃ g', get_server_by_id (world_after run) 7 = Some g'
        ∧ In (Sample.vc 2 "Players: 3/20") (g_channels g')
        ∧ ∃ i rest, find_channels g' None (Some "IP: ") "in" (Some voice) = i :: rest
                    ∧ ch_name i = "IP: mc.example.com".
Proof.
  intros w run.
  destruct (failed_query_keeps_player_display 7 QueryTimeout 1600000000 Sample.warm w
              (Sample.guild [Sample.vc 1 "IP: old.example.com"; Sample.vc 2 "Players: 3/20"])
              Sample.row (Sample.vc 2 "Players: 3/20") []
              (end_of_iteration Sample.warm_failed) 301
              (world_after run) (events run))
    as (_ & _ & Hg').
  - exact I.
  - reflexivity.
  - simpl. tauto.
  - reflexivity.
  - discriminate.
  - reflexivity.
  - intros i rest [= <- _]. discriminate.
  - vm_compute. reflexivity.
  - exact Hg'.
Defined.

(** ** The hours display *)
















Lemma row_after_query sid names now loc row w :
  tbl_servers w !! sid = Some row →
  tbl_servers (after_query sid names now loc row w) !! sid
  = Some (set_last_query (Some (strftime_seconds now)) row).
Proof.
  intros Hrow. unfold after_query. destruct (negb (first_iter loc)); simpl.
  all: by rewrite lookup_alter_eq, Hrow.
Qed.




(** ** The first interval after the creation of a tenant *)

(** A turn that goes on ran for a visible, registered tenant with a row. *)
Lemma status_iter_sleep_inv sid q now loc w loc' wait w' tr :
  status_iter sid q now loc w = (Val (loc', Sleep wait), w', tr) →
  ∃ g row, get_server_by_id w sid = Some g ∧ In sid (servers w)
           ∧ tbl_servers w !! sid = Some row
           ∧ (row_ip row = "" → w' = w).
Proof.
  intros Hrun. pose proof Hrun as Hrun'.
  unfold status_iter, reconcile, getMCIP in Hrun.
  repeat (run_inv; cbv beta in * ); simpl in *; simplify_eq.
  all: match goal with
       | H : negb (existsb _ _) = false |- _ =>
           apply negb_false_iff, existsb_exists in H as (sid' & Hin & Heq);
           apply Z.eqb_eq in Heq; subst sid'
       end.
  all: eexists _, _; repeat split; try done.
  intros Hip. rewrite Hip in *. discriminate.
Qed.

(** A turn whose query fails and which goes on leaves the registry and the
    tables as they were. *)
Lemma failed_turn_same_store sid q now loc w loc' wait w' tr :
  failed q →
  status_iter sid q now loc w = (Val (loc', Sleep wait), w', tr) →
  same_store w w' ∧ first_iter loc' = false.
Proof.
  intros Hq Hrun.
  destruct (status_iter_sleep_inv _ _ _ _ _ _ _ _ _ Hrun)
    as (g & row & Hg & Hreg & Hrow & Hinert).
  assert (Hfirst : first_iter loc' = false).
  { unfold status_iter, reconcile, getMCIP in Hrun.
    repeat (run_inv; cbv beta in * ); simpl in *; simplify_eq; done. }
  split; [|done].
  destruct (String.eqb_spec (row_ip row) "") as [Hip | Hip].
  { rewrite (Hinert Hip). apply same_store_refl. }
  destruct (status_iter_active _ _ _ _ _ g row _ _ _ Hg
              (registered_existsb _ _ Hreg) Hrow Hip Hrun)
    as [(e & _ & [=]) | (loc1 & w1 & t1 & ro & t2 & Hqp & Hd & -> & Hr)].
  destruct (query_phase_failed sid g q now loc w Hq) as (line & Hfail).
  rewrite Hfail in Hqp. injection Hqp as <- <- <-.
  symmetry in Hr. apply end_of_turn_sleep in Hr as [-> _].
  by eapply display_phase_sleep.
Qed.

(** A successful turn for a tenant that was never queried adds nothing. *)
Lemma unqueried_turn_adds_nothing sid online cap names motd now loc w row t loc' wait w' tr :
  tbl_servers w !! sid = Some row →
  tbl_times w !! sid = Some t →
  first_iter loc = true ∨ row_last_query row = None →
  status_iter sid (QueryOk online cap names motd) now loc w
    = (Val (loc', Sleep wait), w', tr) →
  ∃ t', tbl_times w' !! sid = Some t' ∧ (t' == t)%Q.
Proof.
  intros Hrow Htime Hcase Hrun.
  destruct (status_iter_sleep_inv _ _ _ _ _ _ _ _ _ Hrun)
    as (g & row' & Hg & Hreg & Hrow' & Hinert).
  assert (row' = row) as -> by congruence.
  destruct (String.eqb_spec (row_ip row) "") as [Hip | Hip].
  { rewrite (Hinert Hip). exists t. split; [done | reflexivity]. }
  destruct (successful_turn _ _ _ _ _ _ _ _ _ _ _ _ _ _ _ Hg Hreg Hrow Hip Htime Hrun)
    as ((_ & _ & _ & Htimes) & _ & _).
  rewrite Htimes. unfold after_query.
  destruct (first_iter loc) eqn:Hfirst; simpl.
  - exists t. split; [done | reflexivity].
  - destruct Hcase as [[=] | Hnone].
    rewrite lookup_alter_eq, Htime. simpl. eexists. split; [done|].
    rewrite (elapsed_never_queried _ _ Hnone). ring.
Qed.

(** Through any number of failed turns and one successful turn after them,
    a task on a tenant never queried before leaves the counter where it
    was. *)
Lemma first_success_adds_nothing sid (fails : list (QueryResult * Z))
    online cap names motd now loc w row t loc' w' tr :
  Forall (λ turn, failed (fst turn)) fails →
  tbl_servers w !! sid = Some row →
  row_last_query row = None →
  tbl_times w !! sid = Some t →
  run_task sid (fails ++ [(QueryOk online cap names motd, now)]) loc w
    = (Val (Running loc'), w', tr) →
  ∃ t', tbl_times w' !! sid = Some t' ∧ (t' == t)%Q.
Proof.
  intros Hfails. revert loc w tr.
  induction Hfails as [|[q now0] fails Hq _ IH]; intros loc w tr Hrow Hnone Htime Hrun;
    simpl in Hrun.
  - apply bind_inv in Hrun as [([loc1 o] & w1 & t1 & t2 & H1 & H2 & ->) | (e & _ & [=])].
    destruct o as [wait|]; [|discriminate H2]. injection H2 as <- <- <-.
    eapply unqueried_turn_adds_nothing; [exact Hrow | exact Htime | by right | exact H1].
  - apply bind_inv in Hrun as [([loc1 o] & w1 & t1 & t2 & H1 & H2 & ->) | (e & _ & [=])].
    destruct o as [wait|]; [|discriminate H2].
    simpl in Hq. apply (failed_turn_same_store _ _ _ _ _ _ _ _ _ Hq) in H1
      as ((_ & Hs & _ & Ht) & _).
    eapply (IH loc1 w1); [by rewrite Hs | done | by rewrite Ht | exact H2].
Qed.

Lemma validate_ip_port_world ctx arg port w r w' tr :
  validate_ip_port ctx arg port w = (r, w', tr) → w' = w.
Proof.
  unfold validate_ip_port. intros Hrun.
  repeat match type of Hrun with
         | (match ?x with _ => _ end) _ = _ => destruct x
         | (if ?b then _ else _) _ = _ => destruct b
         end.
  all: rewrite ?log_then_ret in Hrun; by injection Hrun.
Qed.

(** [setup] creates a tenant without a last-query time and with the counter
    at zero. *)
Lemma setup_creates_unqueried ctx arg port annChanID q w r w' tr :
  tbl_servers w !! g_id (ctx_guild ctx) = None →
  tbl_times w !! g_id (ctx_guild ctx) = None →
  setup ctx arg port annChanID q w = (r, w', tr) →
  (∀ row, tbl_servers w' !! g_id (ctx_guild ctx) = Some row → row_last_query row = None)
  ∧ (∀ t, tbl_times w' !! g_id (ctx_guild ctx) = Some t → t = fresh_time).
Proof.
  intros Hrow Htime Hrun. unfold setup in Hrun.
  apply bind_inv in Hrun as [(v & w1 & t1 & t2 & H1 & Hrun & ->) | (e & H1 & ->)].
  2: { apply validate_ip_port_world in H1 as ->. split; intros ?; congruence. }
  apply validate_ip_port_world in H1 as ->.
  unfold setAnn, getMCIP, setMCNames, getStatus in Hrun.
  repeat (run_inv; cbv beta in * ).
  all: repeat match goal with
         | H : log _ _ _ = _ |- _ => rewrite log_run in H; simplify_eq
         end.
  all: simpl in *; simplify_eq.
  all: try (split; intros ?; congruence).
  all: rewrite Hrow, Htime in *.
  all: rewrite ?lookup_alter_eq, ?lookup_insert_eq in *; simpl in *; simplify_eq.
  all: split; intros ? [= <-]; done.
Qed.

(** * Further properties of the commands, the start-up and the task *)

(** ** Sending *)



(** ** The roster table *)





(** ** The switches *)

(** X3.  [$showhours] and [$nohours] set the flag that [getShowHours] reads, tell
    the user, and leave the rest of the row, the other rows, the other tables
    and the registry alone. *)
Theorem setHours_round_trip ctx hours w row :
  tbl_servers w !! g_id (ctx_guild ctx) = Some row →
  let gid := g_id (ctx_guild ctx) in
  let run := setHours ctx hours w in
  result run = Val tt
  ∧ getShowHours gid (world_after run) = (Val hours, world_after run, [])
  ∧ tbl_servers (world_after run) = <[gid := set_hours hours row]> (tbl_servers w)
  ∧ only_servers_row w (world_after run)
  ∧ events run
    = reply ctx (if hours
                 then "Displaying total player hours for " +:+ row_ip row +:+ "."
                 else "Not displaying total player hours for " +:+ row_ip row +:+ ".").
Proof.
  intros Hrow gid run. subst gid run.
  unfold setHours, getMCIP, getShowHours, bind, get, fetchone, modify, ret.
  rewrite Hrow. cbn beta iota.
  rewrite log_run.
  cbn [result world_after events fst snd with_tbl_servers tbl_servers app].
  rewrite lookup_alter_eq, Hrow. cbn.
  split_and!; try done.
  apply map_eq. intros i. destruct (decide (i = g_id (ctx_guild ctx))) as [->|Hne].
  - by rewrite lookup_alter_eq, lookup_insert_eq, Hrow.
  - by rewrite lookup_alter_ne, lookup_insert_ne.
Qed.

Lemma setHours_round_trip_witness :
  let w := Sample.world Sample.displays in
  getShowHours 7 (world_after (setHours Sample.ctx false w))
  = (Val false, world_after (setHours Sample.ctx false w), []).
Proof.
  intros w.
  destruct (setHours_round_trip Sample.ctx false w Sample.row) as (_ & Hread & _).
  - reflexivity.
  - exact Hread.
Defined.

(** X4.  [$announce] stores the channel id it is given and [$noannounce] clears
    it, as [getMCJoinAnnounce] reads them back; no test stands between the
    command and the row, so the id of a channel that the guild does not have
    is stored like any other. *)
Theorem setAnn_round_trip ctx chanid w row :
  tbl_servers w !! g_id (ctx_guild ctx) = Some row →
  let gid := g_id (ctx_guild ctx) in
  let on := announce ctx chanid w in
  let off := noannounce ctx w in
  result on = Val tt
  ∧ getMCJoinAnnounce gid (world_after on) = (Val (true, Some chanid), world_after on, [])
  ∧ tbl_servers (world_after on) = <[gid := set_announce true (Some chanid) row]> (tbl_servers w)
  ∧ only_servers_row w (world_after on)
  ∧ result off = Val tt
  ∧ getMCJoinAnnounce gid (world_after off) = (Val (false, None), world_after off, [])
  ∧ tbl_servers (world_after off) = <[gid := set_announce false None row]> (tbl_servers w)
  ∧ only_servers_row w (world_after off).
Proof.
  intros Hrow gid on off. subst gid on off.
  unfold announce, noannounce, setAnn, getMCIP, getMCJoinAnnounce,
    bind, get, fetchone, modify, ret.
  rewrite Hrow. cbn beta iota.
  rewrite !log_run.
  cbn [result world_after events fst snd with_tbl_servers tbl_servers app].
  rewrite !lookup_alter_eq, Hrow. cbn.
  split_and!; try done.
  all: apply map_eq; intros i; destruct (decide (i = g_id (ctx_guild ctx))) as [->|Hne].
  all: by rewrite ?lookup_alter_eq, ?lookup_insert_eq, ?Hrow, ?lookup_alter_ne, ?lookup_insert_ne.
Qed.

Lemma setAnn_round_trip_witness :
  let w := Sample.world Sample.displays in
  find_channels (Sample.guild Sample.displays) (Some 99) None "equal" None = []
  ∧ getMCJoinAnnounce 7 (world_after (announce Sample.ctx 99 w))
    = (Val (true, Some 99), world_after (announce Sample.ctx 99 w), []).
Proof.
  intros w. split; [reflexivity|].
  destruct (setAnn_round_trip Sample.ctx 99 w Sample.row) as (_ & Hread & _).
  - reflexivity.
  - exact Hread.
Defined.

(** X5.  Before [$setup] there is no row to read: every other command but
    [$cleanup] stops at [getMCIP] with a [TypeError], having changed and sent
    nothing.  The reply "There is no server query set up" is never sent. *)
Theorem commands_need_a_row ctx q chanid w :
  tbl_servers w !! g_id (ctx_guild ctx) = None →
  status ctx q w = (Raised TypeError, w, [])
  ∧ players ctx q w = (Raised TypeError, w, [])
  ∧ lastquery ctx w = (Raised TypeError, w, [])
  ∧ announce ctx chanid w = (Raised TypeError, w, [])
  ∧ noannounce ctx w = (Raised TypeError, w, [])
  ∧ showhours ctx w = (Raised TypeError, w, [])
  ∧ nohours ctx w = (Raised TypeError, w, []).
Proof.
  intros Hrow.
  unfold status, players, lastquery, announce, noannounce, showhours, nohours,
    setAnn, setHours, getMCIP, bind, get, fetchone, raise.
  rewrite Hrow. done.
Qed.

Lemma commands_need_a_row_witness :
  let w := with_tbl_servers ∅ (Sample.world Sample.displays) in
  status Sample.ctx (QueryOk 3 20 [] "") w = (Raised TypeError, w, [])
  ∧ lastquery Sample.ctx w = (Raised TypeError, w, []).
Proof.
  intros w.
  destruct (commands_need_a_row Sample.ctx (QueryOk 3 20 [] "") 3 w)
    as (Hstatus & _ & Hlast & _).
  - reflexivity.
  - split; [exact Hstatus | exact Hlast].
Defined.

(** ** The list of players *)

Lemma drop_last_snoc s c : Py.drop_last (s +:+ String c "") = s.
Proof.
  induction s as [|a s IH]; [done|].
  change (String a s +:+ String c "") with (String a (s +:+ String c "")).
  cbn [Py.drop_last]. rewrite IH.
  destruct s; reflexivity.
Qed.

Lemma drop_last_nl s : Py.drop_last (s +:+ Py.nl) = s.
Proof. apply drop_last_snoc. Qed.

Lemma append_assoc (a b c : string) : (a +:+ b) +:+ c = a +:+ (b +:+ c).
Proof.
  induction a as [|x a IH]; [done|].
  change (String x a +:+ b) with (String x (a +:+ b)).
  change (String x (a +:+ b) +:+ c) with (String x ((a +:+ b) +:+ c)).
  change (String x a +:+ (b +:+ c)) with (String x (a +:+ (b +:+ c))).
  by rewrite IH.
Qed.

Lemma players_lines (names : list string) (head : string) :
  fold_left (λ pStr name, pStr +:+ ("  " +:+ name +:+ Py.nl)) names (head +:+ Py.nl)
  = (head +:+ String.concat "" (map (λ name, Py.nl +:+ "  " +:+ name) names)) +:+ Py.nl.
Proof.
  revert head. induction names as [|n ns IH]; intros head.
  - cbn [fold_left map String.concat]. by rewrite append_empty_r.
  - cbn [fold_left map].
    replace ((head +:+ Py.nl) +:+ ("  " +:+ n +:+ Py.nl))
      with ((head +:+ (Py.nl +:+ "  " +:+ n)) +:+ Py.nl)
      by (by rewrite !append_assoc).
    rewrite IH. f_equal. rewrite append_assoc. f_equal.
    destruct ns as [|n' ns']; [by cbn; rewrite append_empty_r|].
    cbn [map String.concat]. by rewrite ?append_assoc.
Qed.

(** X6.  [$players] answers with the heading and one indented line per name, in
    the order of the query and without a line feed at the end; for an empty
    server the answer is the heading alone.  Nothing is stored. *)
Theorem players_lists_every_name ctx w row online cap names motd :
  tbl_servers w !! g_id (ctx_guild ctx) = Some row →
  let run := players ctx (QueryOk online cap names motd) w in
  result run = Val tt
  ∧ world_after run = w
  ∧ posts (events run)
    = [(if ctx_may_send ctx then EvCtxSend else EvCtxSendForbidden)
         (g_id (ctx_guild ctx)) ("```" +:+ players_message names +:+ "```")].
Proof.
  intros Hrow run. subst run.
  unfold players, getMCIP, getStatus, bind, get, fetchone, ret.
  rewrite Hrow. cbn beta iota.
  rewrite players_lines. fold (players_message names). rewrite drop_last_nl.
  unfold safe_send, try_except, ctx_send, bind, emit, raise, print.
  destruct (ctx_may_send ctx); cbn; done.
Qed.

Lemma players_lists_every_name_witness :
  posts (events (players Sample.ctx (QueryOk 2 20 ["alice"; "bob"] "")
                   (Sample.world Sample.displays)))
  = [EvCtxSend 7 ("```" +:+ players_message ["alice"; "bob"] +:+ "```")].
Proof.
  destruct (players_lists_every_name Sample.ctx (Sample.world Sample.displays)
              Sample.row 2 20 ["alice"; "bob"] "")
    as (_ & _ & Hposts).
  - reflexivity.
  - exact Hposts.
Defined.

(** ** Set-up of a tenant *)

Lemma validate_accepts ctx arg port p w :
  acceptable arg port p →
  validate_ip_port ctx arg port w = (Val (Some (host_part arg, p)), w, []).
Proof.
  intros (Hp & Hrange & Hsyn & Hpriv).
  unfold validate_ip_port, host_part, port_part in *.
  set (split := Py.split ":" arg) in *.
  set (host := if (1 <? length split)%nat then nth 0 split "" else arg) in *.
  rewrite Hp.
  assert ((0 <=? p) && (p <? 65536) = true) as ->
    by (apply andb_true_iff; split; [apply Z.leb_le | apply Z.ltb_lt]; lia).
  cbn [negb].
  assert (negb (Re.fullmatch domain_re host) && negb (Re.fullmatch addr_re host) = false) as ->
    by (destruct Hsyn as [-> | ->]; cbn [negb andb]; [done | by rewrite andb_false_r]).
  by rewrite Hpriv.
Qed.

Lemma validate_accepted_inv ctx arg port w h p w' tr :
  validate_ip_port ctx arg port w = (Val (Some (h, p)), w', tr) →
  acceptable arg port p ∧ h = host_part arg ∧ w' = w ∧ tr = [].
Proof.
  unfold validate_ip_port, acceptable, host_part, port_part.
  set (split := Py.split ":" arg).
  set (host := if (1 <? length split)%nat then nth 0 split "" else arg).
  destruct (if (1 <? length split)%nat then Py.int (nth 1 split "") else Some port)
    as [p'|] eqn:Hp.
  2: { rewrite log_then_ret. discriminate. }
  destruct (negb ((0 <=? p') && (p' <? 65536))) eqn:Hrange.
  { rewrite log_then_ret. discriminate. }
  destruct (negb (Re.fullmatch domain_re host) && negb (Re.fullmatch addr_re host)) eqn:Hsyn.
  { rewrite log_then_ret. discriminate. }
  destruct (Re.startmatch private_re host) eqn:Hpriv.
  { rewrite log_then_ret. discriminate. }
  intros [= <- <- <- <-].
  apply negb_false_iff, andb_true_iff in Hrange as [H0 H1].
  apply Z.leb_le in H0. apply Z.ltb_lt in H1.
  split_and!; try done.
  destruct (Re.fullmatch domain_re host); [by left|].
  destruct (Re.fullmatch addr_re host); [by right | done].
Qed.

Lemma acceptable_host arg port p : acceptable arg port p → host_part arg ≠ "".
Proof. intros (_ & _ & [H | H] & _) Heq; rewrite Heq in H; discriminate H. Qed.

Lemma tasks_started_app sid t1 t2 :
  tasks_started sid (t1 ++ t2) = (tasks_started sid t1 + tasks_started sid t2)%nat.
Proof. unfold tasks_started. by rewrite List.filter_app, length_app. Qed.

Lemma tasks_started_reply sid ctx msg : tasks_started sid (reply ctx msg) = 0%nat.
Proof. unfold reply. by destruct (ctx_may_send ctx). Qed.

Lemma setup_ok_inv ctx arg port p annChanID online cap names motd w r w' tr :
  acceptable arg port p →
  setup ctx arg port annChanID (QueryOk online cap names motd) w = (r, w', tr) →
  let gid := g_id (ctx_guild ctx) in
  r = Val tt
  ∧ bot_guilds w' = bot_guilds w
  ∧ servers w' = (if existsb (Z.eqb gid) (servers w) then servers w else servers w ++ [gid])
  ∧ tbl_servers w'
    = <[gid := set_announce (if annChanID is Some _ then true else false) annChanID
                 (match tbl_servers w !! gid with
                  | Some old => set_ip_port (host_part arg) port old
                  | None => fresh_server_row (host_part arg) port
                  end)]> (tbl_servers w)
  ∧ tbl_names w' = List.filter (λ r, negb (fst r =? gid)) (tbl_names w)
                     ++ map (λ name, (gid, name)) names
  ∧ tbl_times w' = (match tbl_times w !! gid with
                    | Some _ => tbl_times w
                    | None => <[gid := fresh_time]> (tbl_times w)
                    end)
  ∧ tasks_started gid tr = (if existsb (Z.eqb gid) (servers w) then 0 else 1)%nat.
Proof.
  intros Hacc Hrun gid. unfold setup in Hrun.
  apply bind_inv in Hrun as [(v & w1 & t1 & t2 & H1 & Hrun & ->) | (e & H1 & ->)];
    rewrite (validate_accepts _ _ _ _ _ Hacc) in H1; [|discriminate].
  injection H1 as <- <- <-.
  cbv beta iota in Hrun.
  assert (String.eqb (host_part arg) "" = false) as Hne
    by (apply String.eqb_neq; by eapply acceptable_host).
  rewrite Hne in Hrun. fold gid in Hrun.
  unfold setAnn, getMCIP, setMCNames, getStatus in Hrun.
  repeat (run_inv; cbv beta in * ).
  all: repeat match goal with
         | H : log _ _ _ = _ |- _ => rewrite log_run in H; simplify_eq
         end.
  all: subst gid;
    cbn [bot_guilds servers tbl_servers tbl_names tbl_times
         with_guilds with_servers with_tbl_servers with_tbl_names with_tbl_times] in *.
  all: destruct (tbl_servers x0 !! g_id (ctx_guild ctx)) as [old|] eqn:Hold;
    rewrite ?lookup_insert_eq in *; simplify_eq.
  all: rewrite ?alter_insert_eq, ?tasks_started_app, ?tasks_started_reply.
  all: destruct (existsb (Z.eqb (g_id (ctx_guild ctx))) (servers x0)) eqn:Hreg;
    cbn [negb] in Heqb; try discriminate Heqb.
  all: cbn [tasks_started List.filter length app]; rewrite ?Z.eqb_refl.
  all: split_and!; done.
Qed.




Lemma acceptable_sample : acceptable "mc.example.com:1234" 25565 1234.
Proof.
  split; [vm_compute; reflexivity|]. split; [lia|].
  split; [left; vm_compute; reflexivity | vm_compute; reflexivity].
Qed.


(** X8.  Setting up again keeps what the tenant has accumulated: the counter of
    player seconds, the switch of the hours display and the time of the last
    query stay as they are. *)
Theorem setup_again_keeps_history ctx arg port p annChanID online cap names motd w old t :
  acceptable arg port p →
  tbl_servers w !! g_id (ctx_guild ctx) = Some old →
  tbl_times w !! g_id (ctx_guild ctx) = Some t →
  let gid := g_id (ctx_guild ctx) in
  let run := setup ctx arg port annChanID (QueryOk online cap names motd) w in
  tbl_times (world_after run) = tbl_times w
  ∧ ∃ row, tbl_servers (world_after run) !! gid = Some row
      ∧ row_hours row = row_hours old
      ∧ row_last_query row = row_last_query old.
Proof.
  intros Hacc Hold Ht gid run.
  destruct (setup_ok_inv _ _ _ _ _ _ _ _ _ _ _ _ _ Hacc (run_eta run))
    as (_ & _ & _ & Hrow & _ & Htimes & _).
  fold gid in Hrow, Htimes, Hold, Ht. rewrite Hold in Hrow. rewrite Ht in Htimes.
  split; [done|]. rewrite Hrow, lookup_insert_eq. eexists. by split.
Qed.

Lemma setup_again_keeps_history_witness :
  let run := setup Sample.ctx "mc.example.com:1234" 25565 None
               (QueryOk 1 20 ["dave"] "") (Sample.world Sample.displays) in
  tbl_times (world_after run) = tbl_times (Sample.world Sample.displays).
Proof.
  intros run.
  destruct (setup_again_keeps_history Sample.ctx "mc.example.com:1234" 25565 1234 None
              1 20 ["dave"] "" (Sample.world Sample.displays) Sample.row 100%Q
              acceptable_sample)
    as (Htimes & _).
  - reflexivity.
  - reflexivity.
  - exact Htimes.
Defined.

(** X9.  [$setup] starts a task for the tenant exactly when the registry does not
    hold it, and then enters it once: a registry without repetitions stays
    so, and a tenant that is registered gets no second task. *)
Theorem setup_starts_one_task ctx arg port p annChanID online cap names motd w :
  acceptable arg port p →
  let gid := g_id (ctx_guild ctx) in
  let run := setup ctx arg port annChanID (QueryOk online cap names motd) w in
  (In gid (servers w) →
     tasks_started gid (events run) = 0%nat ∧ servers (world_after run) = servers w)
  ∧ (¬ In gid (servers w) →
     tasks_started gid (events run) = 1%nat
     ∧ servers (world_after run) = servers w ++ [gid])
  ∧ (NoDup (servers w) → NoDup (servers (world_after run))).
Proof.
  intros Hacc gid run.
  destruct (setup_ok_inv _ _ _ _ _ _ _ _ _ _ _ _ _ Hacc (run_eta run))
    as (_ & _ & Hreg & _ & _ & _ & Htasks).
  fold gid in Hreg, Htasks.
  destruct (existsb (Z.eqb gid) (servers w)) eqn:He.
  - assert (In gid (servers w)) as Hin.
    { apply existsb_exists in He as (x & Hx & Heq). apply Z.eqb_eq in Heq. by subst. }
    split_and!; [done | done | by rewrite Hreg].
  - assert (¬ In gid (servers w)) as Hnin.
    { intros Hin. apply registered_existsb in Hin. congruence. }
    split_and!; [done | done |].
    intros Hnd. rewrite Hreg. apply NoDup_app. split_and!; [done | | apply NoDup_singleton].
    intros x Hx ->%list_elem_of_singleton. apply Hnin. by apply list_elem_of_In.
Qed.

Lemma setup_starts_one_task_witness :
  let w := Sample.world Sample.displays in
  let run := setup Sample.ctx "mc.example.com:1234" 25565 None (QueryOk 1 20 ["dave"] "") w in
  let fresh := setup Sample.ctx "mc.example.com:1234" 25565 None (QueryOk 1 20 ["dave"] "")
                 (with_servers [] w) in
  tasks_started 7 (events run) = 0%nat ∧ tasks_started 7 (events fresh) = 1%nat.
Proof.
  intros w run fresh.
  destruct (setup_starts_one_task Sample.ctx "mc.example.com:1234" 25565 1234 None
              1 20 ["dave"] "" w acceptable_sample) as (Hin & _ & _).
  destruct (setup_starts_one_task Sample.ctx "mc.example.com:1234" 25565 1234 None
              1 20 ["dave"] "" (with_servers [] w) acceptable_sample) as (_ & Hout & _).
  split.
  - apply Hin. simpl. tauto .
  - apply Hout. simpl. tauto.
Defined.

(** X10.  A [$setup] whose query fails stores nothing and starts no task.
    When the query raises [asyncio.exceptions.TimeoutError] or
    [ConnectionRefusedError], the user gets a message and the command
    returns; an address that does not resolve leaves the command with
    [socket.gaierror], which [setup] does not catch. *)
Theorem setup_stores_nothing_on_failed_query ctx arg port p annChanID q w :
  acceptable arg port p →
  failed q →
  let run := setup ctx arg port annChanID q w in
  world_after run = w
  ∧ tasks_started (g_id (ctx_guild ctx)) (events run) = 0%nat
  ∧ match q with
    | QueryUnresolved => result run = Raised gaierror ∧ events run = []
    | _ => result run = Val tt ∧ ∃ msg, events run = reply ctx msg
    end.
Proof.
  intros Hacc Hq run. subst run. unfold setup, bind.
  rewrite (validate_accepts _ _ _ _ _ Hacc).
  assert (String.eqb (host_part arg) "" = false) as ->
    by (apply String.eqb_neq; by eapply acceptable_host).
  destruct q; [done| | |]; unfold try_except, getStatus, bind, raise; cbn beta iota.
  1,2: rewrite log_run; unfold ret; cbv beta iota zeta;
    cbn [result world_after events fst snd app];
    rewrite ?app_nil_r, tasks_started_reply; split_and!; eauto.
  cbn. done.
Qed.

Lemma setup_stores_nothing_on_failed_query_witness :
  let w := Sample.world Sample.displays in
  world_after (setup Sample.ctx "mc.example.com:1234" 25565 None QueryTimeout w) = w
  ∧ result (setup Sample.ctx "mc.example.com:1234" 25565 None QueryUnresolved w)
    = Raised gaierror.
Proof.
  intros w.
  destruct (setup_stores_nothing_on_failed_query Sample.ctx "mc.example.com:1234" 25565
              1234 None QueryTimeout w acceptable_sample I) as (Hw & _).
  destruct (setup_stores_nothing_on_failed_query Sample.ctx "mc.example.com:1234" 25565
              1234 None QueryUnresolved w acceptable_sample I) as (_ & _ & Hr & _).
  split; [exact Hw | exact Hr].
Defined.

(** ** The addresses that pass the validation *)

Lemma dead_not_nullable r : dead r = true → Re.nullable r = false.
Proof.
  induction r; simpl; try done.
  - intros [H | H]%orb_true_iff; [rewrite IHr1 | rewrite IHr2, andb_false_r]; done.
  - intros [H1 H2]%andb_true_iff. by rewrite IHr1, IHr2.
Qed.

Lemma dead_deriv c r : dead r = true → dead (Re.deriv c r) = true.
Proof.
  induction r; simpl; try done.
  - intros [H | H]%orb_true_iff.
    + rewrite (dead_not_nullable _ H). simpl. by rewrite IHr1.
    + destruct (Re.nullable r1); simpl; rewrite ?IHr2, ?H, ?orb_true_r; done.
  - intros [H1 H2]%andb_true_iff. by rewrite IHr1, IHr2.
Qed.

Lemma dead_no_match r s : dead r = true → Re.fullmatch r s = false.
Proof.
  revert r. induction s as [|c s IH]; intros r Hd; simpl.
  - by apply dead_not_nullable.
  - apply IH. by apply dead_deriv.
Qed.

Lemma within_deriv P c r : within P r → within P (Re.deriv c r).
Proof.
  induction r; simpl; try done.
  - intros _. by destruct (Re.in_range c lo hi).
  - intros [H1 H2]. destruct (Re.nullable r1); simpl; auto.
  - intros [H1 H2]. auto.
  - intros H. auto.
Qed.

Lemma outside_deriv P c r : within P r → P c = false → dead (Re.deriv c r) = true.
Proof.
  intros Hw Hc. induction r; simpl in *; try done.
  - destruct (Re.in_range c lo hi) eqn:Hin; [|done].
    apply Hw in Hin. congruence.
  - destruct Hw as [H1 H2]. destruct (Re.nullable r1); simpl.
    + by rewrite IHr1, IHr2.
    + by rewrite IHr1.
  - destruct Hw as [H1 H2]. by rewrite IHr1, IHr2.
  - by rewrite IHr.
Qed.

Lemma fullmatch_within P r s :
  within P r → Re.fullmatch r s = true → all_chars P s = true.
Proof.
  revert r. induction s as [|c s IH]; intros r Hw Hm; simpl in *; [done|].
  destruct (P c) eqn:Hc; simpl.
  - eapply IH; [|done]. by apply within_deriv.
  - rewrite dead_no_match in Hm; [done|]. by eapply outside_deriv.
Qed.

Lemma range_host_chars lo hi :
  (∀ c, Re.in_range c lo hi = true → host_char c = true)
  ↔ forallb (λ n, implb (Re.in_range (ascii_of_nat n) lo hi) (host_char (ascii_of_nat n)))
            (seq 0 256) = true.
Proof.
  rewrite forallb_forall. split.
  - intros H n _. destruct (Re.in_range _ lo hi) eqn:Hin; [|done]. by rewrite H.
  - intros H c Hin.
    assert (In (nat_of_ascii c) (seq 0 256)) as Hc
      by (apply in_seq; pose proof (nat_ascii_bounded c); lia).
    specialize (H _ Hc). rewrite ascii_nat_embedding, Hin in H. exact H.
Qed.

Lemma domain_re_within : within host_char domain_re.
Proof. cbv [domain_re within alnum Re.plus Re.rep_between Re.rep Re.opt Re.lit Nat.sub].
  repeat split; try (apply range_host_chars; vm_compute; reflexivity).
Qed.

Lemma addr_re_within : within host_char addr_re.
Proof. cbv [addr_re octet_re within Re.rep Re.word Re.lit].
  repeat split; try (apply range_host_chars; vm_compute; reflexivity).
Qed.

(** X11.  What [validate_ip_port] lets pass is a port of sixteen bits and a host
    that is not empty and made of lower-case letters, digits, dots and
    hyphens only, so that it holds no quote, no blank and no colon; nothing
    is sent and nothing changes. *)
Theorem validated_host_is_plain ctx arg port w h p w' tr :
  validate_ip_port ctx arg port w = (Val (Some (h, p)), w', tr) →
  0 ≤ p < 65536
  ∧ h ≠ ""
  ∧ all_chars host_char h = true
  ∧ Re.startmatch private_re h = false
  ∧ w' = w ∧ tr = [].
Proof.
  intros Hrun. apply validate_accepted_inv in Hrun as (Hacc & -> & -> & ->).
  pose proof (acceptable_host _ _ _ Hacc) as Hne.
  destruct Hacc as (_ & Hrange & Hsyn & Hpriv).
  assert (all_chars host_char (host_part arg) = true) as Hchars.
  { destruct Hsyn as [Hd | Ha].
    - by eapply fullmatch_within; [apply domain_re_within|].
    - by eapply fullmatch_within; [apply addr_re_within|]. }
  split; [lia|]. by split_and!.
Qed.

Lemma validated_host_is_plain_witness :
  all_chars host_char "mc.example.com" = true.
Proof.
  destruct (validated_host_is_plain Sample.ctx "mc.example.com:1234" 25565
              (Sample.world Sample.displays) "mc.example.com" 1234
              (Sample.world Sample.displays) [])
    as (_ & _ & Hchars & _).
  - vm_compute. reflexivity.
  - exact Hchars.
Defined.

(** ** Teardown *)

Lemma delete_loop_targets (cs : list Channel) w r w' tr :
  for_each cs channel_delete w = (r, w', tr) →
  Forall (λ ev, ∃ c, In c cs ∧ (ev = EvDelete (ch_id c) ∨ ev = EvDeleteForbidden (ch_id c))) tr.
Proof.
  revert w tr. induction cs as [|c cs IH]; intros w tr Hrun; simpl in Hrun.
  - injection Hrun as <- <- <-. constructor.
  - apply bind_inv in Hrun as [(a & w1 & t1 & t2 & H1 & H2 & ->) | (e & H1 & ->)].
    + apply Forall_app. split.
      * unfold channel_delete in H1. repeat (run_inv; cbv beta in * ).
        repeat constructor. exists c. split; [by left | by left].
      * apply IH in H2. eapply Forall_impl; [exact H2|].
        intros ev (c' & Hin & Hev). exists c'. split; [by right | done].
    + unfold channel_delete in H1. repeat (run_inv; cbv beta in * ).
      all: repeat constructor. exists c. split; [by left | by right].
Qed.

Lemma teardown_tables sid ctx w r w' tr :
  do_bot_cleanup sid ctx w = (r, w', tr) →
  (r = Val tt ∧ tbl_servers w' = delete sid (tbl_servers w)
   ∧ tbl_names w' = List.filter (λ r, negb (fst r =? sid)) (tbl_names w)
   ∧ tbl_times w' = delete sid (tbl_times w))
  ∨ ((∃ e, r = Raised e) ∧ tbl_servers w' = tbl_servers w
     ∧ tbl_names w' = tbl_names w ∧ tbl_times w' = tbl_times w).
Proof.
  unfold do_bot_cleanup. intros Hrun.
  apply bind_inv in Hrun as [(? & ? & ? & ? & [= <- <- <-] & Hrun & ->) | (? & [=] & _)].
  apply bind_inv in Hrun as [(? & ? & ? & ? & [= <- <- <-] & Hrun & ->) | (? & [=] & _)].
  set (w0 := if existsb (Z.eqb sid) (servers w)
             then with_servers (list_remove sid (servers w)) w else w) in *.
  assert (Hrow0 : tbl_servers w0 = tbl_servers w ∧ tbl_names w0 = tbl_names w
                  ∧ tbl_times w0 = tbl_times w)
    by (subst w0; by destruct (existsb _ _)).
  destruct Hrow0 as (Hs0 & Hn0 & Ht0).
  clearbody w0. unfold getMCIP in Hrun.
  repeat (run_inv; cbv beta in * ).
  all: repeat match goal with
         | H : log _ _ _ = _ |- _ => rewrite log_run in H
         | H : for_each _ channel_delete _ = _ |- _ =>
             apply delete_loop_result in H as [(_ & ? & ? & ?) _]
         end.
  all: simplify_eq; repeat (run_inv; cbv beta in * ).
  all: repeat match goal with
         | H : match ?e with _ => _ end = Some _ |- _ => destruct e; simplify_eq
         end.
  all: repeat (run_inv; cbv beta in * ).
  all: cbn [bot_guilds servers tbl_servers tbl_names tbl_times
            with_guilds with_servers with_tbl_servers with_tbl_names with_tbl_times].
  all: try (left; split_and!; [done | congruence ..]).
  all: right; split_and!; [by eexists | congruence ..].
Qed.

Lemma roster_without sid other w w' :
  tbl_names w' = List.filter (λ r, negb (fst r =? sid)) (tbl_names w) →
  roster w' other = if other =? sid then [] else roster w other.
Proof.
  intros Heq. unfold roster. rewrite Heq. clear Heq.
  destruct (other =? sid) eqn:Ho.
  - apply Z.eqb_eq in Ho. subst other. by rewrite rows_of_others_filtered.
  - f_equal. induction (tbl_names w) as [|[i n] l IH]; simpl; [done|].
    destruct (i =? sid) eqn:Hi; simpl.
    + apply Z.eqb_eq in Hi. subst i. rewrite Z.eqb_sym, Ho. done.
    + destruct (i =? other); simpl; by rewrite IH.
Qed.

(** X12.  A teardown that ends well leaves no row of the tenant in any of the
    three tables; one that raises leaves the tables as they were, although
    the tenant is out of the registry by then.  The rows of the other
    tenants are never touched. *)
Theorem teardown_all_or_nothing sid ctx w :
  let run := do_bot_cleanup sid ctx w in
  same_rows_but sid w (world_after run)
  ∧ servers (world_after run) = list_remove sid (servers w)
  ∧ match result run with
    | Val _ => forgotten sid (world_after run)
    | Raised _ =>
        tbl_servers (world_after run) = tbl_servers w
        ∧ tbl_names (world_after run) = tbl_names w
        ∧ tbl_times (world_after run) = tbl_times w
    end.
Proof.
  intros run. pose proof (run_eta run) as Hrun.
  destruct (do_bot_cleanup_inv _ _ _ _ _ _ Hrun) as (_ & _ & _ & Hreg).
  destruct (teardown_tables _ _ _ _ _ _ Hrun)
    as [(Hr & Hs & Hn & Ht) | ((e & Hr) & Hs & Hn & Ht)]; rewrite Hr.
  - split_and!; [|done|].
    + intros other Hne. rewrite Hs, Ht, (roster_without sid other w _ Hn).
      rewrite !lookup_delete_ne by done.
      assert ((other =? sid) = false) as -> by (by apply Z.eqb_neq). done.
    + unfold forgotten. rewrite Hs, Ht, (roster_without sid sid w _ Hn).
      by rewrite !lookup_delete_eq, Z.eqb_refl.
  - split_and!; try done.
    intros other Hne. unfold roster. by rewrite Hs, Hn, Ht.
Qed.

Lemma find_channels_voice_display g n t c :
  In n ["IP: "; "Players: "; "Player Hrs: "] →
  In c (find_channels g None (Some n) "in" (Some t)) →
  In c (g_channels g) ∧ ch_type c = t ∧ display_name (ch_name c) = true.
Proof.
  intros Hn Hin. rewrite find_channels_in in Hin.
  apply List.filter_In in Hin as [Hc [Hname Htype]%andb_true_iff].
  split_and!; [done | by destruct (ch_type c), t |].
  unfold display_name. simpl in Hn.
  destruct Hn as [<- | [<- | [<- | []]]]; rewrite Hname; by rewrite ?orb_true_r.
Qed.

Lemma in_deletions cid tr :
  In (EvDelete cid) tr ∨ In (EvDeleteForbidden cid) tr →
  ∃ ev, (ev = EvDelete cid ∨ ev = EvDeleteForbidden cid) ∧ In ev (deletions tr).
Proof.
  intros [H | H]; eexists; (split; [|apply List.filter_In; split; [exact H | done]]); auto.
Qed.

Lemma teardown_targets sid ctx w r w' tr cid :
  do_bot_cleanup sid ctx w = (r, w', tr) →
  In (EvDelete cid) tr ∨ In (EvDeleteForbidden cid) tr →
  ∃ g c, get_server_by_id w sid = Some g ∧ In c (g_channels g) ∧ ch_id c = cid
         ∧ ch_type c = voice ∧ display_name (ch_name c) = true.
Proof.
  intros Hrun Hcid. unfold do_bot_cleanup in Hrun.
  apply bind_inv in Hrun as [(? & ? & ? & ? & [= <- <- <-] & Hrun & ->) | (? & [=] & _)].
  apply bind_inv in Hrun as [(? & ? & ? & ? & [= <- <- <-] & Hrun & ->) | (? & [=] & _)].
  set (w0 := if existsb (Z.eqb sid) (servers w)
             then with_servers (list_remove sid (servers w)) w else w) in *.
  assert (Hg0 : get_server_by_id w0 sid = get_server_by_id w sid)
    by (subst w0; by destruct (existsb _ _)).
  clearbody w0. unfold getMCIP in Hrun.
  repeat (run_inv; cbv beta in * ).
  all: repeat match goal with
         | H : log _ _ _ = _ |- _ => rewrite log_run in H
         end.
  all: simplify_eq; repeat (run_inv; cbv beta in * ).
  all: repeat match goal with
         | H : match ?e with _ => _ end = Some _ |- _ => destruct e; simplify_eq
         end.
  all: repeat (run_inv; cbv beta in * ).
  all: repeat match goal with
         | H : for_each _ channel_delete _ = _ |- _ => apply delete_loop_targets in H
         end.
  all: apply in_deletions in Hcid as (ev & Hev & Hin).
  all: rewrite ?deletions_app, ?deletions_reply in Hin.
  all: cbn [deletions List.filter is_deletion app] in Hin; rewrite ?app_nil_r in Hin.
  all: try (exfalso; exact Hin).
  all: apply List.filter_In in Hin as [Hin _].
  all: match goal with
       | H : Forall _ ?t, Hin : In _ ?t |- _ =>
           rewrite List.Forall_forall in H; apply H in Hin as (c' & Hc' & Hev')
       end.
  all: exists g, c'.
  all: assert (ev = EvDelete (ch_id c') ∨ ev = EvDeleteForbidden (ch_id c')) as Hev'' by done.
  all: assert (ch_id c' = cid) as Hid by (destruct Hev as [-> | ->], Hev'' as [[=] | [=]]; done).
  all: rewrite !in_app_iff in Hc'.
  all: destruct Hc' as [Hc' | [Hc' | Hc']];
    apply find_channels_voice_display in Hc' as (? & ? & ?); [|simpl; auto ..].
  all: done.
Qed.

(** X13.  A teardown deletes, or tries to delete, nothing but voice channels of
    the tenant's guild whose name holds one of the three display prefixes;
    it renames and creates nothing. *)
Theorem teardown_deletes_only_displays sid ctx w :
  let run := do_bot_cleanup sid ctx w in
  Forall (λ ev, written_name ev = None) (events run)
  ∧ ∀ cid, In (EvDelete cid) (events run) ∨ In (EvDeleteForbidden cid) (events run) →
      ∃ g c, get_server_by_id w sid = Some g ∧ In c (g_channels g) ∧ ch_id c = cid
             ∧ ch_type c = voice ∧ display_name (ch_name c) = true.
Proof.
  intros run. pose proof (run_eta run) as Hrun. split.
  - destruct (do_bot_cleanup_inv _ _ _ _ _ _ Hrun) as (tr' & -> & Hh & _).
    constructor; [done|]. eapply Forall_impl; [exact Hh|]. by intros ev (_ & _ & ?).
  - intros cid. by eapply teardown_targets.
Qed.

Lemma teardown_deletes_only_displays_witness :
  let w := Sample.world Sample.displays in
  let run := do_bot_cleanup 7 None w in
  In (EvDelete 2) (events run)
  ∧ ∃ g c, get_server_by_id w 7 = Some g ∧ In c (g_channels g) ∧ ch_id c = 2
           ∧ ch_type c = voice ∧ display_name (ch_name c) = true.
Proof.
  intros w run.
  assert (In (EvDelete 2) (events run)) as Hin by (vm_compute; tauto).
  split; [exact Hin|].
  destruct (teardown_deletes_only_displays 7 None w) as (_ & Htargets).
  apply Htargets. left. exact Hin.
Defined.

Lemma count_occ_list_remove sid other l :
  count_occ Z.eq_dec (list_remove sid l) other
  = if Z.eq_dec other sid then Nat.pred (count_occ Z.eq_dec l sid)
    else count_occ Z.eq_dec l other.
Proof.
  induction l as [|x l IH]; simpl.
  - by destruct (Z.eq_dec other sid).
  - destruct (x =? sid) eqn:Hx.
    + apply Z.eqb_eq in Hx. subst x.
      destruct (Z.eq_dec sid sid); [|done]. simpl.
      destruct (Z.eq_dec other sid) as [->|Hne]; [done|].
      by destruct (Z.eq_dec sid other) as [->|].
    + apply Z.eqb_neq in Hx. simpl. rewrite IH.
      destruct (Z.eq_dec x sid); [done|].
      destruct (Z.eq_dec other sid) as [->|Hne].
      * by destruct (Z.eq_dec x sid).
      * done.
Qed.

(** X14.  A teardown takes one entry of the tenant out of the registry and no
    more: a tenant that stands in the registry twice is still registered
    afterwards.  The entries of the other tenants stay. *)
Theorem teardown_unregisters_once sid ctx w :
  let run := do_bot_cleanup sid ctx w in
  registered sid (world_after run) = Nat.pred (registered sid w)
  ∧ ∀ other, other ≠ sid → registered other (world_after run) = registered other w.
Proof.
  intros run.
  destruct (do_bot_cleanup_inv _ _ _ _ _ _ (run_eta run)) as (_ & _ & _ & Hreg).
  unfold registered. rewrite Hreg. split.
  - rewrite count_occ_list_remove. by destruct (Z.eq_dec sid sid).
  - intros other Hne. rewrite count_occ_list_remove. by destruct (Z.eq_dec other sid).
Qed.

Lemma teardown_unregisters_once_witness :
  let w := with_servers [7; 8; 7] (Sample.world Sample.displays) in
  let run := do_bot_cleanup 7 None w in
  registered 7 (world_after run) = 1%nat ∧ registered 8 (world_after run) = 1%nat.
Proof.
  intros w run.
  destruct (teardown_unregisters_once 7 None w) as (Hself & Hother).
  split.
  - etransitivity; [exact Hself | reflexivity].
  - etransitivity; [apply (Hother 8); discriminate | reflexivity].
Defined.

Lemma delete_loop_done (cs : list Channel) w w' tr :
  for_each cs channel_delete w = (Val tt, w', tr) →
  w' = fold_left (λ w c, without_channel (ch_id c) w) cs w.
Proof.
  revert w tr. induction cs as [|c cs IH]; intros w tr Hrun; simpl in Hrun.
  - by injection Hrun as <- <-.
  - apply bind_inv in Hrun as [(a & w1 & t1 & t2 & H1 & H2 & ->) | (e & H1 & [=])].
    apply IH in H2. simpl. rewrite H2. f_equal.
    unfold channel_delete in H1. by repeat (run_inv; cbv beta in * ).
Qed.

Lemma delete_loop_forbidden (cs : list Channel) w w' tr :
  for_each cs channel_delete w = (Raised Forbidden, w', tr) →
  ∃ cid, In (EvDeleteForbidden cid) tr.
Proof.
  revert w tr. induction cs as [|c cs IH]; intros w tr Hrun; simpl in Hrun.
  - discriminate.
  - apply bind_inv in Hrun as [(a & w1 & t1 & t2 & H1 & H2 & ->) | (e & H1 & [= <-])].
    + apply IH in H2 as (cid & Hin). exists cid. apply in_or_app. by right.
    + unfold channel_delete in H1. repeat (run_inv; cbv beta in * ).
      exists (ch_id c). simpl. auto.
Qed.

Lemma get_server_by_id_without (cs : list Channel) w sid :
  get_server_by_id (fold_left (λ w c, without_channel (ch_id c) w) cs w) sid
  = (λ g, set_channels (List.filter (not_among cs) (g_channels g)) g)
    <$> get_server_by_id w sid.
Proof.
  revert w. induction cs as [|c cs IH]; intros w; simpl.
  - destruct (get_server_by_id w sid) as [g|]; simpl; [|done].
    f_equal. destruct g as [i n chs m]. unfold set_channels. simpl. f_equal.
    clear. induction chs as [|x chs IHc]; simpl; [done|]. by rewrite <- IHc.
  - rewrite IH. unfold without_channel.
    rewrite (get_server_by_id_map
               (λ g, List.filter (λ c', negb (ch_id c' =? ch_id c)) (g_channels g))).
    destruct (get_server_by_id w sid) as [g|]; simpl; [|done].
    f_equal. unfold set_channels. simpl. f_equal.
    induction (g_channels g) as [|x chs IHc]; simpl; [done|].
    destruct (ch_id x =? ch_id c); simpl; [done|].
    destruct (not_among cs x); simpl; by rewrite IHc.
Qed.

Lemma not_among_listed cs c : In c cs → not_among cs c = false.
Proof.
  intros Hin. unfold not_among. apply not_true_iff_false. intros Hall.
  rewrite forallb_forall in Hall. specialize (Hall _ Hin).
  by rewrite Z.eqb_refl in Hall.
Qed.

Lemma displays_gone g cs n t :
  (∀ c, In c (find_channels g None (Some n) "in" (Some t)) → In c cs) →
  find_channels (set_channels (List.filter (not_among cs) (g_channels g)) g)
                None (Some n) "in" (Some t) = [].
Proof.
  intros Hall. rewrite find_channels_in. rewrite find_channels_in in Hall.
  simpl. induction (g_channels g) as [|x chs IH]; simpl; [done|].
  destruct (not_among cs x) eqn:Hx; simpl.
  - destruct (Py.contains n (ch_name x) && ChannelType_eqb (ch_type x) t) eqn:Hq.
    + exfalso. assert (In x cs) as Hin by (apply Hall; simpl; rewrite Hq; by left).
      apply not_among_listed in Hin. congruence.
    + apply IH. intros c Hc. apply Hall. simpl. rewrite Hq. done.
  - apply IH. intros c Hc. apply Hall. simpl.
    destruct (Py.contains n (ch_name x) && ChannelType_eqb (ch_type x) t); [by right | done].
Qed.

(** X15.  After a teardown that ends well and was refused no deletion, the guild
    has no voice channel left whose name holds one of the display
    prefixes. *)
Theorem teardown_removes_every_display sid ctx w w' tr n g' :
  do_bot_cleanup sid ctx w = (Val tt, w', tr) →
  (∀ cid, ¬ In (EvDeleteForbidden cid) tr) →
  In n ["IP: "; "Players: "; "Player Hrs: "] →
  get_server_by_id w' sid = Some g' →
  find_channels g' None (Some n) "in" (Some voice) = [].
Proof.
  intros Hrun Hnone Hn Hg'. unfold do_bot_cleanup in Hrun.
  apply bind_inv in Hrun as [(? & ? & ? & ? & [= <- <- <-] & Hrun & ->) | (? & [=] & _)].
  apply bind_inv in Hrun as [(? & ? & ? & ? & [= <- <- <-] & Hrun & ->) | (? & [=] & _)].
  set (w0 := if existsb (Z.eqb sid) (servers w)
             then with_servers (list_remove sid (servers w)) w else w) in *.
  clearbody w0. unfold getMCIP in Hrun.
  repeat (run_inv; cbv beta in * ).
  all: repeat match goal with
         | H : log _ _ _ = _ |- _ => rewrite log_run in H
         end.
  all: simplify_eq; repeat (run_inv; cbv beta in * ).
  all: repeat match goal with
         | H : match ?e with _ => _ end = Some _ |- _ => destruct e; simplify_eq
         end.
  all: repeat (run_inv; cbv beta in * ).
  all: unfold get_server_by_id in Hg';
    cbn [bot_guilds with_tbl_servers with_tbl_names with_tbl_times] in Hg';
    fold (get_server_by_id) in Hg'.
  all: change (find (λ server : Guild, g_id server =? sid) (bot_guilds ?v))
         with (get_server_by_id v sid) in Hg'.
  all: try congruence.
  all: try match goal with
       | H : for_each _ channel_delete _ = (Raised Forbidden, _, _) |- _ =>
           exfalso; apply delete_loop_forbidden in H as (cid & Hin);
           apply (Hnone cid); rewrite !in_app_iff; tauto
       end.
  all: match goal with
       | H : for_each _ channel_delete _ = (Val _, _, _) |- _ =>
           destruct x1; apply delete_loop_done in H; subst x7
       end.
  all: rewrite get_server_by_id_without in Hg'.
  all: match goal with
       | H : get_server_by_id ?v ?s = Some _,
         Hg' : _ <$> get_server_by_id ?v ?s = Some _ |- _ =>
           rewrite H in Hg'; simpl in Hg'; simplify_eq
       end.
  all: apply displays_gone; intros c' Hc'; rewrite !in_app_iff.
  all: simpl in Hn; destruct Hn as [<- | [<- | [<- | []]]]; tauto.
Qed.

Lemma teardown_removes_every_display_witness :
  let w := Sample.world Sample.displays in
  let run := do_bot_cleanup 7 None w in
  result run = Val tt
  ∧ find_channels (Sample.guild [Sample.general]) None (Some "Players: ") "in" (Some voice)
    = [].
Proof.
  intros w run. split; [vm_compute; reflexivity|].
  apply (teardown_removes_every_display 7 None w (world_after run) (events run)
           "Players: " (Sample.guild [Sample.general])).
  - vm_compute. reflexivity.
  - intros cid Hin. vm_compute in Hin.
    repeat (destruct Hin as [Hin | Hin]; [discriminate Hin|]). exact Hin.
  - simpl. tauto.
  - vm_compute. reflexivity.
Defined.

(** ** Start-up *)

Lemma teardown_kicked sid w row :
  get_server_by_id w sid = None →
  tbl_servers w !! sid = Some row →
  do_bot_cleanup sid None w
  = (Val tt,
     with_tbl_times (delete sid (tbl_times w))
       (with_tbl_names (List.filter (λ r, negb (fst r =? sid)) (tbl_names w))
          (with_tbl_servers (delete sid (tbl_servers w))
             (with_servers (list_remove sid (servers w)) w))),
     [EvCleanup sid; EvPrint (Py.join " " ["Cleaned up"; Py.str sid; "."])]).
Proof.
  intros Hg Hrow.
  unfold do_bot_cleanup, getMCIP, bind, emit, modify, get, fetchone, ret, print.
  assert (∀ w0, bot_guilds w0 = bot_guilds w → get_server_by_id w0 sid = None) as Hg0
    by (intros w0 Heq; unfold get_server_by_id in *; by rewrite Heq).
  destruct (existsb (Z.eqb sid) (servers w)) eqn:Hreg.
  - rewrite Hg0 by done. cbn [tbl_servers with_servers]. rewrite Hrow. done.
  - rewrite Hg. rewrite Hrow. cbn. rewrite (list_remove_absent _ _ Hreg).
    by destruct w.
Qed.

Lemma registered_remove sid other l w :
  servers w = list_remove sid l →
  registered other w = if Z.eq_dec other sid then Nat.pred (count_occ Z.eq_dec l sid)
                       else count_occ Z.eq_dec l other.
Proof. intros Heq. unfold registered. rewrite Heq. apply count_occ_list_remove. Qed.

Lemma on_ready_row_kept sid row w g :
  get_server_by_id w sid = Some g →
  ∃ tr, on_ready_row (sid, row) w = (Val tt, with_servers (servers w ++ [sid]) w, tr)
        ∧ ∀ other, tasks_started other tr = if other =? sid then 1%nat else 0%nat.
Proof.
  intros Hg. unfold on_ready_row, bind, get, emit, modify, print. cbn [fst snd].
  rewrite Hg. eexists. split; [reflexivity|].
  intros other. unfold tasks_started. cbn. rewrite (Z.eqb_sym sid other).
  by destruct (other =? sid).
Qed.

Lemma on_ready_row_kicked sid row w :
  get_server_by_id w sid = None →
  tbl_servers w !! sid = Some row →
  ∃ tr, on_ready_row (sid, row) w
        = (Val tt,
           with_tbl_times (delete sid (tbl_times w))
             (with_tbl_names (List.filter (λ r, negb (fst r =? sid)) (tbl_names w))
                (with_tbl_servers (delete sid (tbl_servers w))
                   (with_servers (list_remove sid (servers w)) w))), tr)
        ∧ ∀ other, tasks_started other tr = 0%nat.
Proof.
  intros Hg Hrow. unfold on_ready_row, bind, get, print, emit. cbn [fst snd].
  rewrite Hg. rewrite (teardown_kicked _ _ _ Hg Hrow). eexists. split; [reflexivity|].
  intros other. done.
Qed.

(** What one row of the loop of [on_ready] does to the tenant of the row
    and to the others. *)
Lemma on_ready_row_step sid row w :
  tbl_servers w !! sid = Some row →
  ∃ w' tr, on_ready_row (sid, row) w = (Val tt, w', tr)
    ∧ bot_guilds w' = bot_guilds w
    ∧ (∀ other, other ≠ sid →
         tenant_rows other w' = tenant_rows other w
         ∧ registered other w' = registered other w
         ∧ tasks_started other tr = 0%nat)
    ∧ match get_server_by_id w sid with
      | Some _ => tenant_rows sid w' = tenant_rows sid w
                  ∧ registered sid w' = S (registered sid w)
                  ∧ tasks_started sid tr = 1%nat
      | None => forgotten sid w'
                ∧ registered sid w' = Nat.pred (registered sid w)
                ∧ tasks_started sid tr = 0%nat
      end.
Proof.
  intros Hrow. destruct (get_server_by_id w sid) as [g|] eqn:Hg.
  - destruct (on_ready_row_kept sid row w g Hg) as (tr & Hrun & Htasks).
    exists (with_servers (servers w ++ [sid]) w), tr.
    refine (conj Hrun (conj eq_refl (conj _ (conj eq_refl (conj _ _))))).
    + intros other Hne. refine (conj eq_refl (conj _ _)).
      * unfold registered. simpl. rewrite count_occ_app. simpl.
        destruct (Z.eq_dec sid other); [congruence | lia].
      * rewrite Htasks. by apply Z.eqb_neq in Hne as ->.
    + unfold registered. simpl. rewrite count_occ_app. simpl.
      destruct (Z.eq_dec sid sid); [lia | done].
    + by rewrite Htasks, Z.eqb_refl.
  - destruct (on_ready_row_kicked sid row w Hg Hrow) as (tr & Hrun & Htasks).
    eexists _, tr. split; [exact Hrun|].
    refine (conj eq_refl (conj _ (conj _ (conj _ (Htasks sid))))).
    + intros other Hne. refine (conj _ (conj _ (Htasks other))).
      * unfold tenant_rows. simpl. rewrite !lookup_delete_ne by done.
        erewrite (roster_without sid other w) by reflexivity.
        by apply Z.eqb_neq in Hne as ->.
      * unfold registered. simpl. rewrite count_occ_list_remove.
        by destruct (Z.eq_dec other sid).
    + unfold forgotten. simpl. rewrite !lookup_delete_eq.
      erewrite (roster_without sid sid w) by reflexivity. by rewrite Z.eqb_refl.
    + unfold registered. simpl. rewrite count_occ_list_remove.
      by destruct (Z.eq_dec sid sid).
Qed.

Lemma forgotten_rows sid w : forgotten sid w ↔ tenant_rows sid w = (None, None, []).
Proof.
  unfold forgotten, tenant_rows. split.
  - by intros (-> & -> & ->).
  - by intros [= -> -> ->].
Qed.

Lemma on_ready_rows (rows : list (Z * ServerRow)) w :
  NoDup (map fst rows) →
  (∀ sid row, In (sid, row) rows → tbl_servers w !! sid = Some row) →
  ∃ w' tr, for_each rows on_ready_row w = (Val tt, w', tr)
    ∧ bot_guilds w' = bot_guilds w
    ∧ (∀ sid, ¬ In sid (map fst rows) →
         tenant_rows sid w' = tenant_rows sid w
         ∧ registered sid w' = registered sid w
         ∧ tasks_started sid tr = 0%nat)
    ∧ (∀ sid, In sid (map fst rows) →
         match get_server_by_id w sid with
         | Some _ => tenant_rows sid w' = tenant_rows sid w
                     ∧ registered sid w' = S (registered sid w)
                     ∧ tasks_started sid tr = 1%nat
         | None => forgotten sid w'
                   ∧ registered sid w' = Nat.pred (registered sid w)
                   ∧ tasks_started sid tr = 0%nat
         end).
Proof.
  revert w. induction rows as [|[s r] rest IH]; intros w Hnd Hrows.
  - exists w, []. split_and!; [done | done | by intros | by intros ? []].
  - apply NoDup_cons in Hnd as [Hs Hnd]. simpl in Hs.
    assert (¬ In s (map fst rest)) as Hs' by (by rewrite <- list_elem_of_In).
    destruct (on_ready_row_step s r w) as (w1 & t1 & Hrun1 & Hg1 & Hother & Hself);
      [apply Hrows; by left|].
    assert (∀ sid, get_server_by_id w1 sid = get_server_by_id w sid) as Hget
      by (intros sid; unfold get_server_by_id; by rewrite Hg1).
    destruct (IH w1 Hnd) as (w' & t2 & Hrun2 & Hg2 & Hout & Hin).
    { intros sid row Hin.
      assert (sid ≠ s) as Hne
        by (intros ->; apply Hs'; apply in_map_iff; by exists (s, row)).
      destruct (Hother sid Hne) as ([= Hrow _ _] & _). rewrite Hrow.
      apply Hrows. by right. }
    exists w', (t1 ++ t2). split_and!.
    + simpl. unfold bind. by rewrite Hrun1, Hrun2.
    + congruence.
    + intros sid Hnin. simpl in Hnin.
      assert (sid ≠ s) as Hne by (intros ->; apply Hnin; by left).
      destruct (Hother sid Hne) as (H1 & H2 & H3).
      destruct (Hout sid) as (H4 & H5 & H6); [tauto|].
      rewrite tasks_started_app. split_and!; [congruence | congruence | lia].
    + intros sid [<- | Hsid]; simpl in *.
      * destruct (Hout s Hs') as (H4 & H5 & H6). rewrite tasks_started_app.
        destruct (get_server_by_id w s).
        -- destruct Hself as (H1 & H2 & H3). split_and!; [congruence | congruence | lia].
        -- destruct Hself as (H1 & H2 & H3). apply forgotten_rows in H1.
           split_and!; [apply forgotten_rows; congruence | congruence | lia].
      * assert (sid ≠ s) as Hne by (intros ->; done).
        destruct (Hother sid Hne) as (H1 & H2 & H3).
        specialize (Hin sid Hsid). rewrite Hget in Hin. rewrite tasks_started_app.
        destruct (get_server_by_id w sid).
        -- destruct Hin as (H4 & H5 & H6). split_and!; [congruence | congruence | lia].
        -- destruct Hin as (H4 & H5 & H6). split_and!; [done | congruence | lia].
Qed.

(** X16.  [on_ready] never raises.  A tenant whose guild the bot is still in
    keeps its rows, is appended to the registry and gets a task, whether or
    not the registry holds it already; a tenant whose guild is gone loses its
    rows in all three tables and gets no task.  The guilds are not
    touched. *)
Theorem on_ready_registers_every_row user w :
  let run := on_ready user w in
  result run = Val tt
  ∧ bot_guilds (world_after run) = bot_guilds w
  ∧ (∀ sid, is_Some (tbl_servers w !! sid) →
       match get_server_by_id w sid with
       | Some _ => tenant_rows sid (world_after run) = tenant_rows sid w
                   ∧ registered sid (world_after run) = S (registered sid w)
                   ∧ tasks_started sid (events run) = 1%nat
       | None => forgotten sid (world_after run)
                 ∧ registered sid (world_after run) = Nat.pred (registered sid w)
                 ∧ tasks_started sid (events run) = 0%nat
       end)
  ∧ (∀ sid, tbl_servers w !! sid = None →
       tenant_rows sid (world_after run) = tenant_rows sid w
       ∧ registered sid (world_after run) = registered sid w
       ∧ tasks_started sid (events run) = 0%nat).
Proof.
  intros run. subst run. unfold on_ready, bind, print, emit, get.
  destruct (on_ready_rows (map_to_list (tbl_servers w)) w)
    as (w' & tr & Hrun & Hg & Hout & Hin).
  { apply NoDup_fst_map_to_list. }
  { intros sid row Hrow. apply list_elem_of_In in Hrow.
    by apply elem_of_map_to_list in Hrow. }
  rewrite Hrun. cbn [result world_after events fst snd app].
  assert (∀ sid, In sid (map fst (map_to_list (tbl_servers w)))
                 ↔ is_Some (tbl_servers w !! sid)) as Hkeys.
  { intros sid. rewrite in_map_iff. split.
    - intros ([s r] & <- & Hrow). apply list_elem_of_In, elem_of_map_to_list in Hrow.
      by eexists.
    - intros [r Hr]. exists (sid, r). split; [done|].
      by apply list_elem_of_In, elem_of_map_to_list. }
  assert (∀ sid, tasks_started sid (EvPrint (Py.join " " ["Logged in as " +:+ user]) :: tr)
                 = tasks_started sid tr) as Htr by done.
  split_and!; [done | done | |].
  - intros sid Hsome. rewrite Htr. apply Hin. by apply Hkeys.
  - intros sid Hnone. rewrite Htr. apply Hout. rewrite Hkeys, Hnone. by intros [? ?].
Qed.

Lemma on_ready_registers_every_row_witness :
  let w := with_tbl_servers {[ 7 := Sample.row; 8 := Sample.row ]}
             (with_servers [] (Sample.world Sample.displays)) in
  let run := on_ready "bot#0001" w in
  registered 7 (world_after run) = 1%nat ∧ tasks_started 7 (events run) = 1%nat
  ∧ forgotten 8 (world_after run) ∧ tasks_started 8 (events run) = 0%nat.
Proof.
  intros w run.
  destruct (on_ready_registers_every_row "bot#0001" w) as (_ & _ & Hrows & _).
  pose proof (Hrows 7 ltac:(by eexists)) as (_ & Hreg & Htask).
  pose proof (Hrows 8 ltac:(by eexists)) as (Hgone & _ & Hnone).
  split; [etransitivity; [exact Hreg | reflexivity]|].
  split; [exact Htask|]. split; [exact Hgone | exact Hnone].
Defined.

(** ** How long the task sleeps *)

Lemma renames_app t1 t2 :
  existsb is_rename (t1 ++ t2) = existsb is_rename t1 || existsb is_rename t2.
Proof. apply existsb_app. Qed.

Lemma renames_harmless tr : Forall harmless tr → existsb is_rename tr = false.
Proof.
  induction 1 as [|ev tr (_ & _ & Hw) _ IH]; [done|]. simpl. rewrite IH.
  by destruct ev.
Qed.

Lemma edit_or_cleanup_wait sid currServ what c n w wait w' tr :
  edit_or_cleanup sid currServ what c n w = (Val (Sleep wait), w', tr) →
  wait = 301 ∧ existsb is_rename tr = true.
Proof.
  intros Hrun. unfold edit_or_cleanup, channel_edit in Hrun.
  repeat (run_inv; cbv beta in * ); done.
Qed.

Lemma create_voice_channel_renames g n w r w' tr :
  create_voice_channel g n w = (r, w', tr) → existsb is_rename tr = false.
Proof.
  intros Hrun. unfold create_voice_channel in Hrun.
  repeat (run_inv; cbv beta in * ); done.
Qed.

Lemma ip_block_wait sid currServ ip iChannels wait0 w wait w' tr :
  ip_block sid currServ ip iChannels wait0 w = (Val (Sleep wait), w', tr) →
  wait = if existsb is_rename tr then 301 else wait0.
Proof.
  intros Hrun. unfold ip_block in Hrun.
  destruct iChannels as [|i rest].
  - apply bind_inv in Hrun as [(a & w1 & t1 & t2 & H1 & H2 & ->) | (e & _ & [=])].
    apply create_voice_channel_renames in H1. unfold ret in H2. simplify_eq.
    by rewrite renames_app, H1.
  - destruct (negb (ch_name i =? "IP: " +:+ ip)%string).
    + apply edit_or_cleanup_wait in Hrun as [-> ->]. done.
    + unfold ret in Hrun. by simplify_eq.
Qed.

Lemma players_block_wait sid currServ loc pChannels wait0 w wait w' tr :
  players_block sid currServ loc pChannels wait0 w = (Val (Sleep wait), w', tr) →
  wait = if existsb is_rename tr then 301 else wait0.
Proof.
  intros Hrun. unfold players_block in Hrun.
  repeat (run_inv; cbv beta in * ).
  all: repeat match goal with
         | H : edit_or_cleanup _ _ _ _ _ _ = _ |- _ =>
             apply edit_or_cleanup_wait in H as [-> H]
         | H : create_voice_channel _ _ _ = _ |- _ =>
             apply create_voice_channel_renames in H
         end.
  all: rewrite ?renames_app; simpl; rewrite ?orb_false_r.
  all: repeat match goal with H : existsb is_rename _ = _ |- _ => rewrite H end.
  all: done.
Qed.

Lemma hours_block_wait sid currServ loc tChannels wait0 w wait w' tr :
  hours_block sid currServ loc tChannels wait0 w = (Val (Sleep wait), w', tr) →
  wait = if existsb is_rename tr then 301 else wait0.
Proof.
  intros Hrun. unfold hours_block, getShowHours in Hrun.
  repeat (run_inv; cbv beta in * ).
  all: repeat match goal with
         | H : edit_or_cleanup _ _ _ _ _ _ = _ |- _ =>
             apply edit_or_cleanup_wait in H as [-> H]
         | H : create_voice_channel _ _ _ = _ |- _ =>
             apply create_voice_channel_renames in H
         end.
  all: rewrite ?renames_app; simpl; rewrite ?orb_false_r.
  all: repeat match goal with H : existsb is_rename _ = _ |- _ => rewrite H end.
  all: done.
Qed.

Lemma and_then_wait (m : M Outcome) (k : Z → M Outcome) wait0 w wait w' tr :
  (∀ w wait w' tr, m w = (Val (Sleep wait), w', tr) →
     wait = if existsb is_rename tr then 301 else wait0) →
  (∀ wait1 w wait w' tr, k wait1 w = (Val (Sleep wait), w', tr) →
     wait = if existsb is_rename tr then 301 else wait1) →
  and_then m k w = (Val (Sleep wait), w', tr) →
  wait = if existsb is_rename tr then 301 else wait0.
Proof.
  intros Hm Hk Hrun. unfold and_then in Hrun.
  apply bind_inv in Hrun as [(o & w1 & t1 & t2 & H1 & H2 & ->) | (e & _ & [=])].
  destruct o as [wait1|]; [|discriminate H2].
  apply Hm in H1. apply Hk in H2. rewrite renames_app.
  destruct (existsb is_rename t1), (existsb is_rename t2); simpl; congruence.
Qed.

Lemma display_phase_wait sid currServ ip loc w wait w' tr :
  display_phase sid currServ ip loc w = (Val (Sleep wait), w', tr) →
  wait = if existsb is_rename tr then 301 else 10.
Proof.
  unfold display_phase. apply and_then_wait.
  - intros ????. apply ip_block_wait.
  - intros wait1 ????. apply and_then_wait.
    + intros ????. apply players_block_wait.
    + intros wait2 ????. apply hours_block_wait.
Qed.

(** X17.  A turn that renamed a channel is followed by a sleep of 301 seconds,
    every other turn that goes on by one of 10 seconds. *)
Theorem sleep_after_rename sid q now loc w loc' wait w' tr :
  status_iter sid q now loc w = (Val (loc', Sleep wait), w', tr) →
  wait = if existsb is_rename tr then 301 else 10.
Proof.
  intros Hrun. unfold status_iter, reconcile, getMCIP in Hrun.
  repeat (run_inv; cbv beta in * ); simpl in *; simplify_eq.
  all: try done.
  all: match goal with
       | H : query_phase _ _ _ _ _ _ = _ |- _ =>
           apply query_phase_guilds in H as [_ Hq]; apply renames_harmless in Hq
       end.
  all: match goal with
       | H : display_phase _ _ _ _ _ = _ |- _ => apply display_phase_wait in H
       end.
  all: rewrite ?app_nil_r, ?renames_app, ?Hq; simpl; done.
Qed.

Lemma sleep_after_rename_witness :
  let w := Sample.world [Sample.vc 1 "IP: old.example.com"; Sample.vc 2 "Players: 3/20"] in
  let run := status_iter 7 QueryTimeout 1600000000 Sample.warm w in
  existsb is_rename (events run) = true
  ∧ 301 = if existsb is_rename (events run) then 301 else 10.
Proof.
  intros w run. split; [vm_compute; reflexivity|].
  apply (sleep_after_rename 7 QueryTimeout 1600000000 Sample.warm w
           (end_of_iteration (query_failed Sample.warm)) 301
           (world_after run) (events run)).
  vm_compute. reflexivity.
Defined.

(** ** Outages *)






(** ** Turns that end the task *)

(** X19.  When the guild lets the bot create no channel and the address display is
    missing, the turn dies with [Forbidden]: [create_voice_channel] stands
    under no [try].  No teardown runs, so the registry keeps the tenant
    although its task is gone. *)
Theorem refused_creation_kills_the_task sid q now loc w g row t :
  get_server_by_id w sid = Some g →
  In sid (servers w) →
  tbl_servers w !! sid = Some row →
  row_ip row ≠ "" →
  tbl_times w !! sid = Some t →
  find_channels g None (Some "IP: ") "in" (Some voice) = [] →
  g_may_create g = false →
  let run := status_iter sid q now loc w in
  result run = Raised Forbidden
  ∧ teardowns (events run) = 0%nat
  ∧ In (EvCreateForbidden (g_id g) ("IP: " +:+ row_ip row)) (events run)
  ∧ In sid (servers (world_after run))
  ∧ bot_guilds (world_after run) = bot_guilds w.
Proof.
  intros Hg Hreg Hrow Hip Htime Hnone Hmay. cbv zeta.
  destruct (status_iter sid q now loc w) as [[r w'] tr] eqn:Hrun.
  cbn [result world_after events fst snd].
  destruct (status_iter_active _ _ _ _ _ g row _ _ _ Hg
              (registered_existsb _ _ Hreg) Hrow Hip Hrun)
    as [(e & Hqp & Hr) | (loc1 & w1 & t1 & ro & t2 & Hqp & Hd & Htr & Hr)].
  { exfalso. destruct q as [online cap names motd| | |].
    - rewrite (query_phase_ok _ _ _ _ _ _ _ _ _ _ _ Hrow Htime) in Hqp. discriminate.
    - destruct (query_phase_failed sid g QueryTimeout now loc w I) as (? & Hf). congruence.
    - destruct (query_phase_failed sid g QueryRefused now loc w I) as (? & Hf). congruence.
    - destruct (query_phase_failed sid g QueryUnresolved now loc w I) as (? & Hf). congruence. }
  destruct (query_phase_guilds _ _ _ _ _ _ _ _ _ Hqp) as [[Hguilds Hservers] Hharm].
  unfold display_phase, and_then, ip_block in Hd. rewrite Hnone in Hd.
  unfold create_voice_channel, bind, emit, raise in Hd. rewrite Hmay in Hd.
  cbn in Hd. injection Hd as <- <- <-.
  rewrite Hr, Htr. simpl. split_and!; [done | | | by rewrite Hservers | done].
  - rewrite teardowns_app, (teardowns_harmless _ Hharm). done.
  - apply in_or_app. right. rewrite (guild_has_id _ _ _ Hg). by left.
Qed.

Lemma refused_creation_kills_the_task_witness :
  let g := mkGuild 7 "Guild" [Sample.general] false in
  let w := with_guilds [g] (Sample.world []) in
  let run := status_iter 7 (QueryOk 3 20 ["alice"] "") 1600000000 task_start w in
  result run = Raised Forbidden ∧ In 7 (servers (world_after run)).
Proof.
  intros g w run.
  destruct (refused_creation_kills_the_task 7 (QueryOk 3 20 ["alice"] "") 1600000000
              task_start w g Sample.row 100%Q)
    as (Hr & _ & _ & Hreg & _).
  - reflexivity.
  - simpl. tauto.
  - reflexivity.
  - discriminate.
  - reflexivity.
  - reflexivity.
  - reflexivity.
  - split; [exact Hr | exact Hreg].
Defined.

Lemma without_channel_ids cid w : same_guild_ids w (without_channel cid w).
Proof.
  unfold same_guild_ids, without_channel. simpl. rewrite map_map. done.
Qed.

Lemma do_bot_cleanup_guild_ids sid ctx :
  respects same_guild_ids any_event (do_bot_cleanup sid ctx).
Proof.
  unfold do_bot_cleanup, getMCIP, channel_delete, log, safe_send, ctx_send.
  repeat first [ (intros ?; reflexivity)
               | (intros ? ? ? ? ?; unfold same_guild_ids; congruence)
               | respects_step
               | (intros ?; apply without_channel_ids) ]; try done.
  - unfold same_guild_ids. by destruct (existsb _ _).
  - apply without_channel_ids.
Qed.

Lemma guild_present w sid :
  is_Some (get_server_by_id w sid) ↔ In sid (map g_id (bot_guilds w)).
Proof.
  unfold get_server_by_id. induction (bot_guilds w) as [|g gs IH]; simpl.
  - split; [by intros [? ?] | done].
  - destruct (g_id g =? sid) eqn:Heq.
    + apply Z.eqb_eq in Heq. split; [by left | by eexists].
    + apply Z.eqb_neq in Heq. rewrite IH. split; [by right | by intros [? | ?]].
Qed.

Lemma teardown_kicked_no_row sid w :
  get_server_by_id w sid = None →
  tbl_servers w !! sid = None →
  do_bot_cleanup sid None w
  = (Raised TypeError, with_servers (list_remove sid (servers w)) w, [EvCleanup sid]).
Proof.
  intros Hg Hrow.
  unfold do_bot_cleanup, getMCIP, bind, emit, modify, get, fetchone, ret, raise.
  assert (∀ w0, bot_guilds w0 = bot_guilds w → get_server_by_id w0 sid = None) as Hg0
    by (intros w0 Heq; unfold get_server_by_id in *; by rewrite Heq).
  destruct (existsb (Z.eqb sid) (servers w)) eqn:Hreg.
  - rewrite Hg0 by done. cbn [tbl_servers with_servers]. rewrite Hrow. done.
  - rewrite Hg. rewrite Hrow. cbn. rewrite (list_remove_absent _ _ Hreg).
    by destruct w.
Qed.

(** X20.  When the bot is no longer in the guild, the turn touches no channel and
    ends the task: with a teardown that deletes the rows of the tenant, or,
    when the rows are gone already, with the [TypeError] of that teardown.
    Either way the tenant leaves the registry. *)
Theorem kicked_turn_ends_the_task sid q now loc w :
  get_server_by_id w sid = None →
  let run := status_iter sid q now loc w in
  servers (world_after run) = list_remove sid (servers w)
  ∧ bot_guilds (world_after run) = bot_guilds w
  ∧ teardowns (events run) = 1%nat
  ∧ deletions (events run) = []
  ∧ same_rows_but sid w (world_after run)
  ∧ match tbl_servers w !! sid with
    | Some _ => result run = Val (loc, Return) ∧ forgotten sid (world_after run)
    | None => result run = Raised TypeError
              ∧ tbl_names (world_after run) = tbl_names w
              ∧ tbl_times (world_after run) = tbl_times w
    end.
Proof.
  intros Hg. cbv zeta. unfold status_iter, bind, get, print, emit. rewrite Hg.
  destruct (tbl_servers w !! sid) as [row|] eqn:Hrow.
  - rewrite (teardown_kicked _ _ _ Hg Hrow).
    cbn [result world_after events fst snd ret app servers bot_guilds
         with_tbl_times with_tbl_names with_tbl_servers with_servers].
    split_and!; try done.
    + intros other Hne.
      cbn [tbl_servers tbl_times with_tbl_times with_tbl_names with_tbl_servers with_servers].
      rewrite !lookup_delete_ne by done.
      erewrite (roster_without sid other w) by reflexivity.
      by apply Z.eqb_neq in Hne as ->.
    + unfold forgotten.
      cbn [tbl_servers tbl_times with_tbl_times with_tbl_names with_tbl_servers with_servers].
      rewrite !lookup_delete_eq.
      erewrite (roster_without sid sid w) by reflexivity. by rewrite Z.eqb_refl.
  - rewrite (teardown_kicked_no_row _ _ Hg Hrow).
    cbn [result world_after events fst snd app servers bot_guilds with_servers].
    split_and!; done.
Qed.

Lemma kicked_turn_ends_the_task_witness :
  let w := with_guilds [] (Sample.world []) in
  let run := status_iter 7 QueryTimeout 1600000000 Sample.warm w in
  servers (world_after run) = [] ∧ result run = Val (Sample.warm, Return)
  ∧ forgotten 7 (world_after run).
Proof.
  intros w run.
  destruct (kicked_turn_ends_the_task 7 QueryTimeout 1600000000 Sample.warm w)
    as (Hreg & _ & _ & _ & _ & Hend).
  - reflexivity.
  - split; [etransitivity; [exact Hreg | reflexivity] | exact Hend].
Defined.

(** X21.  After a [$cleanup] that went through, in a registry without
    repetitions, the task of the tenant ends at its next turn: it reads and
    writes nothing and leaves a line on the console. *)
Theorem cleanup_ends_the_task ctx w w1 tr1 q now rest loc g :
  NoDup (servers w) →
  get_server_by_id w (g_id (ctx_guild ctx)) = Some g →
  cleanup ctx w = (Val tt, w1, tr1) →
  ∃ line, run_task (g_id (ctx_guild ctx)) ((q, now) :: rest) loc w1
          = (Val Returned, w1, [EvPrint line]).
Proof.
  intros Hnd Hg Hrun. unfold cleanup in Hrun.
  destruct (do_bot_cleanup_inv _ _ _ _ _ _ Hrun) as (_ & _ & _ & Hreg).
  destruct (do_bot_cleanup_guild_ids _ _ _ _ _ _ Hrun) as [Hids _].
  assert (is_Some (get_server_by_id w1 (g_id (ctx_guild ctx)))) as [g1 Hg1].
  { apply guild_present. rewrite Hids. apply guild_present. by eexists. }
  assert (existsb (Z.eqb (g_id (ctx_guild ctx))) (servers w1) = false) as Hout.
  { apply not_true_iff_false. intros (x & Hx & Heq)%existsb_exists.
    apply Z.eqb_eq in Heq. subst x. rewrite Hreg in Hx.
    by apply (list_remove_gone (g_id (ctx_guild ctx)) _ Hnd). }
  eexists. simpl. unfold bind, status_iter, bind, get, print, emit, ret.
  rewrite Hg1, Hout. reflexivity.
Qed.

Lemma cleanup_ends_the_task_witness :
  let w := Sample.world Sample.displays in
  let w1 := world_after (cleanup Sample.ctx w) in
  ∃ line, run_task 7 [(QueryOk 3 20 ["alice"] "", 1600000000); (QueryTimeout, 1700000000)]
            Sample.warm w1
          = (Val Returned, w1, [EvPrint line]).
Proof.
  intros w w1.
  apply (cleanup_ends_the_task Sample.ctx w w1 (events (cleanup Sample.ctx w))
           (QueryOk 3 20 ["alice"] "") 1600000000 [(QueryTimeout, 1700000000)]
           Sample.warm (Sample.guild Sample.displays)).
  - apply NoDup_singleton.
  - reflexivity.
  - vm_compute. reflexivity.
Defined.

(** ** The time of the last query *)

Lemma lastquery_run ctx w row :
  tbl_servers w !! g_id (ctx_guild ctx) = Some row →
  lastquery ctx w
  = (Val tt, w,
     if ctx_may_send ctx
     then [EvCtxSend (g_id (ctx_guild ctx))
             ("I last queried " +:+ row_ip row +:+ " at "
              +:+ str_last (row_last_query row) +:+ " UTC")]
     else [EvCtxSendForbidden (g_id (ctx_guild ctx))
             ("I last queried " +:+ row_ip row +:+ " at "
              +:+ str_last (row_last_query row) +:+ " UTC");
           EvPrint (Py.join " " [g_name (ctx_guild ctx);
                     "Error: I don't have permission to send messages here."])]).
Proof.
  intros Hrow.
  unfold lastquery, getMCIP, getMCQueryTime, bind, get, fetchone, ret.
  rewrite Hrow. cbn beta iota. rewrite Hrow. cbn beta iota.
  unfold safe_send, try_except, ctx_send, bind, emit, raise, print.
  change ("" +:+ ?s) with s. rewrite append_empty_r.
  destruct (ctx_may_send ctx); reflexivity.
Qed.

(** X22.  [$lastquery] names the address and the stored time of the last query.
    After a successful turn of the task that is the clock reading of that
    turn cut to whole seconds; for a tenant that was never queried the
    answer reads "at None UTC". *)
Theorem lastquery_reports_the_last_turn
    ctx online cap names motd now loc w g row t loc' wait w' tr :
  let gid := g_id (ctx_guild ctx) in
  get_server_by_id w gid = Some g →
  In gid (servers w) →
  tbl_servers w !! gid = Some row →
  row_ip row ≠ "" →
  tbl_times w !! gid = Some t →
  status_iter gid (QueryOk online cap names motd) now loc w
    = (Val (loc', Sleep wait), w', tr) →
  (row_last_query row = None →
   posts (events (lastquery ctx w))
   = [(if ctx_may_send ctx then EvCtxSend else EvCtxSendForbidden) gid
        ("I last queried " +:+ row_ip row +:+ " at None UTC")])
  ∧ posts (events (lastquery ctx w'))
    = [(if ctx_may_send ctx then EvCtxSend else EvCtxSendForbidden) gid
         ("I last queried " +:+ row_ip row +:+ " at "
          +:+ Py.str_datetime (1000000 * (now / 1000000)) +:+ " UTC")]
  ∧ world_after (lastquery ctx w') = w'.
Proof.
  intros gid Hg Hreg Hrow Hip Htime Hrun. subst gid.
  destruct (successful_turn _ _ _ _ _ _ _ _ _ _ _ _ _ _ _ Hg Hreg Hrow Hip Htime Hrun)
    as ((_ & Hservers & _ & _) & _ & _).
  pose proof (row_after_query (g_id (ctx_guild ctx)) names now loc row w Hrow) as Hrow'.
  rewrite <- Hservers in Hrow'.
  rewrite (lastquery_run _ _ _ Hrow), (lastquery_run _ _ _ Hrow').
  cbn [events world_after fst snd row_ip row_last_query set_last_query str_last].
  split_and!; [|by destruct (ctx_may_send ctx)|done].
  intros ->. by destruct (ctx_may_send ctx).
Qed.

Lemma lastquery_reports_the_last_turn_witness :
  let w := Sample.world Sample.displays in
  let run := status_iter 7 (QueryOk 3 20 ["alice"; "bob"; "dave"] "") 1600000123456
               Sample.warm w in
  posts (events (lastquery Sample.ctx (world_after run)))
  = [EvCtxSend 7 "I last queried mc.example.com at 1970-01-19 12:26:40 UTC"].
Proof.
  intros w run.
  destruct (lastquery_reports_the_last_turn Sample.ctx 3 20 ["alice"; "bob"; "dave"] ""
              1600000123456 Sample.warm w (Sample.guild Sample.displays) Sample.row 100%Q
              (end_of_iteration (after_query_locals 3 20 ["alice"; "bob"; "dave"]
                                   1600000123456 Sample.warm Sample.row 100%Q))
              10 (world_after run) (events run))
    as (_ & Hposts & _).
  - reflexivity.
  - simpl. tauto.
  - reflexivity.
  - discriminate.
  - reflexivity.
  - vm_compute. reflexivity.
  - rewrite Hposts. vm_compute. reflexivity.
Defined.

(** ** Announcements without a channel *)



(** ** Missing rows and failed queries *)

(** X24.  A turn whose query succeeds needs the row of the tenant in [times]:
    without it the turn stops with a [TypeError] at [getPersonSeconds], before
    anything is written, and the task is gone.  A turn whose query fails does
    not get that far and goes on. *)
Theorem turn_needs_the_times_row sid online cap names motd q now loc w g row :
  get_server_by_id w sid = Some g →
  In sid (servers w) →
  tbl_servers w !! sid = Some row →
  row_ip row ≠ "" →
  tbl_times w !! sid = None →
  status_iter sid (QueryOk online cap names motd) now loc w = (Raised TypeError, w, [])
  ∧ (failed q → ∃ line, query_phase sid g q now loc w
                        = (Val (query_failed loc), w, [EvPrint line])).
Proof.
  intros Hg Hreg Hrow Hip Htime. split; [|apply query_phase_failed].
  destruct (status_iter sid (QueryOk online cap names motd) now loc w)
    as [[r w'] tr] eqn:Hrun.
  destruct (status_iter_active _ _ _ _ _ g row _ _ _ Hg
              (registered_existsb _ _ Hreg) Hrow Hip Hrun)
    as [(e & Hqp & ->) | (loc1 & w1 & t1 & ro & t2 & Hqp & _)].
  all: unfold query_phase, query_block, getMCNames, getStatus, getMCQueryTime,
         getPersonSeconds in Hqp.
  all: repeat (run_inv; cbv beta in * ); simplify_eq.
  all: repeat match goal with
         | H : match ?e with _ => _ end = _ |- _ => destruct e; simplify_eq
         end.
  all: done.
Qed.

Lemma turn_needs_the_times_row_witness :
  let w := with_tbl_times ∅ (Sample.world Sample.displays) in
  status_iter 7 (QueryOk 3 20 ["alice"] "") 1600000000 Sample.warm w
  = (Raised TypeError, w, []).
Proof.
  intros w.
  destruct (turn_needs_the_times_row 7 3 20 ["alice"] "" QueryTimeout 1600000000
              Sample.warm w (Sample.guild Sample.displays) Sample.row)
    as (Hrun & _).
  - reflexivity.
  - simpl. tauto.
  - reflexivity.
  - discriminate.
  - reflexivity.
  - exact Hrun.
Defined.

(** X25.  [$status] and [$players] catch no failure of the query: when the server
    does not answer, the exception leaves the command and nothing is sent. *)
Theorem status_and_players_need_the_server ctx q w row :
  tbl_servers w !! g_id (ctx_guild ctx) = Some row →
  failed q →
  status ctx q w = (Raised (query_error q), w, [])
  ∧ players ctx q w = (Raised (query_error q), w, []).
Proof.
  intros Hrow Hq.
  unfold status, players, getMCIP, getStatus, bind, get, fetchone, ret, raise.
  rewrite Hrow. by destruct q.
Qed.

Lemma status_and_players_need_the_server_witness :
  let w := Sample.world Sample.displays in
  status Sample.ctx QueryRefused w = (Raised ConnectionRefusedError, w, [])
  ∧ players Sample.ctx QueryRefused w = (Raised ConnectionRefusedError, w, []).
Proof.
  intros w.
  apply (status_and_players_need_the_server Sample.ctx QueryRefused w Sample.row).
  - reflexivity.
  - exact I.
Defined.

(** X26.  When the text after the colon of the address is no number, the message
    to the user names the [port] argument, not that text. *)
Theorem bad_port_text_is_reported_as_the_argument ctx arg port w :
  port_part arg port = None →
  validate_ip_port ctx arg port w
  = (Val None, w,
     reply ctx (Py.str port +:+ " is not a valid port number, please try again.")).
Proof.
  intros Hp. unfold validate_ip_port. unfold port_part in Hp. rewrite Hp.
  by rewrite log_then_ret.
Qed.

Lemma bad_port_text_is_reported_as_the_argument_witness :
  validate_ip_port Sample.ctx "mc.example.com:abc" 25565 (Sample.world Sample.displays)
  = (Val None, Sample.world Sample.displays,
     reply Sample.ctx "25565 is not a valid port number, please try again.").
Proof.
  apply (bad_port_text_is_reported_as_the_argument Sample.ctx "mc.example.com:abc" 25565
           (Sample.world Sample.displays)).
  vm_compute. reflexivity.
Defined.

(** ** Seconds between turns *)






(** ** The first turn in a guild without displays *)

Lemma writes_harmless tr : Forall harmless tr → writes tr = [].
Proof.
  induction 1 as [|ev tr (_ & _ & Hw) _ IH]; [done|].
  unfold writes in *. simpl. unfold is_write at 1. by rewrite Hw.
Qed.

Lemma writes_app t1 t2 : writes (t1 ++ t2) = writes t1 ++ writes t2.
Proof. apply List.filter_app. Qed.

(** X28.  In a guild that has neither display and lets the bot create channels,
    the first turn of a task whose query succeeds creates the address
    display and the player-count display, in this order and with the values
    of the answer, creates no hours display and goes to sleep for 10
    seconds. *)
Theorem first_turn_creates_the_displays sid online cap names motd now loc w g row t :
  get_server_by_id w sid = Some g →
  In sid (servers w) →
  tbl_servers w !! sid = Some row →
  row_ip row ≠ "" →
  tbl_times w !! sid = Some t →
  find_channels g None (Some "IP: ") "in" (Some voice) = [] →
  find_channels g None (Some "Players: ") "in" (Some voice) = [] →
  g_may_create g = true →
  first_iter loc = true →
  let run := status_iter sid (QueryOk online cap names motd) now loc w in
  (∃ loc', result run = Val (loc', Sleep 10))
  ∧ writes (events run)
    = [EvCreate (g_id g) ("IP: " +:+ row_ip row);
       EvCreate (g_id g) ("Players: " +:+ Py.str online +:+ "/" +:+ Py.str cap)].
Proof.
  intros Hg Hreg Hrow Hip Htime Hi Hp Hmay Hfirst. cbv zeta.
  destruct (status_iter sid (QueryOk online cap names motd) now loc w)
    as [[r w'] tr] eqn:Hrun.
  cbn [result events fst snd].
  destruct (status_iter_active _ _ _ _ _ g row _ _ _ Hg
              (registered_existsb _ _ Hreg) Hrow Hip Hrun)
    as [(e & Hqp & Hr) | (loc1 & w1 & t1 & ro & t2 & Hqp & Hd & -> & ->)];
    rewrite (query_phase_ok _ _ _ _ _ _ _ _ _ _ _ Hrow Htime) in Hqp; [discriminate|].
  assert (Forall harmless (announce_events g row (joined names (roster w sid)))) as Hharm.
  { pose proof (query_phase_ok sid g online cap names motd now loc w row t Hrow Htime) as Hq.
    by apply query_phase_guilds in Hq as [_ ?]. }
  injection Hqp as <- <- <-.
  pose proof (row_after_query sid names now loc row w Hrow) as Hrow1.
  unfold display_phase, and_then, ip_block, players_block, hours_block,
    create_voice_channel, getShowHours in Hd.
  rewrite Hi, Hp, Hmay in Hd. cbn [negb] in Hd.
  repeat (run_inv; cbv beta in * ); simplify_eq.
  all: cbn [after_query_locals first_iter loc_players loc_max] in *; simplify_eq.
  all: rewrite ?Hfirst, ?andb_false_r in *; try discriminate.
  all: cbn [tbl_servers with_new_channel update_guild with_guilds] in *.
  all: try congruence.
  all: split; [by eexists|].
  all: rewrite !writes_app, (writes_harmless _ Hharm); reflexivity.
Qed.

Lemma first_turn_creates_the_displays_witness :
  let w := Sample.world [Sample.general] in
  let run := status_iter 7 (QueryOk 3 20 ["alice"; "bob"; "carol"] "") 1600000000
               task_start w in
  writes (events run) = [EvCreate 7 "IP: mc.example.com"; EvCreate 7 "Players: 3/20"].
Proof.
  intros w run.
  destruct (first_turn_creates_the_displays 7 3 20 ["alice"; "bob"; "carol"] ""
              1600000000 task_start w (Sample.guild [Sample.general]) Sample.row 100%Q)
    as (_ & Hwrites).
  - reflexivity.
  - simpl. tauto.
  - reflexivity.
  - discriminate.
  - reflexivity.
  - reflexivity.
  - reflexivity.
  - reflexivity.
  - reflexivity.
  - etransitivity; [exact Hwrites | vm_compute; reflexivity].
Defined.

(** ** A turn that finds everything in place *)







